(** * mcp-github: the response cleaner, the formatter and the tool handlers

    A shallow embedding of [src/tools/github.ts] and of its sibling copy
    [unnamed/part_000]: the JavaScript values the functions receive, the
    exceptions a property read can raise, [cleanGitHubResponse],
    [formatForHumans], and the handlers of the tools, from [listRepositories]
    to [createCommit]. *)

From Stdlib Require Import List ZArith NArith Lia Bool String Ascii DecimalString DecimalPos.
From Stdlib Require Import Permutation.
Import ListNotations.

Set Warnings "-register-all".
Local Open Scope list_scope.

(** ** The JavaScript runtime the code runs on *)

Module JS.

(** A JavaScript string is a sequence of UTF-16 code units; [length] and
    [substring] count code units. *)
Definition codeunit := N.
Definition jsstring := list codeunit.

(** The literals of the source are read from the UTF-8 text of this file. *)
Fixpoint bytes_of (s : string) : list N :=
  match s with
  | EmptyString => []
  | String c rest => N_of_ascii c :: bytes_of rest
  end.

Fixpoint utf8_points (bs : list N) : list N :=
  match bs with
  | [] => []
  | b0 :: t0 =>
    if (b0 <? 128)%N then b0 :: utf8_points t0
    else
      match t0 with
      | [] => []
      | b1 :: t1 =>
        if (b0 <? 224)%N then ((b0 mod 32) * 64 + b1 mod 64)%N :: utf8_points t1
        else
          match t1 with
          | [] => []
          | b2 :: t2 =>
            if (b0 <? 240)%N
            then ((b0 mod 16) * 4096 + (b1 mod 64) * 64 + b2 mod 64)%N :: utf8_points t2
            else
              match t2 with
              | [] => []
              | b3 :: t3 =>
                ((b0 mod 8) * 262144 + (b1 mod 64) * 4096 + (b2 mod 64) * 64 + b3 mod 64)%N
                  :: utf8_points t3
              end
          end
      end
  end.

Definition utf16_units (cp : N) : list codeunit :=
  if (cp <? 65536)%N then [cp]
  else [(55296 + (cp - 65536) / 1024)%N; (56320 + (cp - 65536) mod 1024)%N].

Definition lit (s : string) : jsstring := flat_map utf16_units (utf8_points (bytes_of s)).

(** The line feed of the template literals. *)
Definition nl : jsstring := [10%N].

Fixpoint str_eqb (a b : jsstring) : bool :=
  match a, b with
  | [], [] => true
  | x :: a', y :: b' => (x =? y)%N && str_eqb a' b'
  | _, _ => false
  end.

(** [s.substring(0, n)] *)
Definition substring0 (n : nat) (s : jsstring) : jsstring := firstn n s.

(** Values as [JSON.parse] and object literals build them.  Numbers are the
    integers (identifiers, counts, page numbers); an object is its own
    properties in insertion order, and a property may hold [undefined]. *)
Inductive value : Type :=
| VUndefined
| VNull
| VBool (b : bool)
| VNum (n : Z)
| VStr (s : jsstring)
| VArr (items : list value)
| VObj (fields : list (jsstring * value)).

Definition object := list (jsstring * value).

(** A completion is normal or abrupt; every exception the code can meet is an
    [Error] instance, kept here as its [message]. *)
Inductive completion (A : Type) : Type :=
| Normal (a : A)
| Throw (message : jsstring).
Arguments Normal {A} a.
Arguments Throw {A} message.

Definition bind {A B} (c : completion A) (k : A -> completion B) : completion B :=
  match c with
  | Normal a => k a
  | Throw m => Throw m
  end.

Declare Scope js_scope.
Delimit Scope js_scope with js.
Notation "x <- c ;; k" := (bind c (fun x => k))
  (at level 61, c at next level, right associativity) : js_scope.
Local Open Scope js_scope.

Fixpoint mapM {A B} (f : A -> completion B) (l : list A) : completion (list B) :=
  match l with
  | [] => Normal []
  | x :: rest => y <- f x ;; ys <- mapM f rest ;; Normal (y :: ys)
  end.

Fixpoint foldM {A B} (f : B -> A -> completion B) (l : list A) (acc : B) : completion B :=
  match l with
  | [] => Normal acc
  | x :: rest => acc' <- f acc x ;; foldM f rest acc'
  end.

(** Own property lookup; [undefined] when the name is absent. *)
Fixpoint lookup (k : jsstring) (fs : object) : value :=
  match fs with
  | [] => VUndefined
  | (k', v) :: rest => if str_eqb k k' then v else lookup k rest
  end.

(** [o[k] = v]: an existing property keeps its place, a new one goes last. *)
Fixpoint assign (k : jsstring) (v : value) (fs : object) : object :=
  match fs with
  | [] => [(k, v)]
  | (k', v') :: rest => if str_eqb k k' then (k', v) :: rest else (k', v') :: assign k v rest
  end.

Definition has_key (k : jsstring) (fs : object) : bool :=
  existsb (fun kv => str_eqb k (fst kv)) fs.

(** The message V8 gives to the [TypeError] of a read through [undefined] or
    [null]. *)
Definition cannotRead (what : string) (k : jsstring) : jsstring :=
  lit "Cannot read properties of " ++ lit what ++ lit " (reading '" ++ k ++ lit "')".

(** [v[k]] and [v.k] for the property names the source reads: none of them is
    an index or a name found on a prototype, apart from [length]. *)
Definition get (v : value) (k : jsstring) : completion value :=
  match v with
  | VUndefined => Throw (cannotRead "undefined" k)
  | VNull => Throw (cannotRead "null" k)
  | VObj fs => Normal (lookup k fs)
  | VArr items =>
    Normal (if str_eqb k (lit "length") then VNum (Z.of_nat (List.length items)) else VUndefined)
  | VStr s =>
    Normal (if str_eqb k (lit "length") then VNum (Z.of_nat (List.length s)) else VUndefined)
  | VBool _ | VNum _ => Normal VUndefined
  end.

(** ToBoolean *)
Definition truthy (v : value) : bool :=
  match v with
  | VUndefined | VNull => false
  | VBool b => b
  | VNum n => negb (n =? 0)%Z
  | VStr s => match s with [] => false | _ => true end
  | VArr _ | VObj _ => true
  end.

Definition isUndefined (v : value) : bool :=
  match v with VUndefined => true | _ => false end.

(** [typeof v === 'object'] *)
Definition typeofObject (v : value) : bool :=
  match v with VNull | VArr _ | VObj _ => true | _ => false end.

(** [typeof v === 'string'] *)
Definition typeofString (v : value) : bool :=
  match v with VStr _ => true | _ => false end.

(** [v === 'text'] *)
Definition strictEqStr (v : value) (text : jsstring) : bool :=
  match v with VStr s => str_eqb s text | _ => false end.

(** [a || b] *)
Definition orElse (a b : value) : value := if truthy a then a else b.

Fixpoint join (sep : jsstring) (parts : list jsstring) : jsstring :=
  match parts with
  | [] => []
  | [p] => p
  | p :: rest => p ++ sep ++ join sep rest
  end.

Definition numToStr (n : Z) : jsstring := lit (NilZero.string_of_int (Z.to_int n)).

(** ToString, as a template literal applies it. *)
Fixpoint toStr (v : value) : jsstring :=
  match v with
  | VUndefined => lit "undefined"
  | VNull => lit "null"
  | VBool true => lit "true"
  | VBool false => lit "false"
  | VNum n => numToStr n
  | VStr s => s
  | VArr items =>
    join (lit ",")
      (map (fun x => match x with VUndefined | VNull => [] | _ => toStr x end) items)
  | VObj _ => lit "[object Object]"
  end.

(** [items.join(sep)] *)
Definition arrayJoin (sep : jsstring) (items : list value) : jsstring :=
  join sep (map (fun x => match x with VUndefined | VNull => [] | _ => toStr x end) items).

(** What the code takes from the host: [Date.parse] ([None] is [NaN]), the
    locale rendering of a time value, [JSON.stringify(v, null, 2)] as a
    template literal prints it, and whether a string converts to a number
    above a given one. *)
Record Host : Type := {
  dateParse : jsstring -> option Z;
  localeString : Z -> jsstring;
  jsonStringify : value -> jsstring;
  numeralAbove : jsstring -> Z -> bool
}.

(** [v > bound] *)
Definition above (host : Host) (v : value) (bound : Z) : bool :=
  match v with
  | VUndefined | VObj _ => false
  | VNull => (bound <? 0)%Z
  | VBool b => (bound <? (if b then 1 else 0))%Z
  | VNum n => (bound <? n)%Z
  | VStr s => numeralAbove host s bound
  | VArr _ => numeralAbove host (toStr v) bound
  end.

(** The time value of [new Date(v)]; [None] is the invalid date. *)
Definition newDate (host : Host) (v : value) : option Z :=
  match v with
  | VUndefined => None
  | VNull => Some 0%Z
  | VBool b => Some (if b then 1 else 0)%Z
  | VNum n => if (Z.abs n <=? 8640000000000000)%Z then Some n else None
  | VStr s => dateParse host s
  | VArr _ | VObj _ => dateParse host (toStr v)
  end.

(** [d.toLocaleString()] *)
Definition toLocaleString (host : Host) (d : option Z) : jsstring :=
  match d with
  | Some t => localeString host t
  | None => lit "Invalid Date"
  end.

(** [Object.entries(v)] *)
Definition indexed {A} (f : A -> value) (l : list A) : object :=
  map (fun p => (numToStr (Z.of_nat (fst p)), f (snd p))) (combine (seq 0 (List.length l)) l).

Definition entries (v : value) : completion object :=
  match v with
  | VUndefined | VNull => Throw (lit "Cannot convert undefined or null to object")
  | VObj fs => Normal fs
  | VArr items => Normal (indexed (fun x => x) items)
  | VStr s => Normal (indexed (fun c => VStr [c]) s)
  | VBool _ | VNum _ => Normal []
  end.

Notation "v .[ k ]" := (get v (lit k)) (at level 1, format "v .[ k ]") : js_scope.

End JS.

(** ** [src/tools/github.ts] *)

Module GithubTs.
Import JS.
Local Open Scope js_scope.

(** *** [cleanGitHubResponse] *)

Definition keysToKeep : list jsstring :=
  map lit
    [ "id"; "name"; "login"; "full_name"; "html_url"; "description"; "private";
      "created_at"; "updated_at"; "pushed_at"; "language"; "default_branch";
      "number"; "title"; "state"; "body"; "sha" ]%string.

(** The text kept of a long [body] or [description]. *)
Definition truncated (limit : nat) (s : jsstring) : jsstring :=
  if (limit <? List.length s)%nat then substring0 limit s ++ lit "..." else s.

(** One turn of the loop over [keysToKeep]. *)
Definition keepKey (obj : value) (result : object) (key : jsstring) : completion object :=
  v <- get obj key ;;
  if isUndefined v then Normal result
  else
    match v with
    | VStr s =>
      if (300 <? List.length s)%nat
         && (str_eqb key (lit "body") || str_eqb key (lit "description"))
      then Normal (assign key (VStr (substring0 300 s ++ lit "...")) result)
      else Normal (assign key v result)
    | _ => Normal (assign key v result)
    end.

(** [if (obj.owner && typeof obj.owner === 'object' && obj.owner.login)
    result.owner = obj.owner.login], and the same for [user]. *)
Definition flattenLogin (obj : value) (name : jsstring) (result : object) : completion object :=
  ref <- get obj name ;;
  if truthy ref && typeofObject ref then
    login <- ref.["login"] ;;
    Normal (if truthy login then assign name login result else result)
  else Normal result.

Definition removeExcessiveFields (obj : value) : completion object :=
  result <- foldM (keepKey obj) keysToKeep [] ;;
  result <- flattenLogin obj (lit "owner") result ;;
  result <- flattenLogin obj (lit "user") result ;;
  Normal result.

(** [if (src.from) cleaned.to = src.from] *)
Definition copyIfTruthy (src : value) (from to : string) (cleaned : object) : completion object :=
  v <- src.[from] ;;
  Normal (if truthy v then assign (lit to) v cleaned else cleaned).

(** [if (src.from !== undefined) cleaned.to = src.from] *)
Definition copyIfDefined (src : value) (from to : string) (cleaned : object) : completion object :=
  v <- src.[from] ;;
  Normal (if isUndefined v then cleaned else assign (lit to) v cleaned).

(** [if (src.outer && src.outer.inner) cleaned.to = src.outer.inner] *)
Definition copyInner (src : value) (outer inner to : string) (cleaned : object)
    : completion object :=
  o <- src.[outer] ;;
  if truthy o then
    i <- o.[inner] ;;
    Normal (if truthy i then assign (lit to) i cleaned else cleaned)
  else Normal cleaned.

(** [if (issue.from) cleaned.from = Array.isArray(issue.from)
      ? issue.from.map(x => typeof x === 'string' ? x : x.field) : issue.from] *)
Definition copyNames (issue : value) (from field : string) (cleaned : object) : completion object :=
  v <- issue.[from] ;;
  if truthy v then
    match v with
    | VArr items =>
      names <- mapM (fun x => if typeofString x then Normal x else x.[field]) items ;;
      Normal (assign (lit from) (VArr names) cleaned)
    | _ => Normal (assign (lit from) v cleaned)
    end
  else Normal cleaned.

Definition cleanRepository (repo : value) : completion value :=
  cleaned <- removeExcessiveFields repo ;;
  cleaned <- copyIfTruthy repo "topics" "topics" cleaned ;;
  cleaned <- copyIfDefined repo "open_issues_count" "open_issues_count" cleaned ;;
  cleaned <- copyIfTruthy repo "clone_url" "clone_url" cleaned ;;
  cleaned <- copyIfDefined repo "stargazers_count" "stars" cleaned ;;
  cleaned <- copyIfTruthy repo "visibility" "visibility" cleaned ;;
  Normal (VObj cleaned).

Definition cleanPullRequest (pr : value) : completion value :=
  cleaned <- removeExcessiveFields pr ;;
  cleaned <- copyIfTruthy pr "merged_at" "merged_at" cleaned ;;
  cleaned <- copyInner pr "head" "ref" "head_branch" cleaned ;;
  cleaned <- copyInner pr "base" "ref" "base_branch" cleaned ;;
  cleaned <- copyIfDefined pr "merged" "merged" cleaned ;;
  Normal (VObj cleaned).

Definition cleanIssue (issue : value) : completion value :=
  cleaned <- removeExcessiveFields issue ;;
  cleaned <- copyIfTruthy issue "closed_at" "closed_at" cleaned ;;
  cleaned <- copyNames issue "labels" "name" cleaned ;;
  cleaned <- copyNames issue "assignees" "login" cleaned ;;
  Normal (VObj cleaned).

Definition cleanGeneric (obj : value) : completion value :=
  result <- removeExcessiveFields obj ;;
  Normal (VObj result).

(** [Array.isArray(data) ? data.map(f) : f(data)]: each [case] of the source
    writes the same body once for the elements and once for the object. *)
Definition eachOrOne (f : value -> completion value) (data : value) : completion value :=
  match data with
  | VArr items => cleaned <- mapM f items ;; Normal (VArr cleaned)
  | _ => f data
  end.

(** The body of the [try]. *)
Definition cleaning (data : value) (type : jsstring) : completion value :=
  if str_eqb type (lit "repository") then eachOrOne cleanRepository data
  else if str_eqb type (lit "pull_request") then eachOrOne cleanPullRequest data
  else if str_eqb type (lit "issue") then eachOrOne cleanIssue data
  else eachOrOne cleanGeneric data.

Definition cleanGitHubResponse (data : value) (type : jsstring) : value :=
  match cleaning data type with
  | Normal cleaned => cleaned
  | Throw _ => data
  end.

(** *** [formatForHumans] *)

Section Formatting.
Context (host : Host).

(** [new Date(v).toLocaleString()] *)
Definition dateText (v : value) : jsstring := toLocaleString host (newDate host v).

(** [if (v) result += `label${v}\n`] *)
Definition line (label : string) (v : value) : list jsstring :=
  if truthy v then [lit label ++ toStr v ++ nl] else [].

(** [if (v) result += `label${new Date(v).toLocaleString()}\n`] *)
Definition dateLine (label : string) (v : value) : list jsstring :=
  if truthy v then [lit label ++ dateText v ++ nl] else [].

(** [if (x.topics && x.topics.length > 0) result += `label${x.topics.join(', ')}\n`] *)
Definition topicsLine (x label : string) (topics : value) : completion (list jsstring) :=
  if truthy topics then
    len <- topics.["length"] ;;
    if above host len 0 then
      match topics with
      | VArr items => Normal [lit label ++ arrayJoin (lit ", ") items ++ nl]
      | _ => Throw (lit x ++ lit ".topics.join is not a function")
      end
    else Normal []
  else Normal [].

(** [state === 'open' ? '开放' : '关闭'] *)
Definition stateText (state : value) : jsstring :=
  if strictEqStr state (lit "open") then lit "开放" else lit "关闭".

(** [if (merged !== undefined) result += `label${merged ? '是' : '否'}\n`] *)
Definition mergedLine (label : string) (merged : value) : list jsstring :=
  if isUndefined merged then []
  else [lit label ++ (if truthy merged then lit "是" else lit "否") ++ nl].

(** [`${index + 1}`] *)
Definition ordinal (index : nat) : jsstring := numToStr (Z.of_nat index + 1).

(** The callbacks of [data.forEach((item, index) => ...)]: each returns the
    pieces it appends to [result]. *)
Definition repositoryEntry (index : nat) (repo : value) : completion (list jsstring) :=
  full_name <- repo.["full_name"] ;;
  name <- repo.["name"] ;;
  description <- repo.["description"] ;;
  html_url <- repo.["html_url"] ;;
  language <- repo.["language"] ;;
  stars <- repo.["stars"] ;;
  belongsTo <- repo.["belongsTo"] ;;
  topics <- repo.["topics"] ;;
  tags <- topicsLine "repo" "   主题标签: " topics ;;
  updated_at <- repo.["updated_at"] ;;
  Normal ([ordinal index ++ lit ". " ++ toStr (orElse full_name name) ++ nl]
          ++ line "   描述: " description
          ++ [lit "   链接: " ++ toStr html_url ++ nl]
          ++ line "   主要语言: " language
          ++ line "   星标数: " stars
          ++ line "   仓库所有者: " belongsTo
          ++ tags
          ++ [lit "   更新于: " ++ dateText updated_at ++ nl ++ nl]).

Definition repositoryDetails (data : value) : completion (list jsstring) :=
  full_name <- data.["full_name"] ;;
  name <- data.["name"] ;;
  description <- data.["description"] ;;
  html_url <- data.["html_url"] ;;
  language <- data.["language"] ;;
  stars <- data.["stars"] ;;
  topics <- data.["topics"] ;;
  tags <- topicsLine "data" "主题标签: " topics ;;
  updated_at <- data.["updated_at"] ;;
  Normal ([lit "仓库: " ++ toStr (orElse full_name name) ++ nl]
          ++ line "描述: " description
          ++ [lit "链接: " ++ toStr html_url ++ nl]
          ++ line "主要语言: " language
          ++ line "星标数: " stars
          ++ tags
          ++ [lit "更新于: " ++ dateText updated_at ++ nl]).

Definition pullRequestEntry (index : nat) (pr : value) : completion (list jsstring) :=
  state <- pr.["state"] ;;
  number <- pr.["number"] ;;
  title <- pr.["title"] ;;
  user <- pr.["user"] ;;
  created_at <- pr.["created_at"] ;;
  merged <- pr.["merged"] ;;
  merged_at <- pr.["merged_at"] ;;
  html_url <- pr.["html_url"] ;;
  Normal ([ordinal index ++ lit ". [" ++ stateText state ++ lit "] #" ++ toStr number
             ++ lit ": " ++ toStr title ++ nl]
          ++ line "   创建者: " user
          ++ dateLine "   创建于: " created_at
          ++ mergedLine "   已合并: " merged
          ++ dateLine "   合并于: " merged_at
          ++ [lit "   链接: " ++ toStr html_url ++ nl ++ nl]).

Definition pullRequestDetails (data : value) : completion (list jsstring) :=
  number <- data.["number"] ;;
  title <- data.["title"] ;;
  state <- data.["state"] ;;
  user <- data.["user"] ;;
  created_at <- data.["created_at"] ;;
  merged <- data.["merged"] ;;
  merged_at <- data.["merged_at"] ;;
  html_url <- data.["html_url"] ;;
  Normal ([lit "拉取请求 #" ++ toStr number ++ lit ": " ++ toStr title ++ nl]
          ++ [lit "状态: " ++ stateText state ++ nl]
          ++ line "创建者: " user
          ++ dateLine "创建于: " created_at
          ++ mergedLine "已合并: " merged
          ++ dateLine "合并于: " merged_at
          ++ [lit "链接: " ++ toStr html_url ++ nl]).

Definition issueEntry (index : nat) (issue : value) : completion (list jsstring) :=
  state <- issue.["state"] ;;
  number <- issue.["number"] ;;
  title <- issue.["title"] ;;
  user <- issue.["user"] ;;
  created_at <- issue.["created_at"] ;;
  closed_at <- issue.["closed_at"] ;;
  html_url <- issue.["html_url"] ;;
  Normal ([ordinal index ++ lit ". [" ++ stateText state ++ lit "] #" ++ toStr number
             ++ lit ": " ++ toStr title ++ nl]
          ++ line "   创建者: " user
          ++ dateLine "   创建于: " created_at
          ++ dateLine "   关闭于: " closed_at
          ++ [lit "   链接: " ++ toStr html_url ++ nl ++ nl]).

Definition issueDetails (data : value) : completion (list jsstring) :=
  number <- data.["number"] ;;
  title <- data.["title"] ;;
  state <- data.["state"] ;;
  user <- data.["user"] ;;
  created_at <- data.["created_at"] ;;
  closed_at <- data.["closed_at"] ;;
  html_url <- data.["html_url"] ;;
  Normal ([lit "议题 #" ++ toStr number ++ lit ": " ++ toStr title ++ nl]
          ++ [lit "状态: " ++ stateText state ++ nl]
          ++ line "创建者: " user
          ++ dateLine "创建于: " created_at
          ++ dateLine "关闭于: " closed_at
          ++ [lit "链接: " ++ toStr html_url ++ nl]).

Definition userEntry (index : nat) (user : value) : completion (list jsstring) :=
  login <- user.["login"] ;;
  name <- user.["name"] ;;
  html_url <- user.["html_url"] ;;
  description <- user.["description"] ;;
  Normal ([ordinal index ++ lit ". " ++ toStr (orElse login name) ++ nl]
          ++ line "   主页: " html_url
          ++ line "   描述: " description
          ++ [nl]).

Definition userDetails (data : value) : completion (list jsstring) :=
  login <- data.["login"] ;;
  name <- data.["name"] ;;
  html_url <- data.["html_url"] ;;
  description <- data.["description"] ;;
  Normal ([lit "用户: " ++ toStr (orElse login name) ++ nl]
          ++ line "主页: " html_url
          ++ line "描述: " description).

(** [data.forEach(entry)], the index counted from [index]. *)
Fixpoint forEachFrom {A} (entry : nat -> value -> completion (list A)) (index : nat)
    (items : list value) : completion (list A) :=
  match items with
  | [] => Normal []
  | item :: rest =>
    pieces <- entry index item ;;
    more <- forEachFrom entry (S index) rest ;;
    Normal (pieces ++ more)
  end.

(** One [case] of the four kinds: the sentence of the empty array, the count
    line and the entries of an array, the details of anything else. *)
Definition listing (none counted : string)
    (entry : nat -> value -> completion (list jsstring))
    (details : value -> completion (list jsstring)) (data : value)
    : completion (list jsstring) :=
  match data with
  | VArr [] => Normal [lit none]
  | VArr items =>
    pieces <- forEachFrom entry 0 items ;;
    Normal ((lit "找到 " ++ numToStr (Z.of_nat (List.length items)) ++ lit counted ++ nl ++ nl)
              :: pieces)
  | _ => details data
  end.

(** [Object.entries(item).map(([key, value]) => `${key}: ${value}`).join(sep)] *)
Definition dump (sep : jsstring) (item : value) : completion jsstring :=
  fields <- entries item ;;
  Normal (join sep (map (fun kv => fst kv ++ lit ": " ++ toStr (snd kv)) fields)).

Definition dumpEntry (index : nat) (item : value) : completion (list jsstring) :=
  text <- dump (nl ++ lit "   ") item ;;
  Normal [ordinal index ++ lit ". " ++ text ++ nl].

Definition dumpAny (data : value) : completion (list jsstring) :=
  match data with
  | VArr items =>
    blocks <- forEachFrom dumpEntry 0 items ;;
    Normal [lit "数据列表:" ++ nl ++ nl ++ join nl blocks]
  | _ =>
    text <- dump nl data ;;
    Normal [lit "数据详情:" ++ nl ++ nl ++ text ++ nl]
  end.

(** The body of the [try]: the pieces of the returned string, in order. *)
Definition formatting (data : value) (type : jsstring) : completion (list jsstring) :=
  if str_eqb type (lit "repository")
  then listing "未找到任何仓库。" " 个仓库:" repositoryEntry repositoryDetails data
  else if str_eqb type (lit "pull_request")
  then listing "未找到任何拉取请求。" " 个拉取请求:" pullRequestEntry pullRequestDetails data
  else if str_eqb type (lit "issue")
  then listing "未找到任何议题。" " 个议题:" issueEntry issueDetails data
  else if str_eqb type (lit "user")
  then listing "未找到任何用户。" " 个用户:" userEntry userDetails data
  else dumpAny data.

Definition formatForHumans (data : value) (type : jsstring) : jsstring :=
  match formatting data type with
  | Normal pieces => List.concat pieces
  | Throw _ => lit "数据:" ++ nl ++ jsonStringify host data
  end.

End Formatting.

(** *** The tool handlers *)

(** [{ content: [{ type: "text", text }] }] *)
Record contentItem : Type := { type : jsstring; text : jsstring }.
Record toolResult : Type := { content : list contentItem }.

Definition textResult (t : jsstring) : toolResult :=
  {| content := [ {| type := lit "text"; text := t |} ] |}.

(** What an awaited Octokit call gives back; of the response the handlers
    read [data] only. *)
Record response : Type := { data : value }.

(** The endpoints the modelled handlers call.  An awaited call completes with
    the response or throws the [RequestError] of a failed request. *)
Record Octokit : Type := {
  repos_listForAuthenticatedUser : object -> completion response;
  repos_replaceAllTopics : object -> completion response;
  repos_get : object -> completion response;
  repos_update : object -> completion response;
  issues_get : object -> completion response;
  issues_listComments : object -> completion response;
  pulls_listReviewComments : object -> completion response
}.

(** [try { body } catch (error: any) { return { content: [{ type: "text",
    text: `Error: ${error.message}` }] }; }]: what the promise of the handler
    settles to. *)
Definition catching (body : completion toolResult) : completion toolResult :=
  match body with
  | Normal result => Normal result
  | Throw message => Normal (textResult (lit "Error: " ++ message))
  end.

(** [target.k = v] in the strict code of a class body.  A named property put
    on an array is read back by nothing here and is dropped. *)
Definition setProp (target : value) (k : string) (v : value) : completion value :=
  match target with
  | VObj fs => Normal (VObj (assign (lit k) v fs))
  | VArr items => Normal (VArr items)
  | VUndefined => Throw (lit "Cannot set properties of undefined (setting '" ++ lit k ++ lit "')")
  | VNull => Throw (lit "Cannot set properties of null (setting '" ++ lit k ++ lit "')")
  | VBool _ | VNum _ | VStr _ =>
    Throw (lit "Cannot create property '" ++ lit k ++ lit "' on "
             ++ match target with
                | VBool _ => lit "boolean"
                | VNum _ => lit "number"
                | _ => lit "string"
                end
             ++ lit " '" ++ toStr target ++ lit "'")
  end.

Definition optional {A} (inj : A -> value) (o : option A) : value :=
  match o with Some a => inj a | None => VUndefined end.

(** [if (data.from !== undefined) params.to = data.from], [given] being the
    [...data] of the handler's arguments. *)
Definition passDefined (given : object) (from to : string) (params : object) : object :=
  let v := lookup (lit from) given in
  if isUndefined v then params else assign (lit to) v params.

(** The pagination record of the comment listings. *)
Record pagination : Type := {
  current_page : Z;
  total_comments : value;
  has_next_page : bool;
  next_page : option Z
}.

(** [getIssueComments]: the request for the comments and the record built
    from the answer. *)
Definition issueCommentsRequest (owner repo : jsstring) (issueNumber page : Z) : object :=
  [ (lit "owner", VStr owner); (lit "repo", VStr repo); (lit "issue_number", VNum issueNumber);
    (lit "per_page", VNum 30); (lit "page", VNum page) ].

Definition issueCommentsPagination (page : Z) (comments : list value) : pagination :=
  {| current_page := page;
     total_comments := if (30 <=? List.length comments)%nat then VStr (lit "30+")
                       else VNum (Z.of_nat (List.length comments));
     has_next_page := (30 <=? List.length comments)%nat;
     next_page := if (30 <=? List.length comments)%nat then Some (page + 1)%Z else None |}.

(** [getPullRequestComments]: its two requests for comments and the record
    built from the two answers; [allComments] is the two arrays merged and
    sorted. *)
Definition pullCommentsRequest (owner repo : jsstring) (pullNumber page : Z) : object :=
  [ (lit "owner", VStr owner); (lit "repo", VStr repo); (lit "issue_number", VNum pullNumber);
    (lit "per_page", VNum 20); (lit "page", VNum page) ].

Definition reviewCommentsRequest (owner repo : jsstring) (pullNumber page : Z) : object :=
  [ (lit "owner", VStr owner); (lit "repo", VStr repo); (lit "pull_number", VNum pullNumber);
    (lit "per_page", VNum 20); (lit "page", VNum page) ].

Definition pullRequestCommentsPagination (page : Z) (issueComments reviewComments : list value)
    : pagination :=
  let hasMoreIssueComments := (20 <=? List.length issueComments)%nat in
  let hasMoreReviewComments := (20 <=? List.length reviewComments)%nat in
  {| current_page := page;
     total_comments := VNum (Z.of_nat (List.length (issueComments ++ reviewComments)));
     has_next_page := hasMoreIssueComments || hasMoreReviewComments;
     next_page := if hasMoreIssueComments || hasMoreReviewComments
                  then Some (page + 1)%Z else None |}.

Section Handlers.
Context (host : Host) (octokit : Octokit).

Definition listRepositories (type sort direction : option jsstring) (perPage : option Z)
    : completion toolResult :=
  let type := match type with Some t => t | None => lit "all" end in
  let sort := match sort with Some s => s | None => lit "updated" end in
  let perPage := match perPage with Some n => n | None => 100%Z end in
  catching (
    let params := [ (lit "type", VStr type); (lit "sort", VStr sort);
                    (lit "direction", optional VStr direction);
                    (lit "per_page", VNum perPage) ] in
    result <- repos_listForAuthenticatedUser octokit params ;;
    let cleanedData := cleanGitHubResponse (data result) (lit "repository") in
    let text := formatForHumans host cleanedData (lit "repository") in
    Normal (textResult text)).

(** [if (topicsResult && topicsResult.data.names) cleanedData.topics =
    topicsResult.data.names] *)
Definition addTopics (topicsResult : option response) (cleanedData : value) : completion value :=
  match topicsResult with
  | Some r =>
    names <- (data r).["names"] ;;
    if truthy names then setProp cleanedData "topics" names else Normal cleanedData
  | None => Normal cleanedData
  end.

(** [updateRepository]; [given] is the [...data] of the source: the optional
    arguments that were passed. *)
Definition updateRepository (owner repo : jsstring) (given : object) : completion toolResult :=
  catching (
    let params := [ (lit "owner", VStr owner); (lit "repo", VStr repo) ] in
    let params := passDefined given "hasIssues" "has_issues" params in
    let params := passDefined given "hasProjects" "has_projects" params in
    let params := passDefined given "hasWiki" "has_wiki" params in
    let params := passDefined given "defaultBranch" "default_branch" params in
    let params := passDefined given "allowSquashMerge" "allow_squash_merge" params in
    let params := passDefined given "allowMergeCommit" "allow_merge_commit" params in
    let params := passDefined given "allowRebaseMerge" "allow_rebase_merge" params in
    let params := passDefined given "name" "name" params in
    let params := passDefined given "description" "description" params in
    let params := passDefined given "homepage" "homepage" params in
    let params := passDefined given "private" "private" params in
    let params := passDefined given "archived" "archived" params in
    let topics := lookup (lit "topics") given in
    let topicsResult :=
      if isUndefined topics then None
      else
        match repos_replaceAllTopics octokit
                [ (lit "owner", VStr owner); (lit "repo", VStr repo); (lit "names", topics) ] with
        | Normal r => Some r
        | Throw _ => None
        end in
    if (List.length params <=? 2)%nat && (match topicsResult with Some _ => true | None => false end)
    then
      getResult <- repos_get octokit [ (lit "owner", VStr owner); (lit "repo", VStr repo) ] ;;
      cleanedData <- addTopics topicsResult
                       (cleanGitHubResponse (data getResult) (lit "repository")) ;;
      Normal (textResult (formatForHumans host cleanedData (lit "repository")))
    else
      result <- repos_update octokit params ;;
      cleanedData <- addTopics topicsResult
                       (cleanGitHubResponse (data result) (lit "repository")) ;;
      Normal (textResult (formatForHumans host cleanedData (lit "repository")))).

(** [comment.user?.login || 'unknown'] *)
Definition commenter (comment : value) : completion value :=
  user <- comment.["user"] ;;
  login <- (match user with VUndefined | VNull => Normal VUndefined | _ => user.["login"] end) ;;
  Normal (orElse login (VStr (lit "unknown"))).

(** The callback of [commentsResult.data.map]. *)
Definition commentRecord (comment : value) : completion value :=
  id <- comment.["id"] ;;
  user <- commenter comment ;;
  created_at <- comment.["created_at"] ;;
  updated_at <- comment.["updated_at"] ;;
  body <- comment.["body"] ;;
  html_url <- comment.["html_url"] ;;
  Normal (VObj [ (lit "id", id); (lit "user", user); (lit "created_at", created_at);
                 (lit "updated_at", updated_at); (lit "body", body);
                 (lit "html_url", html_url) ]).

(** The callback of [commentsData.forEach]. *)
Definition commentBlock (index : nat) (comment : value) : completion (list jsstring) :=
  user <- comment.["user"] ;;
  created_at <- comment.["created_at"] ;;
  body <- comment.["body"] ;;
  Normal [ lit "[" ++ ordinal index ++ lit "] " ++ toStr user ++ lit " 在 "
             ++ dateText host created_at ++ lit " 评论:" ++ nl;
           toStr body ++ nl ++ nl ].

Definition getIssueComments (owner repo : jsstring) (issueNumber : Z) (page : option Z)
    : completion toolResult :=
  let page := match page with Some p => p | None => 1%Z end in
  catching (
    issueResult <- issues_get octokit
      [ (lit "owner", VStr owner); (lit "repo", VStr repo);
        (lit "issue_number", VNum issueNumber) ] ;;
    let issueData := cleanGitHubResponse (data issueResult) (lit "issue") in
    commentsResult <- issues_listComments octokit
      (issueCommentsRequest owner repo issueNumber page) ;;
    match data commentsResult with
    | VArr comments =>
      commentsData <- mapM commentRecord comments ;;
      let pagination := issueCommentsPagination page comments in
      number <- issueData.["number"] ;;
      title <- issueData.["title"] ;;
      state <- issueData.["state"] ;;
      user <- issueData.["user"] ;;
      created_at <- issueData.["created_at"] ;;
      html_url <- issueData.["html_url"] ;;
      body <- issueData.["body"] ;;
      blocks <- forEachFrom commentBlock 0 commentsData ;;
      Normal (textResult (List.concat (
        [ lit "Issue #" ++ toStr number ++ lit ": " ++ toStr title ++ nl;
          lit "状态: " ++ stateText state ++ nl;
          lit "创建者: " ++ toStr (orElse user (VStr (lit "unknown"))) ++ nl;
          lit "创建于: " ++ dateText host created_at ++ nl;
          lit "链接: " ++ toStr html_url ++ nl ++ nl ]
        ++ (if truthy body then [lit "描述:" ++ nl ++ toStr body ++ nl ++ nl] else [])
        ++ [ lit "--- 评论 (第 " ++ numToStr page ++ lit " 页) ---" ++ nl ++ nl ]
        ++ match commentsData with
           | [] => [ lit "没有评论。" ++ nl ]
           | _ =>
             blocks
             ++ (if has_next_page pagination
                 then [ nl ++ lit "--- 还有更多评论。使用 page: "
                          ++ match next_page pagination with
                             | Some next => numToStr next
                             | None => lit "null"
                             end
                          ++ lit " 查看下一页 ---" ++ nl ]
                 else [])
           end)))
    | VUndefined => Throw (cannotRead "undefined" (lit "map"))
    | VNull => Throw (cannotRead "null" (lit "map"))
    | _ => Throw (lit "commentsResult.data.map is not a function")
    end).

End Handlers.

End GithubTs.

(** ** [unnamed/part_000]

    A sibling copy of the same file.  Its [removeExcessiveFields], its cases
    [repository], [pull_request] and [issue] and its [formatForHumans] are
    line for line those of [src/tools/github.ts]; its [cleanGitHubResponse]
    has three more cases. *)

Module Part000.
Import JS.
Local Open Scope js_scope.

Section Cleaning.
Context (host : Host).

(** [comment.body.length > 1000 ? comment.body.substring(0, 1000) + '...'
    : comment.body] *)
Definition shortBody (body : value) : completion value :=
  len <- body.["length"] ;;
  if above host len 1000 then
    match body with
    | VStr s => Normal (VStr (substring0 1000 s ++ lit "..."))
    | _ => Throw (lit "comment.body.substring is not a function")
    end
  else Normal body.

Definition cleanComment (comment : value) : completion value :=
  id <- comment.["id"] ;;
  created_at <- comment.["created_at"] ;;
  updated_at <- comment.["updated_at"] ;;
  html_url <- comment.["html_url"] ;;
  cleaned <- Normal [ (lit "id", id); (lit "created_at", created_at);
                      (lit "updated_at", updated_at); (lit "html_url", html_url) ] ;;
  body <- comment.["body"] ;;
  cleaned <- (if truthy body
              then short <- shortBody body ;; Normal (assign (lit "body") short cleaned)
              else Normal cleaned) ;;
  cleaned <- GithubTs.copyInner comment "user" "login" "user" cleaned ;;
  Normal (VObj cleaned).

(** The callback of [data.comments.forEach]. *)
Definition commentEntry (index : nat) (comment : value) : completion (list jsstring) :=
  user <- comment.["user"] ;;
  created_at <- comment.["created_at"] ;;
  body <- comment.["body"] ;;
  html_url <- comment.["html_url"] ;;
  Normal ([GithubTs.ordinal index ++ lit ". " ++ toStr (orElse user (VStr (lit "匿名用户")))
             ++ lit " 评论道:" ++ nl]
          ++ GithubTs.dateLine host "   评论于: " created_at
          ++ GithubTs.line "   内容: " body
          ++ GithubTs.line "   链接: " html_url
          ++ [nl]).

Definition paginationLines (pagination : value) : completion (list jsstring) :=
  if truthy pagination then
    current_page <- pagination.["current_page"] ;;
    has_prev_page <- pagination.["has_prev_page"] ;;
    has_next_page <- pagination.["has_next_page"] ;;
    total_count <- pagination.["total_count"] ;;
    Normal [ lit "页码: " ++ toStr current_page ++ nl;
             (if truthy has_prev_page then lit "有上一页" else lit "没有上一页") ++ nl;
             (if truthy has_next_page then lit "有下一页" else lit "没有下一页") ++ nl;
             lit "本页评论数: " ++ toStr total_count ++ nl ++ nl ]
  else Normal [].

(** [case 'comments'] *)
Definition commentsText (data : value) : completion (list jsstring) :=
  comments <- data.["comments"] ;;
  match comments with
  | VArr items =>
    pagination <- data.["pagination"] ;;
    head <- paginationLines pagination ;;
    match items with
    | [] => Normal (head ++ [lit "本页没有评论。"])
    | _ =>
      pieces <- GithubTs.forEachFrom commentEntry 0 items ;;
      Normal (head ++ [lit "评论列表:" ++ nl ++ nl] ++ pieces)
    end
  | _ => Normal [lit "无法获取评论数据。"]
  end.

(** A [case] that returns the string it has built. *)
Definition asText (pieces : completion (list jsstring)) : completion value :=
  ps <- pieces ;; Normal (VStr (List.concat ps)).

(** The body of the [try]. *)
Definition cleaning (data : value) (type : jsstring) : completion value :=
  if str_eqb type (lit "repository") then GithubTs.eachOrOne GithubTs.cleanRepository data
  else if str_eqb type (lit "pull_request") then GithubTs.eachOrOne GithubTs.cleanPullRequest data
  else if str_eqb type (lit "issue") then GithubTs.eachOrOne GithubTs.cleanIssue data
  else if str_eqb type (lit "user")
  then asText (GithubTs.listing "未找到任何用户。" " 个用户:" GithubTs.userEntry GithubTs.userDetails data)
  else if str_eqb type (lit "comment") then GithubTs.eachOrOne cleanComment data
  else if str_eqb type (lit "comments") then asText (commentsText data)
  else GithubTs.eachOrOne GithubTs.cleanGeneric data.

Definition cleanGitHubResponse (data : value) (type : jsstring) : value :=
  match cleaning data type with
  | Normal cleaned => cleaned
  | Throw _ => data
  end.

Definition formatForHumans : value -> jsstring -> jsstring := GithubTs.formatForHumans host.

End Cleaning.

End Part000.

(** ** What the properties below speak of *)

Import JS.
Local Open Scope js_scope.

(** *** Names of cleaned records *)

(** The fixed set of the generic step as the specification lists it. *)
Definition specFixedSet : list jsstring :=
  map lit
    [ "id"; "name"; "login"; "full_name"; "html_url"; "description"; "private";
      "created_at"; "updated_at"; "pushed_at"; "language"; "default_branch";
      "number"; "title"; "state"; "body"; "sha"; "protected"; "protection";
      "commit"; "tag_name"; "target_commitish"; "prerelease"; "draft";
      "assets_url"; "upload_url"; "published_at" ]%string.

(** The names a [case] of [cleanGitHubResponse] may add to the generic ones. *)
Definition augmentedKeys (type : jsstring) : list jsstring :=
  if str_eqb type (lit "repository")
  then map lit [ "topics"; "open_issues_count"; "clone_url"; "stars"; "visibility" ]%string
  else if str_eqb type (lit "pull_request")
  then map lit [ "merged_at"; "head_branch"; "base_branch"; "merged" ]%string
  else if str_eqb type (lit "issue")
  then map lit [ "closed_at"; "labels"; "assignees" ]%string
  else [].

(** Every name a cleaned record of the kind may carry. *)
Definition allowedKeys (type : jsstring) : list jsstring :=
  GithubTs.keysToKeep ++ [lit "owner"; lit "user"] ++ augmentedKeys type.

(** An object all of whose own names are among [names]. *)
Definition keysWithin (names : list jsstring) (fs : object) : Prop :=
  forall key, has_key key fs = true -> In key names.

(** *** The generic step on an object *)

(** [ref.login] when [ref] is an object, as [flattenLogin] reads it. *)
Definition loginOf (ref : value) : value :=
  match ref with
  | VObj fs => lookup (lit "login") fs
  | _ => VUndefined
  end.

(** What the generic step keeps of the value of [key]. *)
Definition kept (key : jsstring) (v : value) : value :=
  match v with
  | VStr s =>
    if str_eqb key (lit "body") || str_eqb key (lit "description")
    then VStr (GithubTs.truncated 300 s) else v
  | _ => v
  end.

(** The step without the exceptions it cannot meet on an object: one turn of
    the loop, one flattening, and the whole of it. *)
Definition keepOf (fs : object) (result : object) (key : jsstring) : object :=
  let v := lookup key fs in
  if isUndefined v then result else assign key (kept key v) result.

Definition flattenOf (fs : object) (name : jsstring) (result : object) : object :=
  if truthy (loginOf (lookup name fs))
  then assign name (loginOf (lookup name fs)) result else result.

Definition genericOf (fs : object) : object :=
  flattenOf fs (lit "user")
    (flattenOf fs (lit "owner") (fold_left (keepOf fs) GithubTs.keysToKeep [])).

(** The function a [case] of [src/tools/github.ts] applies to the object, or
    to each element of the array. *)
Definition cleanOne (type : jsstring) : value -> completion value :=
  if str_eqb type (lit "repository") then GithubTs.cleanRepository
  else if str_eqb type (lit "pull_request") then GithubTs.cleanPullRequest
  else if str_eqb type (lit "issue") then GithubTs.cleanIssue
  else GithubTs.cleanGeneric.

(** The inputs of the idempotence property: a record whose names are all in
    the generic list, or an array of such records. *)
Definition cleanRecord (v : value) : Prop :=
  exists fs, v = VObj fs /\ keysWithin GithubTs.keysToKeep fs.

Definition cleanInput (v : value) : Prop :=
  cleanRecord v \/ exists items, v = VArr items /\ Forall cleanRecord items.

(** *** The pieces of a formatted text *)

(** Some piece opens with the label. *)
Definition labelled (label : string) (pieces : list jsstring) : Prop :=
  exists piece rest, In piece pieces /\ piece = lit label ++ rest.

(** A piece that does not open with the label. *)
Definition unlabelled (label : string) (piece : jsstring) : Prop :=
  forall rest, piece <> lit label ++ rest.

(** Two texts that differ at a place both reach. *)
Fixpoint prefixClash (a b : jsstring) : bool :=
  match a, b with
  | x :: a', y :: b' => negb (x =? y)%N || prefixClash a' b'
  | _, _ => false
  end.

(** [topics] as a repository carries it: absent (or falsy) or an array. *)
Definition topicsTyped (topics : value) : bool :=
  match topics with
  | VArr _ => true
  | _ => negb (truthy topics)
  end.

(** *** Inputs of the examples *)

(** A host: it parses one ISO date and no other text, and prints a time value
    as its number of milliseconds. *)
Definition sampleHost : Host :=
  {| dateParse := fun s =>
       if str_eqb s (lit "2024-01-01T00:00:00Z") then Some 1704067200000%Z else None;
     localeString := fun t => numToStr t;
     jsonStringify := fun v => toStr v;
     numeralAbove := fun _ _ => false |}.

(** A repository as the upstream returns it, cut down to three properties. *)
Definition sampleRepository : value :=
  VObj [ (lit "full_name", VStr (lit "a/b"));
         (lit "html_url", VStr (lit "https://github.com/a/b"));
         (lit "updated_at", VStr (lit "2024-01-01T00:00:00Z")) ].

(** The optional arguments of an [updateRepository] call that sets a
    description and two topics. *)
Definition describeAndTag : object :=
  [ (lit "description", VStr (lit "demo"));
    (lit "topics", VArr [ VStr (lit "mcp"); VStr (lit "github") ]) ].

(** A branch as the upstream lists it, cut down to two of its properties. *)
Definition protectedBranch : object :=
  [ (lit "protected", VBool true);
    (lit "owner", VObj [ (lit "login", VStr (lit "octocat")) ]) ].

(** A user as the upstream lists the followed ones, cut down to its login. *)
Definition octocat : object := [ (lit "login", VStr (lit "octocat")) ].

(** A comment whose body is the empty string. *)
Definition blankComment : object :=
  [ (lit "id", VNum 1); (lit "body", VStr []); (lit "description", VStr (lit "note")) ].

(** A repository with no star, one without [updated_at], and a pull request
    whose [created_at] is no date. *)
Definition unstarred : object :=
  [ (lit "full_name", VStr (lit "a/b"));
    (lit "html_url", VStr (lit "https://github.com/a/b"));
    (lit "stars", VNum 0);
    (lit "updated_at", VStr (lit "2024-01-01T00:00:00Z")) ].

Definition undated : object :=
  [ (lit "full_name", VStr (lit "a/b"));
    (lit "html_url", VStr (lit "https://github.com/a/b")) ].

Definition misdated : object :=
  [ (lit "number", VNum 7); (lit "title", VStr (lit "Fix")); (lit "state", VStr (lit "open"));
    (lit "created_at", VStr (lit "soon"));
    (lit "html_url", VStr (lit "https://github.com/a/b/pull/7")) ].

(** ** More of [src/tools/github.ts]

    The handlers [listBranches], [listFollowing] and [getFileContent], and the
    navigation texts of [listRepositoryContents]; the same lines stand in
    [unnamed/part_000], whose [listFollowing] runs on its own cleaner. *)

Module GithubTsTools.
Import JS.
Local Open Scope js_scope.

(** [s.split(sep)] for a separator of one code unit. *)
Fixpoint split (sep : codeunit) (s : jsstring) : list jsstring :=
  match s with
  | [] => [[]]
  | c :: rest =>
    if (c =? sep)%N then [] :: split sep rest
    else
      match split sep rest with
      | part :: parts => (c :: part) :: parts
      | [] => [[c]]
      end
  end.

(** The place an index of [slice] stands for: a negative one counts from the
    end, and both ends are clipped to the array. *)
Definition relativeIndex (len : nat) (i : Z) : nat :=
  if (i <? 0)%Z then Z.to_nat (Z.max (Z.of_nat len + i) 0) else Nat.min (Z.to_nat i) len.

(** [l.slice(start, stop)] *)
Definition slice {A} (l : list A) (start stop : Z) : list A :=
  firstn (relativeIndex (List.length l) stop - relativeIndex (List.length l) start)
         (skipn (relativeIndex (List.length l) start) l).

(** [key in v] *)
Definition hasProperty (key : string) (v : value) : completion bool :=
  match v with
  | VObj fs => Normal (has_key (lit key) fs)
  | VArr _ => Normal (str_eqb (lit key) (lit "length"))
  | _ =>
    Throw (lit "Cannot use 'in' operator to search for '" ++ lit key ++ lit "' in " ++ toStr v)
  end.

(** [v.forEach(entry)], [v] being the variable [name] of the source. *)
Definition forEachOf (name : string) (v : value)
    (entry : nat -> value -> completion (list jsstring)) : completion (list jsstring) :=
  match v with
  | VArr items => GithubTs.forEachFrom entry 0 items
  | VUndefined => Throw (cannotRead "undefined" (lit "forEach"))
  | VNull => Throw (cannotRead "null" (lit "forEach"))
  | _ => Throw (lit name ++ lit ".forEach is not a function")
  end.

(** [v === 0] *)
Definition isZero (v : value) : bool :=
  match v with VNum n => (n =? 0)%Z | _ => false end.

(** *** [listRepositoryContents]: the navigation texts *)

(** [path.split('/').filter(p => p)] *)
Definition pathParts (path : jsstring) : list jsstring :=
  filter (fun p => match p with [] => false | _ => true end) (split 47%N path).

Definition pathNav (path : jsstring) : jsstring :=
  match pathParts path with
  | [] => lit "📂 根目录"
  | parts => lit "📂 根目录/" ++ join (lit "/") parts
  end.

Definition parentPath (path : jsstring) : jsstring :=
  match pathParts path with
  | [] => []
  | parts => join (lit "/") (slice parts 0 (-1))
  end.

Definition navigationTip (path : jsstring) : jsstring :=
  match path with
  | [] => []
  | _ => nl ++ nl ++ lit "提示：使用 path: " ++ [34%N] ++ parentPath path ++ [34%N]
         ++ lit " 返回上级目录"
  end.

(** *** [getFileContent]: the window of lines *)

Definition validStartLine (startLine totalLines : Z) : Z :=
  Z.max 1 (Z.min startLine totalLines).

(** [endLine ? Math.min(endLine, totalLines)
             : Math.min(validStartLine + 199, totalLines)] *)
Definition validEndLine (startLine : Z) (endLine : option Z) (totalLines : Z) : Z :=
  match endLine with
  | Some e =>
    if (e =? 0)%Z then Z.min (validStartLine startLine totalLines + 199) totalLines
    else Z.min e totalLines
  | None => Z.min (validStartLine startLine totalLines + 199) totalLines
  end.

Definition selectedLines (lines : list jsstring) (startLine : Z) (endLine : option Z)
    : list jsstring :=
  let totalLines := Z.of_nat (List.length lines) in
  slice lines (validStartLine startLine totalLines - 1) (validEndLine startLine endLine totalLines).

Definition rangeInfo (path : jsstring) (startLine : Z) (endLine : option Z) (totalLines : Z)
    : jsstring :=
  let validStart := validStartLine startLine totalLines in
  let validEnd := validEndLine startLine endLine totalLines in
  lit "文件: " ++ path ++ nl
  ++ lit "显示第 " ++ numToStr validStart ++ lit " 至 " ++ numToStr validEnd
  ++ lit " 行 (共 " ++ numToStr totalLines ++ lit " 行)" ++ nl ++ nl
  ++ (if (validEnd <? totalLines)%Z
      then nl ++ nl ++ lit "提示: 使用 startLine: " ++ numToStr (validEnd + 1)
           ++ lit " 继续阅读后续内容"
      else [])
  ++ (if (1 <? validStart)%Z
      then nl ++ lit "提示: 使用 startLine: 1, endLine: " ++ numToStr (validStart - 1)
           ++ lit " 查看之前的内容"
      else []).

(** The text of a file asked for with a [startLine]. *)
Definition rangeText (path decodedContent : jsstring) (startLine : Z) (endLine : option Z)
    : jsstring :=
  let lines := split 10%N decodedContent in
  rangeInfo path startLine endLine (Z.of_nat (List.length lines))
  ++ join nl (selectedLines lines startLine endLine).

(** The text of a file asked for without one. *)
Definition plainText (decodedContent : jsstring) : jsstring :=
  let long := (2000 <? List.length decodedContent)%nat in
  lit "文件内容 (base64解码后" ++ (if long then lit ", 已截断" else []) ++ lit "):" ++ nl ++ nl
  ++ (if long
      then substring0 2000 decodedContent ++ nl ++ lit "...（内容过长，已截断）" ++ nl ++ nl
           ++ lit "提示: 使用 startLine 和 endLine 参数查看特定行范围"
      else decodedContent).

Section Tools.
Context (host : Host).

(** The endpoints of the three handlers, and
    [Buffer.from(v, 'base64').toString('utf-8')]. *)
Context (repos_listBranches : object -> completion GithubTs.response).
Context (users_listFollowingForUser : object -> completion GithubTs.response).
Context (repos_getContent : object -> completion GithubTs.response).
Context (decodeBase64 : value -> completion jsstring).

Definition listBranches (owner repo : jsstring) (isProtected : option bool) (perPage : option Z)
    : completion GithubTs.toolResult :=
  let perPage := match perPage with Some n => n | None => 100%Z end in
  GithubTs.catching (
    result <- repos_listBranches
      [ (lit "owner", VStr owner); (lit "repo", VStr repo);
        (lit "protected", GithubTs.optional VBool isProtected);
        (lit "per_page", VNum perPage) ] ;;
    let cleanedData := GithubTs.cleanGitHubResponse (GithubTs.data result) [] in
    let text := GithubTs.formatForHumans host cleanedData (lit "repository") in
    Normal (GithubTs.textResult text)).

(** [listFollowing], over the [cleanGitHubResponse] of the file it stands
    in. *)
Definition listFollowingWith (clean : value -> jsstring -> value)
    (username : jsstring) (perPage : option Z) : completion GithubTs.toolResult :=
  let perPage := match perPage with Some n => n | None => 100%Z end in
  GithubTs.catching (
    followingResult <- users_listFollowingForUser
      [ (lit "username", VStr username); (lit "per_page", VNum perPage) ] ;;
    let followingList := GithubTs.data followingResult in
    empty <- (if truthy followingList
              then len <- followingList.["length"] ;; Normal (isZero len)
              else Normal true) ;;
    if empty
    then Normal (GithubTs.textResult (lit "用户 " ++ username ++ lit " 没有关注任何人。"))
    else
      let cleanedList := clean followingList (lit "user") in
      count <- cleanedList.["length"] ;;
      entries <- forEachOf "cleanedList" cleanedList GithubTs.userEntry ;;
      Normal (GithubTs.textResult (List.concat (
        (lit "用户 " ++ username ++ lit " 关注了以下 " ++ toStr count ++ lit " 个用户:" ++ nl ++ nl)
          :: entries)))).

Definition listFollowing : jsstring -> option Z -> completion GithubTs.toolResult :=
  listFollowingWith GithubTs.cleanGitHubResponse.

Definition getFileContent (owner repo path : jsstring) (ref : option jsstring)
    (startLine endLine : option Z) : completion GithubTs.toolResult :=
  GithubTs.catching (
    result <- repos_getContent
      [ (lit "owner", VStr owner); (lit "repo", VStr repo); (lit "path", VStr path);
        (lit "ref", GithubTs.optional VStr ref) ] ;;
    match GithubTs.data result with
    | VArr items =>
      Normal (GithubTs.textResult
                (lit "目标路径是一个目录，包含以下内容:" ++ nl ++ nl
                 ++ GithubTs.formatForHumans host (VArr items) (lit "repository")))
    | fileData =>
      present <- hasProperty "content" fileData ;;
      if negb present
      then Normal (GithubTs.textResult (lit "无法读取文件内容，可能不是一个普通文件。"))
      else
        encodedContent <- fileData.["content"] ;;
        decodedContent <- decodeBase64 encodedContent ;;
        match startLine with
        | Some startLine =>
          Normal (GithubTs.textResult (rangeText path decodedContent startLine endLine))
        | None => Normal (GithubTs.textResult (plainText decodedContent))
        end
    end).

End Tools.

End GithubTsTools.

(** ** More of [unnamed/part_000] *)

Module Part000Tools.
Import JS.
Local Open Scope js_scope.

(** [hay.includes(needle)] *)
Fixpoint startsWith (needle hay : jsstring) : bool :=
  match needle, hay with
  | [], _ => true
  | x :: needle', y :: hay' => (x =? y)%N && startsWith needle' hay'
  | _ :: _, [] => false
  end.

Fixpoint includes (needle hay : jsstring) : bool :=
  startsWith needle hay
  || match hay with
     | [] => false
     | _ :: hay' => includes needle hay'
     end.

(** ['rel="next"'] and ['rel="prev"'] *)
Definition relNext : jsstring := lit "rel=" ++ [34%N] ++ lit "next" ++ [34%N].
Definition relPrev : jsstring := lit "rel=" ++ [34%N] ++ lit "prev" ++ [34%N].

(** A response of which the handler reads [data] and [headers.link]. *)
Record linkedResponse : Type := { data : value; headers_link : option jsstring }.

(** [if (commentsResult.headers.link) flag =
    commentsResult.headers.link.includes(rel)] *)
Definition linkHas (rel : jsstring) (link : option jsstring) : bool :=
  match link with
  | Some (c :: l) => includes rel (c :: l)
  | _ => false
  end.

Section Tools.
Context (host : Host).
Context (users_listFollowingForUser : object -> completion GithubTs.response).
Context (issues_listComments : object -> completion linkedResponse).

(** The same lines as in [src/tools/github.ts], over the cleaner of this
    file. *)
Definition listFollowing : jsstring -> option Z -> completion GithubTs.toolResult :=
  GithubTsTools.listFollowingWith users_listFollowingForUser (Part000.cleanGitHubResponse host).

Definition getPullRequestComments (owner repo : jsstring) (pullNumber : Z) (page : option Z)
    : completion GithubTs.toolResult :=
  let page := match page with Some p => p | None => 1%Z end in
  GithubTs.catching (
    commentsResult <- issues_listComments
      [ (lit "owner", VStr owner); (lit "repo", VStr repo);
        (lit "issue_number", VNum pullNumber); (lit "per_page", VNum 100);
        (lit "page", VNum page) ] ;;
    let cleanedComments := Part000.cleanGitHubResponse host (data commentsResult) (lit "comment") in
    let hasNextPage := linkHas relNext (headers_link commentsResult) in
    let hasPrevPage := linkHas relPrev (headers_link commentsResult) in
    total_count <- cleanedComments.["length"] ;;
    let result :=
      VObj [ (lit "comments", cleanedComments);
             (lit "pagination",
              VObj [ (lit "current_page", VNum page);
                     (lit "has_next_page", VBool hasNextPage);
                     (lit "has_prev_page", VBool hasPrevPage);
                     (lit "total_count", total_count) ]) ] in
    Normal (GithubTs.textResult (Part000.formatForHumans host result (lit "comments")))).

End Tools.

End Part000Tools.

(** ** What the further properties speak of *)

(** [null] or [undefined]: the values a property read throws on. *)
Definition nullish (v : value) : bool :=
  match v with VUndefined | VNull => true | _ => false end.

(** [v.k] on a value that is neither: the read cannot throw. *)
Definition propOf (v : value) (k : string) : value :=
  match get v (lit k) with
  | Normal x => x
  | Throw _ => VUndefined
  end.

(** [typeof x === 'string' ? x : x.field], the callback of the two [map]s of
    the kind [issue]. *)
Definition nameOf (field : string) (x : value) : value :=
  if typeofString x then x else propOf x field.

(** An array with an element the callback throws on. *)
Definition holdsNullish (v : value) : bool :=
  match v with
  | VArr items => existsb nullish items
  | _ => false
  end.

(** What the kind [issue] stores for [labels] or [assignees]. *)
Definition flattenedNames (field : string) (v : value) : value :=
  if truthy v
  then match v with VArr items => VArr (map (nameOf field) items) | _ => v end
  else VUndefined.

(** A branch as [repos.listBranches] answers it. *)
Definition branchOf (b : jsstring * value * bool) : value :=
  VObj [ (lit "name", VStr (fst (fst b))); (lit "commit", snd (fst b));
         (lit "protected", VBool (snd b)) ].

(** What [listBranches] prints of the branch at [index]. *)
Definition branchLines (index : nat) (b : jsstring * value * bool) : list jsstring :=
  [ GithubTs.ordinal index ++ lit ". " ++ fst (fst b) ++ nl;
    lit "   链接: undefined" ++ nl;
    lit "   更新于: Invalid Date" ++ nl ++ nl ].

Fixpoint branchListing (index : nat) (bs : list (jsstring * value * bool)) : list jsstring :=
  match bs with
  | [] => []
  | b :: rest => branchLines index b ++ branchListing (S index) rest
  end.

(** A text without the code unit. *)
Definition free (sep : codeunit) (s : jsstring) : Prop := ~ In sep s.

(** [if (src.from) cleaned.to = src.from] and [if (src.from !== undefined)
    cleaned.to = src.from] on an object, where no read can throw. *)
Definition putTruthy (fs : object) (from to : string) (cleaned : object) : object :=
  if truthy (lookup (lit from) fs) then assign (lit to) (lookup (lit from) fs) cleaned
  else cleaned.

Definition putDefined (fs : object) (from to : string) (cleaned : object) : object :=
  if isUndefined (lookup (lit from) fs) then cleaned
  else assign (lit to) (lookup (lit from) fs) cleaned.

(** [src.outer && src.outer.inner], the value the kind [pull_request] stores
    for a branch when it is truthy. *)
Definition innerOf (fs : object) (outer inner : string) : value :=
  if truthy (lookup (lit outer) fs) then propOf (lookup (lit outer) fs) inner
  else lookup (lit outer) fs.

Definition putInner (fs : object) (outer inner to : string) (cleaned : object) : object :=
  if truthy (innerOf fs outer inner) then assign (lit to) (innerOf fs outer inner) cleaned
  else cleaned.

(** Inputs of the examples. *)
Definition starless : object :=
  [ (lit "full_name", VStr (lit "a/b")); (lit "stargazers_count", VNum 0);
    (lit "clone_url", VStr []); (lit "forks_count", VNum 3) ].

Definition openPull : object :=
  [ (lit "number", VNum 7);
    (lit "head", VObj [ (lit "ref", VStr (lit "feature")); (lit "sha", VStr (lit "abc")) ]);
    (lit "base", VObj [ (lit "ref", VStr []) ]);
    (lit "merged", VBool false) ].

Definition labelledIssue : object :=
  [ (lit "number", VNum 3);
    (lit "labels", VArr [ VObj [ (lit "name", VStr (lit "bug")) ]; VStr (lit "help") ]);
    (lit "assignees", VArr [ VObj [ (lit "login", VStr (lit "octocat")) ] ]) ].

Definition brokenIssue : object :=
  [ (lit "number", VNum 3); (lit "labels", VArr [ VNull ]) ].

Definition ownedRepository : object :=
  [ (lit "name", VStr (lit "b"));
    (lit "owner", VObj [ (lit "login", VStr (lit "octocat")) ]) ].

(** The count line of a non-empty array of one of the four kinds. *)
Definition counted (type : jsstring) : jsstring :=
  if str_eqb type (lit "repository") then lit " 个仓库:"
  else if str_eqb type (lit "pull_request") then lit " 个拉取请求:"
  else if str_eqb type (lit "issue") then lit " 个议题:"
  else lit " 个用户:".

Definition countLine (type : jsstring) (items : list value) : jsstring :=
  lit "找到 " ++ numToStr (Z.of_nat (List.length items)) ++ counted type ++ nl ++ nl.

(** The four kinds [formatForHumans] has a [case] for. *)
Definition fourKinds : list jsstring :=
  [ lit "repository"; lit "pull_request"; lit "issue"; lit "user" ].

(** An element the callback of the kind prints: neither [null] nor
    [undefined], and for a repository with [topics] absent or an array. *)
Definition printable (type : jsstring) (x : value) : bool :=
  negb (nullish x)
  && (if str_eqb type (lit "repository") then topicsTyped (propOf x "topics") else true).

Definition isObject (v : value) : bool :=
  match v with VObj _ => true | _ => false end.

(** What the cleaner keeps of a branch: its name. *)
Definition branchName (b : jsstring * value * bool) : value :=
  VObj [ (lit "name", VStr (fst (fst b))) ].

(** Two branches as the upstream lists them. *)
Definition twoBranches : list (jsstring * value * bool) :=
  [ (lit "main", VObj [ (lit "sha", VStr (lit "abc")) ], true);
    (lit "dev", VObj [ (lit "sha", VStr (lit "def")) ], false) ].

(** An upstream that lists two followed users, and one that lists two issue
    comments with a link to a next page. *)
Definition followsTwo : object -> completion GithubTs.response :=
  fun _ => Normal {| GithubTs.data := VArr [ VObj octocat; VObj octocat ] |}.

Definition twoComments : object -> completion Part000Tools.linkedResponse :=
  fun _ => Normal {| Part000Tools.data :=
                       VArr [ VObj [ (lit "id", VNum 1); (lit "body", VStr (lit "first")) ];
                              VObj [ (lit "id", VNum 2); (lit "body", VStr (lit "second")) ] ];
                     Part000Tools.headers_link := Some Part000Tools.relNext |}.

(** A file of three lines as the upstream answers it, and the decoder of its
    content. *)
Definition threeLines : jsstring := lit "a" ++ nl ++ lit "b" ++ nl ++ lit "c".

Definition fileAnswer : object -> completion GithubTs.response :=
  fun _ => Normal {| GithubTs.data :=
                       VObj [ (lit "type", VStr (lit "file"));
                              (lit "content", VStr (lit "YQpiCmM=")) ] |}.

Definition decodeSample (v : value) : completion jsstring :=
  if strictEqStr v (lit "YQpiCmM=") then Normal threeLines
  else Throw (lit "The first argument must be of type string")%string.

(** A submodule as the upstream answers it: an object without [content]. *)
Definition submoduleAnswer : object -> completion GithubTs.response :=
  fun _ => Normal {| GithubTs.data :=
                       VObj [ (lit "type", VStr (lit "submodule"));
                              (lit "sha", VStr (lit "abc")) ] |}.

(** A segment of a path: not empty and without a slash. *)
Definition segment (p : jsstring) : Prop := p <> [] /\ free 47%N p.

(** An upstream that replaces the topics and answers [repos.get], and whose
    [repos.update] fails. *)
Definition topicsOnly : GithubTs.Octokit :=
  {| GithubTs.repos_listForAuthenticatedUser := fun _ => Throw (lit "not called");
     GithubTs.repos_replaceAllTopics :=
       fun _ => Normal {| GithubTs.data := VObj [ (lit "names", VArr [ VStr (lit "mcp") ]) ] |};
     GithubTs.repos_get := fun _ => Normal {| GithubTs.data := sampleRepository |};
     GithubTs.repos_update := fun _ => Throw (lit "not called");
     GithubTs.issues_get := fun _ => Throw (lit "not called");
     GithubTs.issues_listComments := fun _ => Throw (lit "not called");
     GithubTs.pulls_listReviewComments := fun _ => Throw (lit "not called") |}.

(** ** The handlers of [src/tools/github.ts] that answer with one call

    Each awaits one call of the upstream, cleans [result.data] with one kind
    and formats the outcome with another; [mergePullRequest] and
    [updateFileContent] format [result.data] as it came. *)

Module GithubTsAnswers.
Import JS.
Local Open Scope js_scope.

Section Answers.
Context (host : Host).

(** [try { const result = await call; const cleanedData =
    this.cleanGitHubResponse(result.data, cleanKind); const text =
    this.formatForHumans(cleanedData, formatKind); return ... } catch ...] *)
Definition answering (call : completion GithubTs.response) (cleanKind formatKind : jsstring)
    : completion GithubTs.toolResult :=
  GithubTs.catching (
    result <- call ;;
    let cleanedData := GithubTs.cleanGitHubResponse (GithubTs.data result) cleanKind in
    let text := GithubTs.formatForHumans host cleanedData formatKind in
    Normal (GithubTs.textResult text)).

(** The same without the cleaning. *)
Definition answeringRaw (call : completion GithubTs.response) (formatKind : jsstring)
    : completion GithubTs.toolResult :=
  GithubTs.catching (
    result <- call ;;
    let text := GithubTs.formatForHumans host (GithubTs.data result) formatKind in
    Normal (GithubTs.textResult text)).

(** The endpoints, [Buffer.from(content, 'utf-8').toString('base64')] and
    [new Date().toISOString()]. *)
Context (repos_listContributors git_createRef repos_getBranch repos_listCommits
         repos_getCommit git_createCommit pulls_get pulls_merge issues_get
         repos_createOrUpdateFileContents : object -> completion GithubTs.response).
Context (encodeBase64 : jsstring -> jsstring) (now : jsstring).

Definition listContributors (owner repo : jsstring) (anon : option bool) (perPage : option Z)
    : completion GithubTs.toolResult :=
  let perPage := match perPage with Some n => n | None => 100%Z end in
  answering
    (repos_listContributors
       [ (lit "owner", VStr owner); (lit "repo", VStr repo);
         (lit "anon", match anon with Some true => VStr (lit "1") | _ => VUndefined end);
         (lit "per_page", VNum perPage) ])
    [] (lit "repository").

Definition createBranch (owner repo branch sha : jsstring) : completion GithubTs.toolResult :=
  answering
    (git_createRef
       [ (lit "owner", VStr owner); (lit "repo", VStr repo);
         (lit "ref", VStr (lit "refs/heads/" ++ branch)); (lit "sha", VStr sha) ])
    [] (lit "repository").

Definition getBranch (owner repo branch : jsstring) : completion GithubTs.toolResult :=
  answering
    (repos_getBranch
       [ (lit "owner", VStr owner); (lit "repo", VStr repo); (lit "branch", VStr branch) ])
    [] (lit "repository").

Definition listCommits (owner repo : jsstring) (sha path author since until : option jsstring)
    (perPage : option Z) : completion GithubTs.toolResult :=
  let perPage := match perPage with Some n => n | None => 30%Z end in
  answering
    (repos_listCommits
       [ (lit "owner", VStr owner); (lit "repo", VStr repo);
         (lit "sha", GithubTs.optional VStr sha); (lit "path", GithubTs.optional VStr path);
         (lit "author", GithubTs.optional VStr author);
         (lit "since", GithubTs.optional VStr since);
         (lit "until", GithubTs.optional VStr until); (lit "per_page", VNum perPage) ])
    [] (lit "repository").

Definition getCommit (owner repo ref : jsstring) : completion GithubTs.toolResult :=
  answering
    (repos_getCommit
       [ (lit "owner", VStr owner); (lit "repo", VStr repo); (lit "ref", VStr ref) ])
    [] (lit "repository").

(** [authorName && authorEmail ? { name, email, date } : undefined] *)
Definition commitAuthor (authorName authorEmail : option jsstring) : value :=
  match authorName, authorEmail with
  | Some (c :: name), Some (d :: email) =>
    VObj [ (lit "name", VStr (c :: name)); (lit "email", VStr (d :: email));
           (lit "date", VStr now) ]
  | _, _ => VUndefined
  end.

Definition createCommit (owner repo message tree : jsstring) (parents : list jsstring)
    (authorName authorEmail : option jsstring) : completion GithubTs.toolResult :=
  answering
    (git_createCommit
       [ (lit "owner", VStr owner); (lit "repo", VStr repo); (lit "message", VStr message);
         (lit "tree", VStr tree); (lit "parents", VArr (map VStr parents));
         (lit "author", commitAuthor authorName authorEmail) ])
    [] (lit "repository").

Definition getPullRequest (owner repo : jsstring) (pullNumber : Z)
    : completion GithubTs.toolResult :=
  answering
    (pulls_get
       [ (lit "owner", VStr owner); (lit "repo", VStr repo);
         (lit "pull_number", VNum pullNumber) ])
    (lit "pull_request") (lit "pull_request").

Definition mergePullRequest (owner repo : jsstring) (pullNumber : Z)
    (commitTitle commitMessage mergeMethod sha : option jsstring)
    : completion GithubTs.toolResult :=
  let mergeMethod := match mergeMethod with Some m => m | None => lit "merge" end in
  answeringRaw
    (pulls_merge
       [ (lit "owner", VStr owner); (lit "repo", VStr repo);
         (lit "pull_number", VNum pullNumber);
         (lit "commit_title", GithubTs.optional VStr commitTitle);
         (lit "commit_message", GithubTs.optional VStr commitMessage);
         (lit "merge_method", VStr mergeMethod); (lit "sha", GithubTs.optional VStr sha) ])
    (lit "repository").

Definition getIssue (owner repo : jsstring) (issueNumber : Z) : completion GithubTs.toolResult :=
  answering
    (issues_get
       [ (lit "owner", VStr owner); (lit "repo", VStr repo);
         (lit "issue_number", VNum issueNumber) ])
    (lit "issue") (lit "issue").

Definition updateFileContent (owner repo path message content : jsstring)
    (branch sha : option jsstring) : completion GithubTs.toolResult :=
  answeringRaw
    (repos_createOrUpdateFileContents
       [ (lit "owner", VStr owner); (lit "repo", VStr repo); (lit "path", VStr path);
         (lit "message", VStr message); (lit "content", VStr (encodeBase64 content));
         (lit "branch", GithubTs.optional VStr branch); (lit "sha", GithubTs.optional VStr sha) ])
    (lit "repository").

End Answers.

End GithubTsAnswers.

(** What the formatter of repositories prints of an object that went through
    the generic step: six of its properties. *)
Definition printedDetails (host : Host) (fs : object) : list jsstring :=
  [lit "仓库: " ++ toStr (orElse (lookup (lit "full_name") fs) (lookup (lit "name") fs)) ++ nl]
  ++ GithubTs.line "描述: " (kept (lit "description") (lookup (lit "description") fs))
  ++ [lit "链接: " ++ toStr (lookup (lit "html_url") fs) ++ nl]
  ++ GithubTs.line "主要语言: " (lookup (lit "language") fs)
  ++ [lit "更新于: " ++ GithubTs.dateText host (lookup (lit "updated_at") fs) ++ nl].

Definition printedEntry (host : Host) (index : nat) (fs : object) : list jsstring :=
  [GithubTs.ordinal index ++ lit ". "
     ++ toStr (orElse (lookup (lit "full_name") fs) (lookup (lit "name") fs)) ++ nl]
  ++ GithubTs.line "   描述: " (kept (lit "description") (lookup (lit "description") fs))
  ++ [lit "   链接: " ++ toStr (lookup (lit "html_url") fs) ++ nl]
  ++ GithubTs.line "   主要语言: " (lookup (lit "language") fs)
  ++ [lit "   更新于: " ++ GithubTs.dateText host (lookup (lit "updated_at") fs) ++ nl ++ nl].

Fixpoint printedEntries (host : Host) (index : nat) (records : list object) : list jsstring :=
  match records with
  | [] => []
  | fs :: rest => printedEntry host index fs ++ printedEntries host (S index) rest
  end.

(** An object that carries none of the names. *)
Definition lacks (names : list string) (fs : object) : Prop :=
  forall k, In k names -> lookup (lit k) fs = VUndefined.

(** The names the formatter of repositories reads. *)
Definition repositoryNames : list string :=
  [ "full_name"; "name"; "description"; "html_url"; "language"; "stars"; "topics";
    "updated_at" ]%string.

(** A commit, a contributor and the answer of a merge as the upstream gives
    them, cut down. *)
Definition sampleCommit : object :=
  [ (lit "sha", VStr (lit "abc123"));
    (lit "commit", VObj [ (lit "message", VStr (lit "Fix the parser")) ]);
    (lit "html_url", VStr (lit "https://github.com/a/b/commit/abc123"));
    (lit "author", VObj [ (lit "login", VStr (lit "octocat")) ]) ].

Definition sampleContributor : object :=
  [ (lit "login", VStr (lit "octocat"));
    (lit "html_url", VStr (lit "https://github.com/octocat"));
    (lit "contributions", VNum 42) ].

Definition mergeAnswer : object :=
  [ (lit "sha", VStr (lit "abc123")); (lit "merged", VBool true);
    (lit "message", VStr (lit "Pull Request successfully merged")) ].

(** A pull request and an issue as the upstream answers them, cut down; the
    issue has a label that is [null]. *)
Definition samplePull : object :=
  [ (lit "number", VNum 7); (lit "title", VStr (lit "Fix")); (lit "state", VStr (lit "open"));
    (lit "user", VObj [ (lit "login", VStr (lit "octocat")); (lit "id", VNum 1) ]);
    (lit "merged", VBool false);
    (lit "head", VObj [ (lit "ref", VStr (lit "feature")) ]);
    (lit "html_url", VStr (lit "https://github.com/a/b/pull/7")) ].

Definition oddIssue : object :=
  [ (lit "number", VNum 3); (lit "title", VStr (lit "Crash")); (lit "state", VStr (lit "closed"));
    (lit "user", VObj [ (lit "login", VStr (lit "octocat")) ]);
    (lit "labels", VArr [ VNull ]);
    (lit "html_url", VStr (lit "https://github.com/a/b/issues/3")) ].

(** ** [listFollowingUserRepos] of [src/tools/github.ts] *)

Module GithubTsFollowed.
Import JS.
Local Open Scope js_scope.

(** The own properties [{ ...r }] copies. *)
Definition spread (r : value) : object :=
  match r with
  | VObj fs => fs
  | VArr items => indexed (fun x => x) items
  | VStr s => indexed (fun c => VStr [c]) s
  | _ => []
  end.

(** [{ ...r, followedByUser: username, belongsTo: followUser.login }] *)
Definition marked (username : jsstring) (login : value) (r : value) : value :=
  VObj (assign (lit "belongsTo") login
          (assign (lit "followedByUser") (VStr username) (spread r))).

(** What [for (const c of s)] visits in a string: its code points. *)
Fixpoint codePoints (s : jsstring) : list jsstring :=
  match s with
  | [] => []
  | c :: rest =>
    match rest with
    | d :: rest' =>
      if ((55296 <=? c) && (c <=? 56319) && (56320 <=? d) && (d <=? 57343))%N
      then [c; d] :: codePoints rest'
      else [c] :: codePoints rest
    | [] => [[c]]
    end
  end.

(** What [for (const x of v)] visits. *)
Definition iterated (name : string) (v : value) : completion (list value) :=
  match v with
  | VArr items => Normal items
  | VStr s => Normal (map VStr (codePoints s))
  | VUndefined =>
    Throw (lit "undefined is not iterable (cannot read property Symbol(Symbol.iterator))")
  | VNull => Throw (lit "null is not iterable (cannot read property Symbol(Symbol.iterator))")
  | _ => Throw (lit name ++ lit " is not iterable")
  end.

Section Followed.
Context (host : Host).
Context (users_listFollowingForUser repos_listForUser : object -> completion GithubTs.response).

(** The body of the loop, run over what is left of the list. *)
Fixpoint collect (username : jsstring) (perPage : Z) (followed : list value)
    (allRepos : list value) : completion (list value) :=
  match followed with
  | [] => Normal allRepos
  | followUser :: rest =>
    login <- followUser.["login"] ;;
    reposResult <- repos_listForUser
      [ (lit "username", login); (lit "per_page", VNum perPage) ] ;;
    let cleanedRepos :=
      GithubTs.cleanGitHubResponse (GithubTs.data reposResult) (lit "repository") in
    let reposWithOwnerMarker :=
      match cleanedRepos with
      | VArr rs => map (marked username login) rs
      | _ => []
      end in
    collect username perPage rest (allRepos ++ reposWithOwnerMarker)
  end.

Definition listFollowingUserRepos (username : jsstring) (perPage : option Z)
    : completion GithubTs.toolResult :=
  let perPage := match perPage with Some n => n | None => 30%Z end in
  GithubTs.catching (
    followingResult <- users_listFollowingForUser
      [ (lit "username", VStr username); (lit "per_page", VNum perPage) ] ;;
    let followingList := GithubTs.data followingResult in
    empty <- (if truthy followingList
              then len <- followingList.["length"] ;; Normal (GithubTsTools.isZero len)
              else Normal true) ;;
    if empty
    then Normal (GithubTs.textResult
                   (lit "用户 " ++ username ++ lit " 没有关注任何人，或者信息为空。"))
    else
      followed <- iterated "followingList" followingList ;;
      allRepos <- collect username perPage followed [] ;;
      match allRepos with
      | [] => Normal (GithubTs.textResult (lit "未能查询到任何仓库。"))
      | _ =>
        Normal (GithubTs.textResult
                  (GithubTs.formatForHumans host (VArr allRepos) (lit "repository")))
      end).

End Followed.

End GithubTsFollowed.

(** What the kind [repository] makes of an object. *)
Definition repositoryOf (fs : object) : object :=
  putTruthy fs "visibility" "visibility"
    (putDefined fs "stargazers_count" "stars"
      (putTruthy fs "clone_url" "clone_url"
        (putDefined fs "open_issues_count" "open_issues_count"
          (putTruthy fs "topics" "topics" (genericOf fs))))).

(** The repositories [listFollowingUserRepos] prints: those of each followed
    user, cleaned and marked with the login, in the order of the list. *)
Definition markedRepositories (username : jsstring) (reposOf : value -> list object)
    (users : list object) : list value :=
  flat_map
    (fun u =>
       map (fun fs => GithubTsFollowed.marked username (lookup (lit "login") u)
                        (VObj (repositoryOf fs)))
           (reposOf (lookup (lit "login") u)))
    users.

(** An upstream where [octocat] is followed and owns one repository. *)
Definition octocatRepos (login : value) : list object :=
  if strictEqStr login (lit "octocat") then [ [ (lit "full_name", VStr (lit "octocat/hello"));
                                                (lit "html_url", VStr (lit "https://github.com/octocat/hello"));
                                                (lit "stargazers_count", VNum 5) ] ]
  else [].

(** ** What the revised properties speak of *)

(** The names a cleaned comment of [unnamed/part_000] may carry, and the
    three kinds only that file has a [case] for. *)
Definition commentKeys : list jsstring :=
  map lit [ "id"; "created_at"; "updated_at"; "html_url"; "body"; "user" ]%string.

Definition ownCases : list jsstring := [ lit "user"; lit "comment"; lit "comments" ].

(** A user as the upstream answers it, with more than the cleaner keeps. *)
Definition ownedBranch : object :=
  [ (lit "name", VStr (lit "main")); (lit "protected", VBool true);
    (lit "owner", VObj [ (lit "login", VStr (lit "octocat")); (lit "id", VNum 1) ]) ].

(** What the kind [comment] makes of a string [body] of [s]: the cleaned
    comment [out] has no [description], and its [body] is [s] cut at 1000
    code units, or is left out when [s] is empty. *)
Definition commentCut (s : jsstring) (out : object) : Prop :=
  has_key (lit "description") out = false /\
  (1000 < List.length s -> lookup (lit "body") out = VStr (firstn 1000 s ++ lit "...")) /\
  (List.length s <= 1000 -> s <> [] -> lookup (lit "body") out = VStr s) /\
  (s = [] -> has_key (lit "body") out = false).

(** A comment with the given [body]. *)
Definition commentOf (s : jsstring) : object :=
  [ (lit "id", VNum 1); (lit "body", VStr s); (lit "description", VStr (lit "note")) ].

(** What the generic step makes of a string [body] or [description]. *)
Definition genericCut (s : jsstring) (v : value) : Prop :=
  (300 < List.length s -> v = VStr (firstn 300 s ++ lit "...")) /\
  (List.length s <= 300 -> v = VStr s).

(** *** The formatter on arrays and on odd [topics] *)

(** [topics] on which the callback of a repository throws: truthy, with a
    [length] above 0, and no array, so that [topics.join] is no function. *)
Definition topicsBreak (host : Host) (topics : value) : bool :=
  truthy topics
  && above host (propOf topics "length") 0
  && negb (match topics with VArr _ => true | _ => false end).

(** The callback [formatForHumans] runs on each element of an array of the
    kind. *)
Definition entryOf (host : Host) (type : jsstring)
    : nat -> value -> completion (list jsstring) :=
  if str_eqb type (lit "repository") then GithubTs.repositoryEntry host
  else if str_eqb type (lit "pull_request") then GithubTs.pullRequestEntry host
  else if str_eqb type (lit "issue") then GithubTs.issueEntry host
  else GithubTs.userEntry.

(** The entries of an array, one list of pieces for each element: [entries]
    has the length of [items], and its element at [i] is what the callback
    returns for the element of [items] at [i], called with that index. *)
Definition entriesOf {A} (entry : nat -> value -> completion (list A))
    (items : list value) (entries : list (list A)) : Prop :=
  List.length entries = List.length items /\
  forall i x, nth_error items i = Some x ->
              exists e, nth_error entries i = Some e /\ entry i x = Normal e.

(** An entry that opens with its number: the index counted from 1, a full
    stop and a space. *)
Definition numbered (i : nat) (entry : list jsstring) : Prop :=
  exists rest more, entry = (GithubTs.ordinal i ++ lit ". " ++ rest) :: more.

(** A line that is printed when the value is truthy and left out otherwise:
    the line with the text the formatter makes of the value, and no piece
    with its label. *)
Definition lineRule (label : string) (v : value) (pieces : list jsstring) : Prop :=
  (labelled label pieces <-> truthy v = true) /\
  (truthy v = true -> In (lit label ++ toStr v ++ nl) pieces).

Definition dateRule (host : Host) (label : string) (v : value) (pieces : list jsstring) : Prop :=
  (labelled label pieces <-> truthy v = true) /\
  (truthy v = true -> In (lit label ++ GithubTs.dateText host v ++ nl) pieces).

(** The rule of the lines of a repository, alone ([indent] empty) or in an
    array ([indent] of three spaces). *)
Definition repositoryRule (indent : string) (fs : object) (pieces : list jsstring) : Prop :=
  lineRule (indent ++ "星标数: ") (lookup (lit "stars") fs) pieces /\
  lineRule (indent ++ "描述: ") (lookup (lit "description") fs) pieces /\
  lineRule (indent ++ "主要语言: ") (lookup (lit "language") fs) pieces /\
  (truthy (lookup (lit "topics") fs) = false -> ~ labelled (indent ++ "主题标签: ") pieces).

(** The rule of the dates of a pull request and of an issue. *)
Definition pullRequestDates (host : Host) (indent : string) (fs : object)
    (pieces : list jsstring) : Prop :=
  dateRule host (indent ++ "创建于: ") (lookup (lit "created_at") fs) pieces /\
  dateRule host (indent ++ "合并于: ") (lookup (lit "merged_at") fs) pieces.

Definition issueDates (host : Host) (indent : string) (fs : object)
    (pieces : list jsstring) : Prop :=
  dateRule host (indent ++ "创建于: ") (lookup (lit "created_at") fs) pieces /\
  dateRule host (indent ++ "关闭于: ") (lookup (lit "closed_at") fs) pieces.

(** What [formatForHumans] returns from its [catch]. *)
Definition fallback (host : Host) (data : value) : jsstring :=
  lit "数据:" ++ nl ++ jsonStringify host data.

(** A cleaned repository with stars and with [topics] a text, and its source. *)
Definition oddTopicsSource : object :=
  [ (lit "full_name", VStr (lit "a/b")); (lit "stargazers_count", VNum 5);
    (lit "topics", VStr (lit "x")) ].

Definition oddTopics : object :=
  [ (lit "full_name", VStr (lit "a/b")); (lit "topics", VStr (lit "x"));
    (lit "stars", VNum 5) ].

(** A repository with stars and one without, both with an array of topics. *)
Definition starred : object :=
  [ (lit "full_name", VStr (lit "a/b"));
    (lit "html_url", VStr (lit "https://github.com/a/b"));
    (lit "stars", VNum 5); (lit "topics", VArr [ VStr (lit "mcp") ]);
    (lit "updated_at", VStr (lit "2024-01-01T00:00:00Z")) ].


(** A repository whose [updated_at] is [null]. *)
Definition epochDated : object :=
  [ (lit "full_name", VStr (lit "a/b"));
    (lit "html_url", VStr (lit "https://github.com/a/b"));
    (lit "updated_at", VNull) ].

(** ** The server of [src/tools/github.ts]

    The handlers not yet given, and the table of the tools: every handler
    that [registerTools] gives to [this.server.tool]. *)

Module GithubTsServer.
Import JS.
Local Open Scope js_scope.

(** What an awaited call of [this.octokit.rest] settles to: the response, or
    the [RequestError] of a failed request, of which a handler reads [status]
    and [message]. *)
Inductive outcome : Type :=
| Answered (r : GithubTs.response)
| Failed (status : value) (message : jsstring).

(** The endpoints the handlers call. *)
Inductive endpoint : Type :=
| repos_listForAuthenticatedUser | repos_createForAuthenticatedUser | repos_get
| repos_update | repos_replaceAllTopics | repos_delete | repos_listContributors
| git_createRef | repos_getBranch | repos_listBranches | git_deleteRef
| pulls_create | pulls_get | pulls_list | pulls_update | pulls_merge
| issues_listComments | pulls_listReviewComments | issues_createComment
| pulls_createReviewComment | issues_create | issues_get | issues_listForRepo
| issues_update | users_listFollowingForUser | repos_listForUser | repos_getContent
| repos_createOrUpdateFileContents | repos_listCommits | repos_getCommit
| git_createCommit.

(** [this.octokit.rest]: what each endpoint answers to each request. *)
Definition Rest : Type := endpoint -> object -> outcome.

(** [await call] inside a [try] whose [catch] reads the message only. *)
Definition awaited (o : outcome) : completion GithubTs.response :=
  match o with
  | Answered r => Normal r
  | Failed _ message => Throw message
  end.

(** What the handlers take from the runtime besides the host of the dates:
    base64 in both directions, the time of the call, the arithmetic of
    [formatFileSize], the order [sort] gives to comments by the time of their
    [created_at], and of [listFrequentCommunicators] what the record
    [freqMap] turns its assignments into: the five names
    [Object.keys(freqMap).sort(...).slice(0, 5)], the pairs
    [Object.entries(freqMap).sort(...)], and the test of the patterns of
    [botPatterns]. *)
Record Runtime : Type := {
  decodeBase64 : value -> completion jsstring;
  encodeBase64 : jsstring -> jsstring;
  now : jsstring;
  formatFileSize : value -> jsstring;
  sortedByCreation : list value -> list value;
  topUsers : list (value * Z) -> list jsstring;
  ranking : list (value * Z) -> list (jsstring * value);
  isBot : jsstring -> bool
}.

(** [v === undefined ? d : v], the default of a destructured argument. *)
Definition defaulted (v d : value) : value := if isUndefined v then d else v.

(** [if (p.has_next_page) result += `\n--- 还有更多评论。使用 page:
    ${p.next_page} 查看下一页 ---\n`] *)
Definition nextPageHint (p : GithubTs.pagination) : list jsstring :=
  if GithubTs.has_next_page p
  then [ nl ++ lit "--- 还有更多评论。使用 page: "
           ++ match GithubTs.next_page p with
              | Some next => numToStr next
              | None => lit "null"
              end
           ++ lit " 查看下一页 ---" ++ nl ]
  else [].

(** What follows the header of the comments: the sentence of the empty list,
    or the blocks of the comments and the hint of the next page. *)
Definition commentsPart (comments : list value) (blocks : list jsstring)
    (p : GithubTs.pagination) : list jsstring :=
  match comments with
  | [] => [ lit "没有评论。" ++ nl ]
  | _ => blocks ++ nextPageHint p
  end.

(** The state of [listFrequentCommunicators]: the assignments
    [freqMap[k] = (freqMap[k] || 0) + w] made so far, in their order.  A step
    returns the state with its completion, so that what was counted before
    an exception is still counted after a [catch]. *)
Definition tallies : Type := list (value * Z).
Definition counting (A : Type) : Type := tallies -> tallies * completion A.

Definition pure {A} (a : A) : counting A := fun t => (t, Normal a).

Definition lift {A} (c : completion A) : counting A := fun t => (t, c).

Definition andThen {A B} (c : counting A) (k : A -> counting B) : counting B :=
  fun t =>
    match c t with
    | (t', Normal a) => k a t'
    | (t', Throw m) => (t', Throw m)
    end.

Notation "x <~ c ;; k" := (andThen c (fun x => k))
  (at level 61, c at next level, right associativity) : js_scope.

(** [freqMap[k] = (freqMap[k] || 0) + w] *)
Definition count (k : value) (w : Z) : counting unit := fun t => (t ++ [(k, w)], Normal tt).

(** [try { c } catch (e) { }] *)
Definition attempt (c : counting unit) : counting unit := fun t => (fst (c t), Normal tt).

(** [for (const x of items) body] *)
Fixpoint forOf {A} (items : list A) (body : A -> counting unit) : counting unit :=
  match items with
  | [] => pure tt
  | x :: rest => _ <~ body x ;; forOf rest body
  end.

Section Server.
Context (host : Host) (runtime : Runtime) (rest : Rest).

(** [this.octokit] as the handlers given before take it. *)
Definition octokit : GithubTs.Octokit :=
  {| GithubTs.repos_listForAuthenticatedUser :=
       fun params => awaited (rest repos_listForAuthenticatedUser params);
     GithubTs.repos_replaceAllTopics := fun params => awaited (rest repos_replaceAllTopics params);
     GithubTs.repos_get := fun params => awaited (rest repos_get params);
     GithubTs.repos_update := fun params => awaited (rest repos_update params);
     GithubTs.issues_get := fun params => awaited (rest issues_get params);
     GithubTs.issues_listComments := fun params => awaited (rest issues_listComments params);
     GithubTs.pulls_listReviewComments :=
       fun params => awaited (rest pulls_listReviewComments params) |}.

(** *** Repositories and branches *)

Definition createRepository (name : jsstring) (given : object)
    : completion GithubTs.toolResult :=
  GithubTsAnswers.answering host
    (awaited (rest repos_createForAuthenticatedUser
       [ (lit "name", VStr name);
         (lit "description", lookup (lit "description") given);
         (lit "private", lookup (lit "isPrivate") given);
         (lit "has_issues", lookup (lit "hasIssues") given);
         (lit "has_projects", lookup (lit "hasProjects") given);
         (lit "has_wiki", lookup (lit "hasWiki") given);
         (lit "auto_init", lookup (lit "autoInit") given);
         (lit "gitignore_template", lookup (lit "gitignoreTemplate") given);
         (lit "license_template", lookup (lit "licenseTemplate") given) ]))
    (lit "repository") (lit "repository").

Definition getRepository (owner repo : jsstring) : completion GithubTs.toolResult :=
  GithubTsAnswers.answering host
    (awaited (rest repos_get [ (lit "owner", VStr owner); (lit "repo", VStr repo) ]))
    (lit "repository") (lit "repository").

Definition deleteRepository (owner repo : jsstring) : completion GithubTs.toolResult :=
  GithubTs.catching (
    _ <- awaited (rest repos_delete [ (lit "owner", VStr owner); (lit "repo", VStr repo) ]) ;;
    Normal (GithubTs.textResult
              (lit "Repository " ++ owner ++ lit "/" ++ repo ++ lit " has been deleted."))).

Definition deleteBranch (owner repo branch : jsstring) : completion GithubTs.toolResult :=
  GithubTs.catching (
    _ <- awaited (rest git_deleteRef
           [ (lit "owner", VStr owner); (lit "repo", VStr repo);
             (lit "ref", VStr (lit "heads/" ++ branch)) ]) ;;
    Normal (GithubTs.textResult
              (lit "Branch " ++ branch ++ lit " has been deleted from " ++ owner ++ lit "/"
               ++ repo ++ lit "."))).

(** *** Pull requests *)

Definition createPullRequest (owner repo title head base : jsstring) (given : object)
    : completion GithubTs.toolResult :=
  GithubTsAnswers.answering host
    (awaited (rest pulls_create
       [ (lit "owner", VStr owner); (lit "repo", VStr repo); (lit "title", VStr title);
         (lit "head", VStr head); (lit "base", VStr base);
         (lit "body", lookup (lit "body") given);
         (lit "maintainer_can_modify", lookup (lit "maintainerCanModify") given);
         (lit "draft", lookup (lit "draft") given) ]))
    (lit "pull_request") (lit "pull_request").

Definition listPullRequests (owner repo : jsstring) (given : object)
    : completion GithubTs.toolResult :=
  GithubTsAnswers.answering host
    (awaited (rest pulls_list
       [ (lit "owner", VStr owner); (lit "repo", VStr repo);
         (lit "state", defaulted (lookup (lit "state") given) (VStr (lit "open")));
         (lit "head", lookup (lit "head") given);
         (lit "base", lookup (lit "base") given);
         (lit "sort", lookup (lit "sort") given);
         (lit "direction", lookup (lit "direction") given);
         (lit "per_page", defaulted (lookup (lit "perPage") given) (VNum 100)) ]))
    (lit "pull_request") (lit "pull_request").

Definition updatePullRequest (owner repo : jsstring) (pullNumber : Z) (given : object)
    : completion GithubTs.toolResult :=
  GithubTsAnswers.answering host
    (awaited (rest pulls_update
       [ (lit "owner", VStr owner); (lit "repo", VStr repo);
         (lit "pull_number", VNum pullNumber);
         (lit "title", lookup (lit "title") given);
         (lit "body", lookup (lit "body") given);
         (lit "state", lookup (lit "state") given);
         (lit "base", lookup (lit "base") given);
         (lit "maintainer_can_modify", lookup (lit "maintainerCanModify") given) ]))
    (lit "pull_request") (lit "pull_request").

(** The callbacks of the two [map]s of [getPullRequestComments]. *)
Definition issueCommentRecord (comment : value) : completion value :=
  id <- comment.["id"] ;;
  user <- GithubTs.commenter comment ;;
  created_at <- comment.["created_at"] ;;
  updated_at <- comment.["updated_at"] ;;
  body <- comment.["body"] ;;
  html_url <- comment.["html_url"] ;;
  Normal (VObj [ (lit "id", id); (lit "type", VStr (lit "issue_comment")); (lit "user", user);
                 (lit "created_at", created_at); (lit "updated_at", updated_at);
                 (lit "body", body); (lit "html_url", html_url) ]).

Definition reviewCommentRecord (comment : value) : completion value :=
  id <- comment.["id"] ;;
  user <- GithubTs.commenter comment ;;
  created_at <- comment.["created_at"] ;;
  updated_at <- comment.["updated_at"] ;;
  body <- comment.["body"] ;;
  html_url <- comment.["html_url"] ;;
  path <- comment.["path"] ;;
  line <- comment.["line"] ;;
  position <- comment.["position"] ;;
  commit_id <- comment.["commit_id"] ;;
  Normal (VObj [ (lit "id", id); (lit "type", VStr (lit "review_comment")); (lit "user", user);
                 (lit "created_at", created_at); (lit "updated_at", updated_at);
                 (lit "body", body); (lit "html_url", html_url); (lit "path", path);
                 (lit "line", line); (lit "position", position);
                 (lit "commit_id", commit_id) ]).

(** [result.data.map(callback)] *)
Definition mapped (name : string) (callback : value -> completion value) (v : value)
    : completion (list value) :=
  match v with
  | VArr items => mapM callback items
  | VUndefined => Throw (cannotRead "undefined" (lit "map"))
  | VNull => Throw (cannotRead "null" (lit "map"))
  | _ => Throw (lit name ++ lit ".data.map is not a function")
  end.

(** The callback of [allComments.forEach]. *)
Definition pullCommentBlock (index : nat) (comment : value) : completion (list jsstring) :=
  type <- comment.["type"] ;;
  user <- comment.["user"] ;;
  created_at <- comment.["created_at"] ;;
  located <- (if strictEqStr type (lit "review_comment")
              then
                present <- GithubTsTools.hasProperty "path" comment ;;
                if present
                then
                  path <- comment.["path"] ;;
                  if truthy path
                  then
                    lined <- GithubTsTools.hasProperty "line" comment ;;
                    line <- (if lined then comment.["line"] else Normal VUndefined) ;;
                    Normal [ lit "文件: " ++ toStr path
                               ++ (if truthy line then lit ", 行: " ++ toStr line else [])
                               ++ nl ]
                  else Normal []
                else Normal []
              else Normal []) ;;
  body <- comment.["body"] ;;
  Normal ([ lit "[" ++ GithubTs.ordinal index ++ lit "] " ++ toStr user ++ lit " 在 "
              ++ GithubTs.dateText host created_at ++ lit " 添加了"
              ++ (if strictEqStr type (lit "issue_comment")
                  then lit "常规评论" else lit "代码审查评论")
              ++ lit ":" ++ nl ]
          ++ located
          ++ [ toStr body ++ nl ++ nl ]).

(** The lines of [getPullRequestComments] before the comments. *)
Definition pullHead (page : Z) (prData : value) : completion (list jsstring) :=
  number <- prData.["number"] ;;
  title <- prData.["title"] ;;
  state <- prData.["state"] ;;
  user <- prData.["user"] ;;
  created_at <- prData.["created_at"] ;;
  merged <- prData.["merged"] ;;
  merged_at <- prData.["merged_at"] ;;
  head_branch <- prData.["head_branch"] ;;
  base_branch <- prData.["base_branch"] ;;
  html_url <- prData.["html_url"] ;;
  body <- prData.["body"] ;;
  Normal ([ lit "PR #" ++ toStr number ++ lit ": " ++ toStr title ++ nl;
            lit "状态: " ++ GithubTs.stateText state ++ nl;
            lit "创建者: " ++ toStr (orElse user (VStr (lit "unknown"))) ++ nl;
            lit "创建于: " ++ GithubTs.dateText host created_at ++ nl ]
          ++ GithubTs.mergedLine "已合并: " merged
          ++ GithubTs.dateLine host "合并于: " merged_at
          ++ [ lit "从分支 " ++ toStr (orElse head_branch (VStr (lit "未知"))) ++ lit " 到 "
                 ++ toStr (orElse base_branch (VStr (lit "未知"))) ++ nl;
               lit "链接: " ++ toStr html_url ++ nl ++ nl ]
          ++ (if truthy body then [ lit "描述:" ++ nl ++ toStr body ++ nl ++ nl ] else [])
          ++ [ lit "--- 评论 (第 " ++ numToStr page ++ lit " 页) ---" ++ nl ++ nl ]).

(** [x.length] of what the two [map]s went through. *)
Definition itemsOf (v : value) : list value :=
  match v with VArr items => items | _ => [] end.

Definition getPullRequestComments (owner repo : jsstring) (pullNumber : Z) (page : option Z)
    : completion GithubTs.toolResult :=
  let page := match page with Some p => p | None => 1%Z end in
  GithubTs.catching (
    prResult <- awaited (rest pulls_get
      [ (lit "owner", VStr owner); (lit "repo", VStr repo);
        (lit "pull_number", VNum pullNumber) ]) ;;
    let prData := GithubTs.cleanGitHubResponse (GithubTs.data prResult) (lit "pull_request") in
    issueCommentsResult <- awaited (rest issues_listComments
      (GithubTs.pullCommentsRequest owner repo pullNumber page)) ;;
    reviewCommentsResult <- awaited (rest pulls_listReviewComments
      (GithubTs.reviewCommentsRequest owner repo pullNumber page)) ;;
    issueComments <- mapped "issueCommentsResult" issueCommentRecord
                       (GithubTs.data issueCommentsResult) ;;
    reviewComments <- mapped "reviewCommentsResult" reviewCommentRecord
                        (GithubTs.data reviewCommentsResult) ;;
    let allComments := sortedByCreation runtime (issueComments ++ reviewComments) in
    let pagination :=
      GithubTs.pullRequestCommentsPagination page
        (itemsOf (GithubTs.data issueCommentsResult))
        (itemsOf (GithubTs.data reviewCommentsResult)) in
    head <- pullHead page prData ;;
    blocks <- GithubTs.forEachFrom pullCommentBlock 0 allComments ;;
    Normal (GithubTs.textResult
              (List.concat (head ++ commentsPart allComments blocks pagination)))).

(** [createPullRequestComment] and [createIssueComment]: the same lines but
    for the opening. *)
Definition commentCreated (opening : jsstring) (params : object)
    : completion GithubTs.toolResult :=
  GithubTs.catching (
    result <- awaited (rest issues_createComment params) ;;
    commentData <- GithubTs.commentRecord (GithubTs.data result) ;;
    user <- commentData.["user"] ;;
    created_at <- commentData.["created_at"] ;;
    body <- commentData.["body"] ;;
    html_url <- commentData.["html_url"] ;;
    Normal (GithubTs.textResult
              (opening ++ nl ++ nl
               ++ lit "评论者: " ++ toStr user ++ nl
               ++ lit "创建于: " ++ GithubTs.dateText host created_at ++ nl
               ++ lit "评论内容:" ++ nl ++ toStr body ++ nl ++ nl
               ++ lit "评论链接: " ++ toStr html_url))).

Definition createPullRequestComment (owner repo : jsstring) (pullNumber : Z) (body : jsstring)
    : completion GithubTs.toolResult :=
  commentCreated (lit "已成功在 PR #" ++ numToStr pullNumber ++ lit " 下添加评论:")
    [ (lit "owner", VStr owner); (lit "repo", VStr repo);
      (lit "issue_number", VNum pullNumber); (lit "body", VStr body) ].

Definition createPullRequestReviewComment (owner repo : jsstring) (pullNumber : Z)
    (body commitId path : jsstring) (line : Z) (startLine : option Z)
    (startSide side : option jsstring) : completion GithubTs.toolResult :=
  let side := match side with Some s => s | None => lit "RIGHT" end in
  GithubTs.catching (
    let params := [ (lit "owner", VStr owner); (lit "repo", VStr repo);
                    (lit "pull_number", VNum pullNumber); (lit "body", VStr body);
                    (lit "commit_id", VStr commitId); (lit "path", VStr path);
                    (lit "line", VNum line); (lit "side", VStr side) ] in
    let params := match startLine with
                  | Some n => if truthy (VNum n) then assign (lit "start_line") (VNum n) params
                              else params
                  | None => params
                  end in
    let params := match startSide with
                  | Some s => if truthy (VStr s) then assign (lit "start_side") (VStr s) params
                              else params
                  | None => params
                  end in
    result <- awaited (rest pulls_createReviewComment params) ;;
    commentData <- GithubTs.commentRecord (GithubTs.data result) ;;
    path <- (GithubTs.data result).["path"] ;;
    line <- (GithubTs.data result).["line"] ;;
    commit_id <- (GithubTs.data result).["commit_id"] ;;
    user <- commentData.["user"] ;;
    created_at <- commentData.["created_at"] ;;
    body <- commentData.["body"] ;;
    html_url <- commentData.["html_url"] ;;
    Normal (GithubTs.textResult
              (lit "已成功在 PR #" ++ numToStr pullNumber ++ lit " 的代码中添加评论:" ++ nl ++ nl
               ++ lit "评论者: " ++ toStr user ++ nl
               ++ lit "文件: " ++ toStr path ++ nl
               ++ lit "行号: " ++ toStr line ++ nl
               ++ lit "创建于: " ++ GithubTs.dateText host created_at ++ nl
               ++ lit "评论内容:" ++ nl ++ toStr body ++ nl ++ nl
               ++ lit "评论链接: " ++ toStr html_url))).

(** *** Issues *)

Definition createIssue (owner repo title : jsstring) (given : object)
    : completion GithubTs.toolResult :=
  GithubTsAnswers.answering host
    (awaited (rest issues_create
       [ (lit "owner", VStr owner); (lit "repo", VStr repo); (lit "title", VStr title);
         (lit "body", lookup (lit "body") given);
         (lit "assignees", lookup (lit "assignees") given);
         (lit "milestone", lookup (lit "milestone") given);
         (lit "labels", lookup (lit "labels") given) ]))
    (lit "issue") (lit "issue").

Definition listIssues (owner repo : jsstring) (given : object)
    : completion GithubTs.toolResult :=
  GithubTsAnswers.answering host
    (awaited (rest issues_listForRepo
       [ (lit "owner", VStr owner); (lit "repo", VStr repo);
         (lit "state", defaulted (lookup (lit "state") given) (VStr (lit "open")));
         (lit "assignee", lookup (lit "assignee") given);
         (lit "creator", lookup (lit "creator") given);
         (lit "mentioned", lookup (lit "mentioned") given);
         (lit "labels", lookup (lit "labels") given);
         (lit "sort", lookup (lit "sort") given);
         (lit "direction", lookup (lit "direction") given);
         (lit "since", lookup (lit "since") given);
         (lit "per_page", defaulted (lookup (lit "perPage") given) (VNum 100)) ]))
    (lit "issue") (lit "issue").

Definition updateIssue (owner repo : jsstring) (issueNumber : Z) (given : object)
    : completion GithubTs.toolResult :=
  GithubTsAnswers.answering host
    (awaited (rest issues_update
       [ (lit "owner", VStr owner); (lit "repo", VStr repo);
         (lit "issue_number", VNum issueNumber);
         (lit "title", lookup (lit "title") given);
         (lit "body", lookup (lit "body") given);
         (lit "state", lookup (lit "state") given);
         (lit "assignees", lookup (lit "assignees") given);
         (lit "milestone", lookup (lit "milestone") given);
         (lit "labels", lookup (lit "labels") given) ]))
    (lit "issue") (lit "issue").

Definition closeIssue (owner repo : jsstring) (issueNumber : Z)
    : completion GithubTs.toolResult :=
  GithubTsAnswers.answering host
    (awaited (rest issues_update
       [ (lit "owner", VStr owner); (lit "repo", VStr repo);
         (lit "issue_number", VNum issueNumber); (lit "state", VStr (lit "closed")) ]))
    (lit "issue") (lit "issue").

Definition createIssueComment (owner repo : jsstring) (issueNumber : Z) (body : jsstring)
    : completion GithubTs.toolResult :=
  commentCreated (lit "已成功在 Issue #" ++ numToStr issueNumber ++ lit " 下添加评论:")
    [ (lit "owner", VStr owner); (lit "repo", VStr repo);
      (lit "issue_number", VNum issueNumber); (lit "body", VStr body) ].

(** *** [listFrequentCommunicators] *)

(** [repo.owner?.login || username] *)
Definition repoOwner (username : jsstring) (repo : value) : completion value :=
  owner <- repo.["owner"] ;;
  login <- (match owner with
            | VUndefined | VNull => Normal VUndefined
            | _ => owner.["login"]
            end) ;;
  Normal (orElse login (VStr username)).

(** [if (x.user && x.user.login && x.user.login !== username)
    freqMap[x.user.login] = (freqMap[x.user.login] || 0) + weight] *)
Definition tally (username : jsstring) (weight : Z) (x : value) : counting unit :=
  user <~ lift (x.["user"]) ;;
  if truthy user
  then
    login <~ lift (user.["login"]) ;;
    if truthy login && negb (strictEqStr login username) then count login weight else pure tt
  else pure tt.

(** [if (pr.user && pr.user.login === username)
    freqMap[otherUser] = (freqMap[otherUser] || 0) + 3] *)
Definition tallyBack (username otherUser : jsstring) (pr : value) : counting unit :=
  user <~ lift (pr.["user"]) ;;
  if truthy user
  then
    login <~ lift (user.["login"]) ;;
    if strictEqStr login username then count (VStr otherUser) 3 else pure tt
  else pure tt.

(** The body of [for (const repo of userRepos)]. *)
Definition perRepository (username : jsstring) (issuePerPage commentPerPage : Z)
    (repo : value) : counting unit :=
  owner <~ lift (repoOwner username repo) ;;
  name <~ lift (repo.["name"]) ;;
  issuesResult <~ lift (awaited (rest issues_listForRepo
    [ (lit "owner", owner); (lit "repo", name); (lit "per_page", VNum issuePerPage);
      (lit "state", VStr (lit "all")) ])) ;;
  issues <~ lift (GithubTsFollowed.iterated "issues" (GithubTs.data issuesResult)) ;;
  _ <~ forOf issues (fun issue =>
    _ <~ tally username 1 issue ;;
    number <~ lift (issue.["number"]) ;;
    commentsResult <~ lift (awaited (rest issues_listComments
      [ (lit "owner", owner); (lit "repo", name); (lit "issue_number", number);
        (lit "per_page", VNum commentPerPage) ])) ;;
    comments <~ lift (GithubTsFollowed.iterated "comments" (GithubTs.data commentsResult)) ;;
    forOf comments (tally username 1)) ;;
  attempt (
    pullsResult <~ lift (awaited (rest pulls_list
      [ (lit "owner", owner); (lit "repo", name); (lit "state", VStr (lit "all"));
        (lit "per_page", VNum issuePerPage) ])) ;;
    pullRequests <~ lift (GithubTsFollowed.iterated "pullRequests" (GithubTs.data pullsResult)) ;;
    forOf pullRequests (fun pr =>
      _ <~ tally username 2 pr ;;
      attempt (
        number <~ lift (pr.["number"]) ;;
        prCommentsResult <~ lift (awaited (rest pulls_listReviewComments
          [ (lit "owner", owner); (lit "repo", name); (lit "pull_number", number);
            (lit "per_page", VNum commentPerPage) ])) ;;
        prComments <~ lift (GithubTsFollowed.iterated "prComments"
                              (GithubTs.data prCommentsResult)) ;;
        forOf prComments (tally username 1)))).

(** The second [try]: the repositories of the five names counted most. *)
Definition lookBack (username : jsstring) : counting unit :=
  attempt (fun t =>
    forOf (topUsers runtime t) (fun otherUser =>
      otherUserReposResult <~ lift (awaited (rest repos_listForUser
        [ (lit "username", VStr otherUser); (lit "per_page", VNum 3) ])) ;;
      otherUserRepos <~ lift (GithubTsFollowed.iterated "otherUserRepos"
                                (GithubTs.data otherUserReposResult)) ;;
      forOf otherUserRepos (fun otherRepo =>
        name <~ lift (otherRepo.["name"]) ;;
        userPRsResult <~ lift (awaited (rest pulls_list
          [ (lit "owner", VStr otherUser); (lit "repo", name); (lit "state", VStr (lit "all"));
            (lit "per_page", VNum 5) ])) ;;
        userPRs <~ lift (GithubTsFollowed.iterated "userPRs" (GithubTs.data userPRsResult)) ;;
        forOf userPRs (tallyBack username otherUser))) t).

(** The callback of [filteredSorted.forEach]. *)
Fixpoint rankLines (index : nat) (items : list (jsstring * value)) : list jsstring :=
  match items with
  | [] => []
  | item :: more =>
    (GithubTs.ordinal index ++ lit ". 用户: " ++ fst item ++ lit ", 互动次数: "
       ++ toStr (snd item) ++ nl) :: rankLines (S index) more
  end.

(** What the handler answers once the counting is over. *)
Definition report (username : jsstring) (t : tallies) : GithubTs.toolResult :=
  match ranking runtime t with
  | [] => GithubTs.textResult (lit "没有发现任何与用户 " ++ username ++ lit " 交流过的其他用户。")
  | sorted =>
    match filter (fun item => negb (isBot runtime (fst item))) sorted with
    | [] =>
      GithubTs.textResult (lit "没有发现任何与用户 " ++ username ++ lit " 交流过的其他人类用户。")
    | filteredSorted =>
      GithubTs.textResult
        (lit "用户 " ++ username ++ lit " 的仓库中最常与之互动的其他用户（已过滤机器人）："
         ++ nl ++ nl ++ List.concat (rankLines 0 filteredSorted))
    end
  end.

Definition listFrequentCommunicators (username : jsstring)
    (repoPerPage issuePerPage commentPerPage : option Z) : completion GithubTs.toolResult :=
  let repoPerPage := match repoPerPage with Some n => n | None => 5%Z end in
  let issuePerPage := match issuePerPage with Some n => n | None => 5%Z end in
  let commentPerPage := match commentPerPage with Some n => n | None => 5%Z end in
  GithubTs.catching (
    reposResult <- awaited (rest repos_listForUser
      [ (lit "username", VStr username); (lit "per_page", VNum repoPerPage) ]) ;;
    let userRepos := GithubTs.data reposResult in
    empty <- (if truthy userRepos
              then len <- userRepos.["length"] ;; Normal (GithubTsTools.isZero len)
              else Normal true) ;;
    if empty
    then Normal (GithubTs.textResult (lit "用户 " ++ username ++ lit " 没有任何公开仓库。"))
    else
      repos <- GithubTsFollowed.iterated "userRepos" userRepos ;;
      snd ((_ <~ forOf repos (perRepository username issuePerPage commentPerPage) ;;
            _ <~ lookBack username ;;
            fun t => (t, Normal (report username t))) [])).

(** *** [listRepositoryContents] *)

(** The callback of [result.data.map]. *)
Definition contentLine (item : value) : completion jsstring :=
  type <- item.["type"] ;;
  size <- item.["size"] ;;
  name <- item.["name"] ;;
  let isDir := strictEqStr type (lit "dir") in
  let icon := if isDir then lit "📁"
              else if strictEqStr type (lit "file") then lit "📄"
              else if strictEqStr type (lit "symlink") then lit "🔗"
              else lit "❓" in
  let size := if truthy size then lit "(" ++ formatFileSize runtime size ++ lit ")" else [] in
  Normal (icon ++ lit " " ++ toStr name ++ lit " " ++ size ++ lit " "
          ++ (if isDir then lit "/" else [])).

(** The body of the [try], the request answered. *)
Definition contentsText (owner repo path : jsstring) (ref : option jsstring) (data : value)
    : completion GithubTs.toolResult :=
  match data with
  | VArr entries =>
    lines <- mapM contentLine entries ;;
    Normal (GithubTs.textResult
              (lit "仓库: " ++ owner ++ lit "/" ++ repo
               ++ match ref with
                  | Some (c :: ref') => lit " (分支: " ++ (c :: ref') ++ lit ")"
                  | _ => []
                  end
               ++ nl ++ lit "路径: " ++ GithubTsTools.pathNav path ++ nl ++ nl
               ++ join nl lines ++ GithubTsTools.navigationTip path))
  | fileData =>
    name <- fileData.["name"] ;;
    size <- fileData.["size"] ;;
    type <- fileData.["type"] ;;
    path' <- fileData.["path"] ;;
    Normal (GithubTs.textResult
              (lit "文件: " ++ toStr name ++ nl
               ++ lit "大小: " ++ formatFileSize runtime size ++ nl
               ++ lit "类型: " ++ toStr type ++ nl
               ++ lit "路径: " ++ toStr path' ++ nl ++ nl
               ++ lit "如需查看文件内容，请使用 getFileContent 工具。"))
  end.

(** [error.status === 404] *)
Definition notFound (status : value) : bool :=
  match status with VNum n => (n =? 404)%Z | _ => false end.

(** What the [catch] of [listRepositoryContents] answers to a failed
    request. *)
Definition contentsFailure (path : jsstring) (status : value) (message : jsstring) : jsstring :=
  if notFound status
  then lit "路径不存在: " ++ (match path with [] => lit "/" | _ => path end) ++ nl
       ++ lit "请检查路径是否正确，或尝试返回上级目录。"
  else lit "错误: " ++ message.

(** The exception of a property read or of a call on what is no function
    has no [status]. *)
Definition listRepositoryContents (owner repo : jsstring) (path ref : option jsstring)
    : completion GithubTs.toolResult :=
  let path := match path with Some p => p | None => [] end in
  match rest repos_getContent
          [ (lit "owner", VStr owner); (lit "repo", VStr repo); (lit "path", VStr path);
            (lit "ref", GithubTs.optional VStr ref) ] with
  | Failed status message =>
    Normal (GithubTs.textResult (contentsFailure path status message))
  | Answered result =>
    match contentsText owner repo path ref (GithubTs.data result) with
    | Normal answer => Normal answer
    | Throw message => Normal (GithubTs.textResult (lit "错误: " ++ message))
    end
  end.

(** *** The table of the tools *)

(** An invocation of a tool: its name and its arguments, as the schema of
    the tool lets them through; [given] holds the optional arguments that
    were passed, under their names. *)
Inductive invocation : Type :=
| ListRepositories (type sort direction : option jsstring) (perPage : option Z)
| CreateRepository (name : jsstring) (given : object)
| GetRepository (owner repo : jsstring)
| UpdateRepository (owner repo : jsstring) (given : object)
| DeleteRepository (owner repo : jsstring)
| ListContributors (owner repo : jsstring) (anon : option bool) (perPage : option Z)
| CreateBranch (owner repo branch sha : jsstring)
| GetBranch (owner repo branch : jsstring)
| ListBranches (owner repo : jsstring) (isProtected : option bool) (perPage : option Z)
| DeleteBranch (owner repo branch : jsstring)
| CreatePullRequest (owner repo title head base : jsstring) (given : object)
| GetPullRequest (owner repo : jsstring) (pullNumber : Z)
| ListPullRequests (owner repo : jsstring) (given : object)
| UpdatePullRequest (owner repo : jsstring) (pullNumber : Z) (given : object)
| MergePullRequest (owner repo : jsstring) (pullNumber : Z)
    (commitTitle commitMessage mergeMethod sha : option jsstring)
| GetPullRequestComments (owner repo : jsstring) (pullNumber : Z) (page : option Z)
| CreatePullRequestComment (owner repo : jsstring) (pullNumber : Z) (body : jsstring)
| CreatePullRequestReviewComment (owner repo : jsstring) (pullNumber : Z)
    (body commitId path : jsstring) (line : Z) (startLine : option Z)
    (startSide side : option jsstring)
| CreateIssue (owner repo title : jsstring) (given : object)
| GetIssue (owner repo : jsstring) (issueNumber : Z)
| ListIssues (owner repo : jsstring) (given : object)
| UpdateIssue (owner repo : jsstring) (issueNumber : Z) (given : object)
| CloseIssue (owner repo : jsstring) (issueNumber : Z)
| GetIssueComments (owner repo : jsstring) (issueNumber : Z) (page : option Z)
| CreateIssueComment (owner repo : jsstring) (issueNumber : Z) (body : jsstring)
| ListFollowing (username : jsstring) (perPage : option Z)
| ListFollowingUserRepos (username : jsstring) (perPage : option Z)
| ListFrequentCommunicators (username : jsstring)
    (repoPerPage issuePerPage commentPerPage : option Z)
| ListRepositoryContents (owner repo : jsstring) (path ref : option jsstring)
| GetFileContent (owner repo path : jsstring) (ref : option jsstring)
    (startLine endLine : option Z)
| UpdateFileContent (owner repo path message content : jsstring) (branch sha : option jsstring)
| ListCommits (owner repo : jsstring) (sha path author since until : option jsstring)
    (perPage : option Z)
| GetCommit (owner repo ref : jsstring)
| CreateCommit (owner repo message tree : jsstring) (parents : list jsstring)
    (authorName authorEmail : option jsstring).

(** The call of one endpoint, awaited. *)
Definition calling (e : endpoint) (params : object) : completion GithubTs.response :=
  awaited (rest e params).

(** What the promise of the handler of the tool settles to. *)
Definition handle (call : invocation) : completion GithubTs.toolResult :=
  match call with
  | ListRepositories type sort direction perPage =>
    GithubTs.listRepositories host octokit type sort direction perPage
  | CreateRepository name given => createRepository name given
  | GetRepository owner repo => getRepository owner repo
  | UpdateRepository owner repo given => GithubTs.updateRepository host octokit owner repo given
  | DeleteRepository owner repo => deleteRepository owner repo
  | ListContributors owner repo anon perPage =>
    GithubTsAnswers.listContributors host (calling repos_listContributors) owner repo anon perPage
  | CreateBranch owner repo branch sha =>
    GithubTsAnswers.createBranch host (calling git_createRef) owner repo branch sha
  | GetBranch owner repo branch =>
    GithubTsAnswers.getBranch host (calling repos_getBranch) owner repo branch
  | ListBranches owner repo isProtected perPage =>
    GithubTsTools.listBranches host (calling repos_listBranches) owner repo isProtected perPage
  | DeleteBranch owner repo branch => deleteBranch owner repo branch
  | CreatePullRequest owner repo title head base given =>
    createPullRequest owner repo title head base given
  | GetPullRequest owner repo pullNumber =>
    GithubTsAnswers.getPullRequest host (calling pulls_get) owner repo pullNumber
  | ListPullRequests owner repo given => listPullRequests owner repo given
  | UpdatePullRequest owner repo pullNumber given => updatePullRequest owner repo pullNumber given
  | MergePullRequest owner repo pullNumber commitTitle commitMessage mergeMethod sha =>
    GithubTsAnswers.mergePullRequest host (calling pulls_merge) owner repo pullNumber
      commitTitle commitMessage mergeMethod sha
  | GetPullRequestComments owner repo pullNumber page =>
    getPullRequestComments owner repo pullNumber page
  | CreatePullRequestComment owner repo pullNumber body =>
    createPullRequestComment owner repo pullNumber body
  | CreatePullRequestReviewComment owner repo pullNumber body commitId path line startLine
      startSide side =>
    createPullRequestReviewComment owner repo pullNumber body commitId path line startLine
      startSide side
  | CreateIssue owner repo title given => createIssue owner repo title given
  | GetIssue owner repo issueNumber =>
    GithubTsAnswers.getIssue host (calling issues_get) owner repo issueNumber
  | ListIssues owner repo given => listIssues owner repo given
  | UpdateIssue owner repo issueNumber given => updateIssue owner repo issueNumber given
  | CloseIssue owner repo issueNumber => closeIssue owner repo issueNumber
  | GetIssueComments owner repo issueNumber page =>
    GithubTs.getIssueComments host octokit owner repo issueNumber page
  | CreateIssueComment owner repo issueNumber body =>
    createIssueComment owner repo issueNumber body
  | ListFollowing username perPage =>
    GithubTsTools.listFollowing (calling users_listFollowingForUser) username perPage
  | ListFollowingUserRepos username perPage =>
    GithubTsFollowed.listFollowingUserRepos host (calling users_listFollowingForUser)
      (calling repos_listForUser) username perPage
  | ListFrequentCommunicators username repoPerPage issuePerPage commentPerPage =>
    listFrequentCommunicators username repoPerPage issuePerPage commentPerPage
  | ListRepositoryContents owner repo path ref => listRepositoryContents owner repo path ref
  | GetFileContent owner repo path ref startLine endLine =>
    GithubTsTools.getFileContent host (calling repos_getContent) (decodeBase64 runtime)
      owner repo path ref startLine endLine
  | UpdateFileContent owner repo path message content branch sha =>
    GithubTsAnswers.updateFileContent host (calling repos_createOrUpdateFileContents)
      (encodeBase64 runtime) owner repo path message content branch sha
  | ListCommits owner repo sha path author since until perPage =>
    GithubTsAnswers.listCommits host (calling repos_listCommits) owner repo sha path author
      since until perPage
  | GetCommit owner repo ref =>
    GithubTsAnswers.getCommit host (calling repos_getCommit) owner repo ref
  | CreateCommit owner repo message tree parents authorName authorEmail =>
    GithubTsAnswers.createCommit host (calling git_createCommit) (now runtime)
      owner repo message tree parents authorName authorEmail
  end.

End Server.

End GithubTsServer.

(** *** What the properties of the handlers speak of *)

(** The lines of [getIssueComments] before the comments, of a cleaned issue
    that is an object. *)
Definition issueHead (host : Host) (page : Z) (issueData : object) : list jsstring :=
  [ lit "Issue #" ++ toStr (lookup (lit "number") issueData) ++ lit ": "
      ++ toStr (lookup (lit "title") issueData) ++ nl;
    lit "状态: " ++ GithubTs.stateText (lookup (lit "state") issueData) ++ nl;
    lit "创建者: " ++ toStr (orElse (lookup (lit "user") issueData) (VStr (lit "unknown"))) ++ nl;
    lit "创建于: " ++ GithubTs.dateText host (lookup (lit "created_at") issueData) ++ nl;
    lit "链接: " ++ toStr (lookup (lit "html_url") issueData) ++ nl ++ nl ]
  ++ (if truthy (lookup (lit "body") issueData)
      then [ lit "描述:" ++ nl ++ toStr (lookup (lit "body") issueData) ++ nl ++ nl ] else [])
  ++ [ lit "--- 评论 (第 " ++ numToStr page ++ lit " 页) ---" ++ nl ++ nl ].

(** A step of the counting that leaves the counts as they are. *)
Definition quiet {A} (c : GithubTsServer.counting A) : Prop := forall t, fst (c t) = t.

(** The handler of [listRepositoryContents], whose [catch] is its own. *)
Definition listsContents (call : GithubTsServer.invocation) : bool :=
  match call with
  | GithubTsServer.ListRepositoryContents _ _ _ _ => true
  | _ => false
  end.

(** *** Inputs of the examples *)

(** A runtime: it leaves comments in the order it gets them, counts no name
    among the five of [topUsers] and no robot, and lists the assignments of
    [freqMap] as they were made. *)
Definition sampleRuntime : GithubTsServer.Runtime :=
  {| GithubTsServer.decodeBase64 := fun v => Normal (toStr v);
     GithubTsServer.encodeBase64 := fun s => s;
     GithubTsServer.now := lit "2024-01-01T00:00:00.000Z";
     GithubTsServer.formatFileSize := fun v => toStr v ++ lit " Bytes";
     GithubTsServer.sortedByCreation := fun comments => comments;
     GithubTsServer.topUsers := fun _ => [];
     GithubTsServer.ranking := fun t => map (fun kw => (toStr (fst kw), VNum (snd kw))) t;
     GithubTsServer.isBot := fun _ => false |}.

(** [n] comments as the upstream lists them. *)
Definition sampleComment (n : nat) : object :=
  [ (lit "id", VNum (Z.of_nat n));
    (lit "user", VObj [ (lit "login", VStr (lit "octocat")) ]);
    (lit "created_at", VStr (lit "2024-01-01T00:00:00Z"));
    (lit "body", VStr (lit "ok")) ].

Definition commentsOf (n : nat) : list object := map sampleComment (seq 1 n).

(** An upstream that answers with a pull request, with an issue, with [n]
    comments and with [m] review comments, and fails on the other calls. *)
Definition commented (n m : nat) : GithubTsServer.Rest :=
  fun e _ =>
    match e with
    | GithubTsServer.pulls_get => GithubTsServer.Answered {| GithubTs.data := VObj samplePull |}
    | GithubTsServer.issues_get => GithubTsServer.Answered {| GithubTs.data := VObj oddIssue |}
    | GithubTsServer.issues_listComments =>
      GithubTsServer.Answered {| GithubTs.data := VArr (map VObj (commentsOf n)) |}
    | GithubTsServer.pulls_listReviewComments =>
      GithubTsServer.Answered {| GithubTs.data := VArr (map VObj (commentsOf m)) |}
    | _ => GithubTsServer.Failed (VNum 500) (lit "fetch failed")
    end.

(** An upstream that cannot be reached, and one that finds nothing. *)
Definition unreachable : GithubTsServer.Rest :=
  fun _ _ => GithubTsServer.Failed VUndefined (lit "fetch failed").

Definition nothingFound : GithubTsServer.Rest :=
  fun _ _ => GithubTsServer.Failed (VNum 404) (lit "Not Found").

(** An upstream that lists one repository of the user, no issue in it, and
    fails on the pull requests. *)
Definition pullsFailing : GithubTsServer.Rest :=
  fun e _ =>
    match e with
    | GithubTsServer.repos_listForUser =>
      GithubTsServer.Answered {| GithubTs.data := VArr [ VObj ownedRepository ] |}
    | GithubTsServer.issues_listForRepo => GithubTsServer.Answered {| GithubTs.data := VArr [] |}
    | _ => GithubTsServer.Failed (VNum 500) (lit "fetch failed")
    end.

(** An upstream on which replacing the topics fails and every other call
    answers with a repository. *)
Definition topicsRefused : GithubTsServer.Rest :=
  fun e _ =>
    match e with
    | GithubTsServer.repos_replaceAllTopics =>
      GithubTsServer.Failed (VNum 422) (lit "Validation Failed")
    | _ => GithubTsServer.Answered {| GithubTs.data := sampleRepository |}
    end.
(** ** Strings and objects *)

Arguments lit : simpl never.
Arguments genericOf : simpl never.
Arguments GithubTs.keysToKeep : simpl never.

Lemma str_eqb_refl (a : jsstring) : str_eqb a a = true.
Proof.
  induction a as [|x a IH]; simpl; [reflexivity|].
  now rewrite N.eqb_refl, IH.
Qed.

Lemma str_eqb_eq (a b : jsstring) : str_eqb a b = true <-> a = b.
Proof.
  split.
  - revert b; induction a as [|x a IH]; destruct b as [|y b]; simpl; try discriminate; auto.
    intros H. apply andb_true_iff in H as [Hx Hr].
    apply N.eqb_eq in Hx. now rewrite Hx, (IH b Hr).
  - intros <-. apply str_eqb_refl.
Qed.

Lemma str_eqb_neq (a b : jsstring) : str_eqb a b = false <-> a <> b.
Proof.
  split.
  - intros H E. apply str_eqb_eq in E. congruence.
  - intros H. destruct (str_eqb a b) eqn:E; [|reflexivity].
    apply str_eqb_eq in E. contradiction.
Qed.

Lemma str_eqb_sym (a b : jsstring) : str_eqb a b = str_eqb b a.
Proof.
  destruct (str_eqb a b) eqn:E.
  - apply str_eqb_eq in E. subst. symmetry. apply str_eqb_refl.
  - symmetry. apply str_eqb_neq. apply str_eqb_neq in E. congruence.
Qed.

Lemma has_key_assign (k key : jsstring) (v : value) (fs : object) :
  has_key key (assign k v fs) = str_eqb key k || has_key key fs.
Proof.
  unfold has_key. induction fs as [|[k' v'] fs IH]; simpl.
  - now rewrite orb_false_r.
  - destruct (str_eqb k k') eqn:E; simpl.
    + apply str_eqb_eq in E. subst k'.
      destruct (str_eqb key k); reflexivity.
    + rewrite IH. destruct (str_eqb key k'), (str_eqb key k); reflexivity.
Qed.

Lemma lookup_assign_same (k : jsstring) (v : value) (fs : object) :
  lookup k (assign k v fs) = v.
Proof.
  induction fs as [|[k' v'] fs IH]; simpl.
  - now rewrite str_eqb_refl.
  - destruct (str_eqb k k') eqn:E; simpl; rewrite E; auto.
Qed.

Lemma lookup_assign_other (k key : jsstring) (v : value) (fs : object) :
  key <> k -> lookup key (assign k v fs) = lookup key fs.
Proof.
  intros Hne. apply str_eqb_neq in Hne.
  induction fs as [|[k' v'] fs IH]; simpl.
  - now rewrite Hne.
  - destruct (str_eqb k k') eqn:E; simpl.
    + apply str_eqb_eq in E. subst k'. now rewrite Hne.
    + rewrite IH. reflexivity.
Qed.

Lemma lookup_absent (key : jsstring) (fs : object) :
  has_key key fs = false -> lookup key fs = VUndefined.
Proof.
  unfold has_key. induction fs as [|[k' v'] fs IH]; simpl; [reflexivity|].
  intros H. apply orb_false_iff in H as [H1 H2]. rewrite H1. auto.
Qed.

Lemma lookup_defined_has_key (key : jsstring) (fs : object) :
  lookup key fs <> VUndefined -> has_key key fs = true.
Proof.
  intros H. destruct (has_key key fs) eqn:E; [reflexivity|].
  apply lookup_absent in E. contradiction.
Qed.

Lemma In_existsb (k : jsstring) (l : list jsstring) :
  In k l <-> existsb (str_eqb k) l = true.
Proof.
  rewrite existsb_exists. split.
  - intros H. exists k. split; [assumption | apply str_eqb_refl].
  - intros (x & Hin & E). apply str_eqb_eq in E. now subst.
Qed.

Lemma isUndefined_false (v : value) : isUndefined v = false <-> v <> VUndefined.
Proof. destruct v; simpl; split; congruence. Qed.

Lemma bind_Normal {A B} (c : completion A) (k : A -> completion B) (b : B) :
  bind c k = Normal b -> exists a, c = Normal a /\ k a = Normal b.
Proof. destruct c; simpl; [eauto | discriminate]. Qed.

(** ** The generic step *)

Lemma kept_defined (key : jsstring) (v : value) : v <> VUndefined -> kept key v <> VUndefined.
Proof.
  destruct v; simpl; try congruence.
  intros _. destruct (_ || _); discriminate.
Qed.

Lemma keepKey_object (fs result : object) (key : jsstring) :
  GithubTs.keepKey (VObj fs) result key = Normal (keepOf fs result key).
Proof.
  unfold GithubTs.keepKey, keepOf, kept, GithubTs.truncated. simpl.
  destruct (lookup key fs); simpl; try reflexivity.
  destruct (300 <? List.length s)%nat; simpl;
    destruct (str_eqb key (lit "body") || str_eqb key (lit "description")); reflexivity.
Qed.

Lemma foldM_keepKey_object (fs : object) (keys : list jsstring) (acc : object) :
  foldM (GithubTs.keepKey (VObj fs)) keys acc = Normal (fold_left (keepOf fs) keys acc).
Proof.
  revert acc. induction keys as [|k keys IH]; intros acc; simpl; [reflexivity|].
  rewrite keepKey_object. simpl. apply IH.
Qed.

Lemma flattenLogin_object (fs result : object) (name : jsstring) :
  GithubTs.flattenLogin (VObj fs) name result = Normal (flattenOf fs name result).
Proof.
  unfold GithubTs.flattenLogin, flattenOf. simpl.
  destruct (lookup name fs) as [| |b|n|s|items|fields]; simpl; try reflexivity.
  - now rewrite andb_false_r.
  - now rewrite andb_false_r.
  - destruct s; reflexivity.
Qed.

Lemma removeExcessiveFields_object (fs : object) :
  GithubTs.removeExcessiveFields (VObj fs) = Normal (genericOf fs).
Proof.
  unfold GithubTs.removeExcessiveFields, genericOf.
  rewrite foldM_keepKey_object. simpl.
  rewrite flattenLogin_object. simpl.
  rewrite flattenLogin_object. reflexivity.
Qed.

Lemma has_key_fold_keep (fs : object) (keys : list jsstring) (acc : object) (key : jsstring) :
  has_key key (fold_left (keepOf fs) keys acc)
  = has_key key acc || (existsb (str_eqb key) keys && negb (isUndefined (lookup key fs))).
Proof.
  revert acc. induction keys as [|k keys IH]; intros acc; simpl.
  - now rewrite orb_false_r.
  - rewrite IH. unfold keepOf.
    destruct (str_eqb key k) eqn:E.
    + apply str_eqb_eq in E. subst k.
      destruct (isUndefined (lookup key fs)); simpl.
      * now rewrite !andb_false_r.
      * rewrite has_key_assign, str_eqb_refl. simpl. now rewrite orb_true_r.
    + destruct (isUndefined (lookup k fs)); simpl; [reflexivity|].
      rewrite has_key_assign, E. reflexivity.
Qed.

Lemma lookup_fold_keep (fs : object) (keys : list jsstring) (acc : object) (key : jsstring) :
  lookup key (fold_left (keepOf fs) keys acc)
  = if existsb (str_eqb key) keys && negb (isUndefined (lookup key fs))
    then kept key (lookup key fs) else lookup key acc.
Proof.
  revert acc. induction keys as [|k keys IH]; intros acc; simpl; [reflexivity|].
  rewrite IH. unfold keepOf.
  destruct (str_eqb key k) eqn:E; simpl.
  - apply str_eqb_eq in E. subst k.
    destruct (isUndefined (lookup key fs)) eqn:U; simpl.
    + now rewrite andb_false_r.
    + rewrite lookup_assign_same. destruct (existsb _ keys); reflexivity.
  - destruct (existsb (str_eqb key) keys && negb (isUndefined (lookup key fs))); [reflexivity|].
    destruct (isUndefined (lookup k fs)); [reflexivity|].
    apply lookup_assign_other. now apply str_eqb_neq.
Qed.

Lemma has_key_flattenOf (fs result : object) (name key : jsstring) :
  has_key key (flattenOf fs name result)
  = has_key key result || (str_eqb key name && truthy (loginOf (lookup name fs))).
Proof.
  unfold flattenOf. destruct (truthy (loginOf (lookup name fs))).
  - rewrite has_key_assign, andb_true_r. apply orb_comm.
  - now rewrite andb_false_r, orb_false_r.
Qed.

Lemma lookup_flattenOf_other (fs result : object) (name key : jsstring) :
  key <> name -> lookup key (flattenOf fs name result) = lookup key result.
Proof.
  intros H. unfold flattenOf. destruct (truthy _); [|reflexivity].
  now apply lookup_assign_other.
Qed.

Lemma has_key_genericOf (fs : object) (key : jsstring) :
  has_key key (genericOf fs)
  = (existsb (str_eqb key) GithubTs.keysToKeep && negb (isUndefined (lookup key fs)))
    || (str_eqb key (lit "owner") && truthy (loginOf (lookup (lit "owner") fs)))
    || (str_eqb key (lit "user") && truthy (loginOf (lookup (lit "user") fs))).
Proof.
  unfold genericOf. rewrite !has_key_flattenOf, has_key_fold_keep. reflexivity.
Qed.

Lemma owner_user_not_kept (key : jsstring) :
  In key GithubTs.keysToKeep -> key <> lit "owner" /\ key <> lit "user".
Proof.
  intros H. apply In_existsb in H.
  split; intros ->; vm_compute in H; discriminate.
Qed.

Lemma lookup_genericOf (fs : object) (key : jsstring) :
  In key GithubTs.keysToKeep -> lookup key (genericOf fs) = kept key (lookup key fs).
Proof.
  intros Hin. destruct (owner_user_not_kept key Hin) as [Ho Hu].
  unfold genericOf. rewrite !lookup_flattenOf_other by assumption.
  rewrite lookup_fold_keep. apply In_existsb in Hin. rewrite Hin. simpl.
  destruct (lookup key fs); reflexivity.
Qed.

(** ** The names a cleaned record carries *)

Lemma keysWithin_assign (names : list jsstring) (k : jsstring) (v : value) (fs : object) :
  In k names -> keysWithin names fs -> keysWithin names (assign k v fs).
Proof.
  intros Hk Hfs key H. rewrite has_key_assign in H.
  apply orb_true_iff in H as [H|H]; [|auto].
  apply str_eqb_eq in H. now subst.
Qed.

Lemma keysWithin_weaken (names names' : list jsstring) (fs : object) :
  incl names names' -> keysWithin names fs -> keysWithin names' fs.
Proof. intros Hi H key Hk. apply Hi, H, Hk. Qed.

Lemma keysWithin_genericOf (fs : object) :
  keysWithin (GithubTs.keysToKeep ++ [lit "owner"; lit "user"]) (genericOf fs).
Proof.
  intros key H. rewrite has_key_genericOf in H. apply in_or_app.
  apply orb_true_iff in H as [H|H]; [apply orb_true_iff in H as [H|H]|];
    apply andb_true_iff in H as [H _].
  - left. now apply In_existsb.
  - right. apply str_eqb_eq in H. subst. now left.
  - right. apply str_eqb_eq in H. subst. right. now left.
Qed.

Lemma copyIfTruthy_keys names src from to cleaned out :
  In (lit to) names -> keysWithin names cleaned ->
  GithubTs.copyIfTruthy src from to cleaned = Normal out -> keysWithin names out.
Proof.
  intros Hto Hc H. unfold GithubTs.copyIfTruthy in H.
  apply bind_Normal in H as (v & _ & H). inversion H; subst.
  destruct (truthy v); [now apply keysWithin_assign | assumption].
Qed.

Lemma copyIfDefined_keys names src from to cleaned out :
  In (lit to) names -> keysWithin names cleaned ->
  GithubTs.copyIfDefined src from to cleaned = Normal out -> keysWithin names out.
Proof.
  intros Hto Hc H. unfold GithubTs.copyIfDefined in H.
  apply bind_Normal in H as (v & _ & H). inversion H; subst.
  destruct (isUndefined v); [assumption | now apply keysWithin_assign].
Qed.

Lemma copyInner_keys names src outer inner to cleaned out :
  In (lit to) names -> keysWithin names cleaned ->
  GithubTs.copyInner src outer inner to cleaned = Normal out -> keysWithin names out.
Proof.
  intros Hto Hc H. unfold GithubTs.copyInner in H.
  apply bind_Normal in H as (o & _ & H).
  destruct (truthy o).
  - apply bind_Normal in H as (i & _ & H). inversion H; subst.
    destruct (truthy i); [now apply keysWithin_assign | assumption].
  - inversion H; now subst.
Qed.

Lemma copyNames_keys names src from field cleaned out :
  In (lit from) names -> keysWithin names cleaned ->
  GithubTs.copyNames src from field cleaned = Normal out -> keysWithin names out.
Proof.
  intros Hto Hc H. unfold GithubTs.copyNames in H.
  apply bind_Normal in H as (v & _ & H).
  destruct (truthy v); [|inversion H; now subst].
  destruct v; try (inversion H; subst; now apply keysWithin_assign).
  apply bind_Normal in H as (ns & _ & H). inversion H; subst.
  now apply keysWithin_assign.
Qed.

Ltac member := apply In_existsb; vm_compute; reflexivity.

Ltac keys_by lem := eapply lem; [ | | eassumption]; [member | ].

Ltac open_binds H :=
  repeat (let x := fresh "x" in let E := fresh "E" in
          apply bind_Normal in H as (x & E & H)).

Lemma generic_within_allowed (type : jsstring) (fs : object) :
  keysWithin (allowedKeys type) (genericOf fs).
Proof.
  eapply keysWithin_weaken; [|apply keysWithin_genericOf].
  unfold allowedKeys. intros k Hk. apply in_app_or in Hk as [Hk|Hk].
  - apply in_or_app. now left.
  - apply in_or_app. right. apply in_or_app. now left.
Qed.

Lemma cleanRepository_keys (fs out : object) :
  GithubTs.cleanRepository (VObj fs) = Normal (VObj out) ->
  keysWithin (allowedKeys (lit "repository")) out.
Proof.
  intros H. unfold GithubTs.cleanRepository in H.
  rewrite removeExcessiveFields_object in H. cbn [bind] in H.
  open_binds H. inversion H; subst.
  pose proof (generic_within_allowed (lit "repository") fs) as G.
  keys_by copyIfTruthy_keys.
  keys_by copyIfDefined_keys.
  keys_by copyIfTruthy_keys.
  keys_by copyIfDefined_keys.
  keys_by copyIfTruthy_keys.
  exact G.
Qed.

Lemma cleanPullRequest_keys (fs out : object) :
  GithubTs.cleanPullRequest (VObj fs) = Normal (VObj out) ->
  keysWithin (allowedKeys (lit "pull_request")) out.
Proof.
  intros H. unfold GithubTs.cleanPullRequest in H.
  rewrite removeExcessiveFields_object in H. cbn [bind] in H.
  open_binds H. inversion H; subst.
  pose proof (generic_within_allowed (lit "pull_request") fs) as G.
  keys_by copyIfDefined_keys.
  keys_by copyInner_keys.
  keys_by copyInner_keys.
  keys_by copyIfTruthy_keys.
  exact G.
Qed.

Lemma cleanIssue_keys (fs out : object) :
  GithubTs.cleanIssue (VObj fs) = Normal (VObj out) ->
  keysWithin (allowedKeys (lit "issue")) out.
Proof.
  intros H. unfold GithubTs.cleanIssue in H.
  rewrite removeExcessiveFields_object in H. cbn [bind] in H.
  open_binds H. inversion H; subst.
  pose proof (generic_within_allowed (lit "issue") fs) as G.
  keys_by copyNames_keys.
  keys_by copyNames_keys.
  keys_by copyIfTruthy_keys.
  exact G.
Qed.

Lemma cleaning_object_keys (fs out : object) (type : jsstring) :
  GithubTs.cleaning (VObj fs) type = Normal (VObj out) -> keysWithin (allowedKeys type) out.
Proof.
  unfold GithubTs.cleaning. cbn [GithubTs.eachOrOne].
  destruct (str_eqb type (lit "repository")) eqn:E1.
  { apply str_eqb_eq in E1. subst. apply cleanRepository_keys. }
  destruct (str_eqb type (lit "pull_request")) eqn:E2.
  { apply str_eqb_eq in E2. subst. apply cleanPullRequest_keys. }
  destruct (str_eqb type (lit "issue")) eqn:E3.
  { apply str_eqb_eq in E3. subst. apply cleanIssue_keys. }
  unfold GithubTs.cleanGeneric. rewrite removeExcessiveFields_object. cbn [bind].
  intros H. inversion H; subst. apply generic_within_allowed.
Qed.

Lemma copyInner_object fs outer inner to cleaned :
  exists out, GithubTs.copyInner (VObj fs) outer inner to cleaned = Normal out.
Proof.
  unfold GithubTs.copyInner. cbn [get bind].
  destruct (lookup (lit outer) fs); cbn [truthy get bind negb]; eauto.
  - destruct b; cbn [bind]; eauto.
  - destruct (n =? 0)%Z; cbn [get bind negb]; eauto.
  - destruct s; cbn [get bind]; eauto.
Qed.

Lemma cleanRepository_object (fs : object) :
  exists out, GithubTs.cleanRepository (VObj fs) = Normal (VObj out).
Proof.
  unfold GithubTs.cleanRepository. rewrite removeExcessiveFields_object.
  unfold GithubTs.copyIfTruthy, GithubTs.copyIfDefined. cbn [get bind]. eauto.
Qed.

Lemma cleanPullRequest_object (fs : object) :
  exists out, GithubTs.cleanPullRequest (VObj fs) = Normal (VObj out).
Proof.
  unfold GithubTs.cleanPullRequest. rewrite removeExcessiveFields_object.
  unfold GithubTs.copyIfTruthy, GithubTs.copyIfDefined. cbn [get bind].
  destruct (copyInner_object fs "head" "ref" "head_branch"
              (if truthy (lookup (lit "merged_at") fs)
               then assign (lit "merged_at") (lookup (lit "merged_at") fs) (genericOf fs)
               else genericOf fs)) as (c1 & ->). cbn [bind].
  destruct (copyInner_object fs "base" "ref" "base_branch" c1) as (c2 & ->). cbn [get bind].
  eauto.
Qed.

Lemma cleanIssue_shape (fs : object) (v : value) :
  GithubTs.cleanIssue (VObj fs) = Normal v -> exists out, v = VObj out.
Proof.
  unfold GithubTs.cleanIssue. intros H. open_binds H. inversion H. eauto.
Qed.

(** ** Long text *)

Lemma truncated_long (limit : nat) (s : jsstring) :
  limit < List.length s -> GithubTs.truncated limit s = firstn limit s ++ lit "...".
Proof.
  intros H. unfold GithubTs.truncated, substring0.
  apply Nat.ltb_lt in H. now rewrite H.
Qed.

Lemma truncated_short (limit : nat) (s : jsstring) :
  List.length s <= limit -> GithubTs.truncated limit s = s.
Proof.
  intros H. unfold GithubTs.truncated.
  apply Nat.ltb_ge in H. now rewrite H.
Qed.

Lemma copyInner_other src outer inner to cleaned out key :
  GithubTs.copyInner src outer inner to cleaned = Normal out -> key <> lit to ->
  lookup key out = lookup key cleaned /\ has_key key out = has_key key cleaned.
Proof.
  intros H Hne. unfold GithubTs.copyInner in H.
  apply bind_Normal in H as (o & _ & H).
  destruct (truthy o); [|inversion H; now subst].
  apply bind_Normal in H as (i & _ & H). inversion H; subst.
  destruct (truthy i); [|now split].
  rewrite lookup_assign_other, has_key_assign by assumption.
  apply str_eqb_neq in Hne. now rewrite Hne.
Qed.

Lemma body_not_user : lit "body" <> lit "user".
Proof. apply str_eqb_neq. reflexivity. Qed.

Lemma description_not_user : lit "description" <> lit "user".
Proof. apply str_eqb_neq. reflexivity. Qed.

Lemma shortBody_string (host : Host) (s : jsstring) :
  Part000.shortBody host (VStr s) = Normal (VStr (GithubTs.truncated 1000 s)).
Proof.
  unfold Part000.shortBody, GithubTs.truncated. cbn [get bind].
  rewrite str_eqb_refl. cbn [above].
  destruct (1000 <? List.length s)%nat eqn:E.
  - apply Nat.ltb_lt in E.
    replace (1000 <? Z.of_nat (List.length s))%Z with true; [reflexivity|].
    symmetry. apply Z.ltb_lt. lia.
  - apply Nat.ltb_ge in E.
    replace (1000 <? Z.of_nat (List.length s))%Z with false; [reflexivity|].
    symmetry. apply Z.ltb_ge. lia.
Qed.

Lemma cleanComment_body (host : Host) (fs : object) (s : jsstring) :
  lookup (lit "body") fs = VStr s ->
  exists out,
    Part000.cleanComment host (VObj fs) = Normal (VObj out) /\
    has_key (lit "description") out = false /\
    (s <> [] -> lookup (lit "body") out = VStr (GithubTs.truncated 1000 s)) /\
    (s = [] -> has_key (lit "body") out = false).
Proof.
  intros Hbody. unfold Part000.cleanComment. cbn [get bind]. rewrite Hbody.
  destruct s as [|c s].
  - cbn [truthy bind].
    match goal with |- context [GithubTs.copyInner ?a ?b ?c ?d ?e] =>
      destruct (copyInner_object fs b c d e) as (out & E);
      pose proof (copyInner_other a b c d e out) as O end.
    rewrite E. cbn [bind]. exists out. split; [reflexivity|].
    split; [|split]; [| congruence |].
    + destruct (O (lit "description") E description_not_user) as [_ ->]. reflexivity.
    + intros _. destruct (O (lit "body") E body_not_user) as [_ ->]. reflexivity.
  - cbn [truthy]. rewrite shortBody_string. cbn [bind].
    match goal with |- context [GithubTs.copyInner ?a ?b ?c ?d ?e] =>
      destruct (copyInner_object fs b c d e) as (out & E);
      pose proof (copyInner_other a b c d e out) as O end.
    rewrite E. cbn [bind]. exists out. split; [reflexivity|].
    split; [|split]; [| | discriminate].
    + destruct (O (lit "description") E description_not_user) as [_ ->]. reflexivity.
    + intros _. destruct (O (lit "body") E body_not_user) as [-> _]. reflexivity.
Qed.

(** ** Arrays and single records *)

Lemma cleaning_eachOrOne (data : value) (type : jsstring) :
  GithubTs.cleaning data type = GithubTs.eachOrOne (cleanOne type) data.
Proof.
  unfold GithubTs.cleaning, cleanOne.
  destruct (str_eqb type (lit "repository")); [reflexivity|].
  destruct (str_eqb type (lit "pull_request")); [reflexivity|].
  destruct (str_eqb type (lit "issue")); reflexivity.
Qed.

Lemma mapM_Forall2 {A B} (f : A -> completion B) (l : list A) (out : list B) :
  mapM f l = Normal out <-> Forall2 (fun x y => f x = Normal y) l out.
Proof.
  revert out. induction l as [|x l IH]; intros out; simpl.
  - split; intros H; inversion H; constructor.
  - split.
    + intros H. apply bind_Normal in H as (y & Hy & H).
      apply bind_Normal in H as (ys & Hys & H). inversion H; subst.
      constructor; [assumption | now apply IH].
    + intros H. inversion H as [|? y ? ys Hy Hys]; subst.
      rewrite Hy. simpl. apply IH in Hys. rewrite Hys. reflexivity.
Qed.

(** X1.  In [src/tools/github.ts] an array comes back as an array of the same
    length for every kind: the elements cleaned one by one in their order,
    or, when cleaning an element raises an exception, the input itself. *)
Lemma github_ts_array_in_array_out (items : list value) (type : jsstring) :
  exists out,
    GithubTs.cleanGitHubResponse (VArr items) type = VArr out /\
    List.length out = List.length items /\
    (Forall2 (fun x y => cleanOne type x = Normal y) items out
     \/ (out = items /\ exists m, GithubTs.cleaning (VArr items) type = Throw m)).
Proof.
  unfold GithubTs.cleanGitHubResponse. rewrite cleaning_eachOrOne.
  cbn [GithubTs.eachOrOne].
  destruct (mapM (cleanOne type) items) as [out|m] eqn:E; cbn [bind].
  - exists out. apply mapM_Forall2 in E. split; [reflexivity|]. split; [|now left].
    symmetry. eapply Forall2_length, E.
  - exists items. split; [reflexivity|]. split; [reflexivity|]. right. eauto.
Qed.

(** C2 fails in [unnamed/part_000]: for the kind [user] the cleaner hands an
    array of one user back as the text the formatter would print, not as an
    array of one cleaned record. *)
Theorem user_case_returns_text (host : Host) :
  Part000.cleanGitHubResponse host (VArr [VObj octocat]) (lit "user")
  = VStr (lit "找到 1 个用户:" ++ nl ++ nl ++ lit "1. octocat" ++ nl ++ nl).
Proof. vm_compute. reflexivity. Qed.

(** ** Cleaning twice *)

Lemma absent_lookup (fs : object) (k : jsstring) :
  keysWithin GithubTs.keysToKeep fs -> existsb (str_eqb k) GithubTs.keysToKeep = false ->
  lookup k fs = VUndefined.
Proof.
  intros Hfs Hk. apply lookup_absent.
  destruct (has_key k fs) eqn:E; [|reflexivity].
  apply Hfs, In_existsb in E. congruence.
Qed.

Lemma genericOf_clean (fs : object) :
  keysWithin GithubTs.keysToKeep fs ->
  genericOf fs = fold_left (keepOf fs) GithubTs.keysToKeep [].
Proof.
  intros Hfs. unfold genericOf, flattenOf.
  rewrite !(absent_lookup fs _ Hfs) by reflexivity. reflexivity.
Qed.

Lemma cleanOne_clean (fs : object) (type : jsstring) :
  keysWithin GithubTs.keysToKeep fs ->
  cleanOne type (VObj fs) = Normal (VObj (genericOf fs)).
Proof.
  intros Hfs. unfold cleanOne.
  destruct (str_eqb type (lit "repository")); [|
  destruct (str_eqb type (lit "pull_request")); [|
  destruct (str_eqb type (lit "issue"))]].
  - unfold GithubTs.cleanRepository. rewrite removeExcessiveFields_object.
    unfold GithubTs.copyIfTruthy, GithubTs.copyIfDefined. cbn [get bind].
    rewrite !(absent_lookup fs _ Hfs) by reflexivity. reflexivity.
  - unfold GithubTs.cleanPullRequest. rewrite removeExcessiveFields_object.
    unfold GithubTs.copyIfTruthy, GithubTs.copyIfDefined, GithubTs.copyInner. cbn [get bind].
    rewrite !(absent_lookup fs _ Hfs) by reflexivity. reflexivity.
  - unfold GithubTs.cleanIssue. rewrite removeExcessiveFields_object.
    unfold GithubTs.copyIfTruthy, GithubTs.copyNames. cbn [get bind].
    rewrite !(absent_lookup fs _ Hfs) by reflexivity. reflexivity.
  - unfold GithubTs.cleanGeneric. now rewrite removeExcessiveFields_object.
Qed.

Lemma genericOf_within (fs : object) :
  keysWithin GithubTs.keysToKeep fs -> keysWithin GithubTs.keysToKeep (genericOf fs).
Proof.
  intros Hfs key H. rewrite genericOf_clean, has_key_fold_keep in H by assumption.
  cbn [has_key existsb orb] in H. apply andb_true_iff in H as [H _].
  now apply In_existsb.
Qed.

Lemma truncated_idempotent (limit : nat) (s : jsstring) :
  GithubTs.truncated limit (GithubTs.truncated limit s) = GithubTs.truncated limit s.
Proof.
  destruct (Nat.lt_ge_cases limit (List.length s)) as [H|H].
  - rewrite (truncated_long limit s H).
    assert (List.length (firstn limit s) = limit) as L by (rewrite length_firstn; lia).
    assert (List.length (lit "...") = 3) as L3 by reflexivity.
    rewrite truncated_long by (rewrite length_app, L, L3; lia).
    rewrite firstn_app, L, Nat.sub_diag, firstn_firstn, Nat.min_id.
    cbn [firstn]. rewrite (app_nil_r (firstn limit s)). reflexivity.
  - rewrite !(truncated_short limit s H). reflexivity.
Qed.

Lemma kept_idempotent (key : jsstring) (v : value) : kept key (kept key v) = kept key v.
Proof.
  destruct v; try reflexivity. unfold kept.
  destruct (str_eqb key (lit "body") || str_eqb key (lit "description")) eqn:E;
    cbv beta iota; rewrite ?E, ?truncated_idempotent; reflexivity.
Qed.

Lemma isUndefined_kept (key : jsstring) (v : value) : isUndefined (kept key v) = isUndefined v.
Proof. destruct v; try reflexivity. unfold kept. destruct (_ || _); reflexivity. Qed.

Lemma fold_keep_agree (fs fs' : object) (keys : list jsstring) (acc : object) :
  (forall k, In k keys -> lookup k fs' = kept k (lookup k fs)) ->
  fold_left (keepOf fs') keys acc = fold_left (keepOf fs) keys acc.
Proof.
  revert acc. induction keys as [|k keys IH]; intros acc H; simpl; [reflexivity|].
  rewrite IH by (intros; apply H; now right). f_equal.
  unfold keepOf. rewrite (H k) by now left.
  now rewrite isUndefined_kept, kept_idempotent.
Qed.

Lemma genericOf_idempotent (fs : object) :
  keysWithin GithubTs.keysToKeep fs -> genericOf (genericOf fs) = genericOf fs.
Proof.
  intros Hfs.
  rewrite (genericOf_clean (genericOf fs)) by now apply genericOf_within.
  rewrite (genericOf_clean fs Hfs) at 2.
  apply fold_keep_agree. intros k Hk. now apply lookup_genericOf.
Qed.

Lemma cleanRecord_once (v : value) (type : jsstring) :
  cleanRecord v ->
  exists fs, v = VObj fs /\ keysWithin GithubTs.keysToKeep fs /\
             cleanOne type v = Normal (VObj (genericOf fs)).
Proof.
  intros (fs & -> & Hfs). exists fs. split; [reflexivity|]. split; [assumption|].
  now apply cleanOne_clean.
Qed.

Lemma mapM_clean_records (items : list value) (type : jsstring) :
  Forall cleanRecord items ->
  exists out, mapM (cleanOne type) items = Normal out /\ Forall cleanRecord out /\
              mapM (cleanOne type) out = Normal out.
Proof.
  induction 1 as [|v items Hv Hitems (out & E1 & Hout & E2)].
  - exists []. repeat split; constructor.
  - destruct (cleanRecord_once v type Hv) as (fs & -> & Hfs & E).
    exists (VObj (genericOf fs) :: out). cbn [mapM]. rewrite E, E1. cbn [bind].
    split; [reflexivity|]. split.
    + constructor; [|assumption]. exists (genericOf fs). split; [reflexivity|].
      now apply genericOf_within.
    + rewrite cleanOne_clean by now apply genericOf_within.
      rewrite genericOf_idempotent by assumption. cbn [bind]. now rewrite E2.
Qed.

(** X2.  In [src/tools/github.ts] cleaning is idempotent, for every kind, on
    a record whose names are all in the generic list and on an array of such
    records. *)
Lemma github_ts_clean_idempotent (x : value) (type : jsstring) :
  cleanInput x ->
  GithubTs.cleanGitHubResponse (GithubTs.cleanGitHubResponse x type) type
  = GithubTs.cleanGitHubResponse x type.
Proof.
  intros [(fs & -> & Hfs) | (items & -> & Hitems)];
    unfold GithubTs.cleanGitHubResponse; rewrite !cleaning_eachOrOne.
  - cbn [GithubTs.eachOrOne]. rewrite (cleanOne_clean fs type Hfs).
    cbn [GithubTs.eachOrOne].
    rewrite cleanOne_clean by now apply genericOf_within.
    now rewrite genericOf_idempotent.
  - destruct (mapM_clean_records items type Hitems) as (out & E1 & _ & E2).
    cbn [GithubTs.eachOrOne]. rewrite E1. cbn [bind GithubTs.eachOrOne].
    rewrite E2. reflexivity.
Qed.

(** C4 fails in [unnamed/part_000]: for the kind [user] the cleaner turns an
    array of one record whose only name, [login], is in the generic list
    into text, and cleaning that text again gives another text. *)
Theorem user_case_not_idempotent (host : Host) :
  cleanInput (VArr [VObj octocat]) /\
  Part000.cleanGitHubResponse host (VArr [VObj octocat]) (lit "user")
  = VStr (lit "找到 1 个用户:" ++ nl ++ nl ++ lit "1. octocat" ++ nl ++ nl) /\
  Part000.cleanGitHubResponse host
    (Part000.cleanGitHubResponse host (VArr [VObj octocat]) (lit "user")) (lit "user")
  = VStr (lit "用户: undefined" ++ nl).
Proof.
  split; [|split; vm_compute; reflexivity].
  right. exists [VObj octocat]. split; [reflexivity|].
  constructor; [|constructor]. exists octocat. split; [reflexivity|].
  intros key H. apply In_existsb. cbn [has_key existsb octocat fst orb] in H.
  rewrite orb_false_r in H. apply str_eqb_eq in H. subst. reflexivity.
Qed.

(** ** Exceptions while cleaning *)

Lemma cleaning_null_throws (type : jsstring) :
  exists m, GithubTs.cleaning VNull type = Throw m.
Proof.
  unfold GithubTs.cleaning.
  destruct (str_eqb type (lit "repository")); [eexists; vm_compute; reflexivity|].
  destruct (str_eqb type (lit "pull_request")); [eexists; vm_compute; reflexivity|].
  destruct (str_eqb type (lit "issue")); eexists; vm_compute; reflexivity.
Qed.

Lemma part_000_cleaning_null_throws (host : Host) (type : jsstring) :
  exists m, Part000.cleaning host VNull type = Throw m.
Proof.
  unfold Part000.cleaning.
  destruct (str_eqb type (lit "repository")); [eexists; vm_compute; reflexivity|].
  destruct (str_eqb type (lit "pull_request")); [eexists; vm_compute; reflexivity|].
  destruct (str_eqb type (lit "issue")); [eexists; vm_compute; reflexivity|].
  destruct (str_eqb type (lit "user")); [eexists; vm_compute; reflexivity|].
  destruct (str_eqb type (lit "comment")); [eexists; vm_compute; reflexivity|].
  destruct (str_eqb type (lit "comments")); eexists; vm_compute; reflexivity.
Qed.

(** C5.  In both files [cleanGitHubResponse] always returns: the cleaned
    value when the body of its [try] completes, and the very value it was
    given when the body raises an exception, whatever the exception.  A
    [null] input and an array holding a [null] are such inputs. *)
Theorem cleaner_returns_input_on_exception (host : Host) (data : value) (type : jsstring) :
  (forall m, GithubTs.cleaning data type = Throw m ->
             GithubTs.cleanGitHubResponse data type = data) /\
  (forall m, Part000.cleaning host data type = Throw m ->
             Part000.cleanGitHubResponse host data type = data) /\
  (forall cleaned, GithubTs.cleaning data type = Normal cleaned ->
                   GithubTs.cleanGitHubResponse data type = cleaned) /\
  (forall cleaned, Part000.cleaning host data type = Normal cleaned ->
                   Part000.cleanGitHubResponse host data type = cleaned) /\
  GithubTs.cleanGitHubResponse VNull type = VNull /\
  Part000.cleanGitHubResponse host VNull type = VNull.
Proof.
  unfold GithubTs.cleanGitHubResponse, Part000.cleanGitHubResponse.
  repeat split.
  - intros m ->. reflexivity.
  - intros m ->. reflexivity.
  - intros c ->. reflexivity.
  - intros c ->. reflexivity.
  - destruct (cleaning_null_throws type) as (m & ->). reflexivity.
  - destruct (part_000_cleaning_null_throws host type) as (m & ->). reflexivity.
Qed.

Lemma cleaner_returns_input_on_exception_witness :
  GithubTs.cleanGitHubResponse (VArr [VObj octocat; VNull]) (lit "repository")
  = VArr [VObj octocat; VNull].
Proof.
  destruct (cleaner_returns_input_on_exception sampleHost
              (VArr [VObj octocat; VNull]) (lit "repository")) as (H & _).
  apply (H (cannotRead "null" (lit "id"))). vm_compute. reflexivity.
Defined.

(** ** Empty arrays *)

(** C6.  For each of the four kinds [formatForHumans] answers an empty array
    with the sentence of the kind, on the normal path of its [try]: the four
    sentences are non-empty and differ from one another; for [issue] it is
    the literal that says no issue was found. *)
Theorem empty_array_sentences (host : Host) :
  GithubTs.formatting host (VArr []) (lit "repository") = Normal [lit "未找到任何仓库。"] /\
  GithubTs.formatting host (VArr []) (lit "pull_request") = Normal [lit "未找到任何拉取请求。"] /\
  GithubTs.formatting host (VArr []) (lit "issue") = Normal [lit "未找到任何议题。"] /\
  GithubTs.formatting host (VArr []) (lit "user") = Normal [lit "未找到任何用户。"] /\
  GithubTs.formatForHumans host (VArr []) (lit "repository") = lit "未找到任何仓库。" /\
  GithubTs.formatForHumans host (VArr []) (lit "pull_request") = lit "未找到任何拉取请求。" /\
  GithubTs.formatForHumans host (VArr []) (lit "issue") = lit "未找到任何议题。" /\
  GithubTs.formatForHumans host (VArr []) (lit "user") = lit "未找到任何用户。" /\
  NoDup [ lit "未找到任何仓库。"; lit "未找到任何拉取请求。"; lit "未找到任何议题。";
          lit "未找到任何用户。"; [] ].
Proof.
  repeat split; try (vm_compute; reflexivity).
  repeat constructor; intros H; apply In_existsb in H; vm_compute in H; discriminate.
Qed.

(** ** The lines of the formatter *)

Lemma prefixClash_differ (a b x y : jsstring) :
  prefixClash a b = true -> a ++ x <> b ++ y.
Proof.
  revert b. induction a as [|c a IH]; intros [|d b]; simpl; try discriminate.
  intros H E. injection E as Ecd E.
  apply orb_true_iff in H as [H|H].
  - apply negb_true_iff, N.eqb_neq in H. contradiction.
  - exact (IH b H E).
Qed.

Lemma clash_unlabelled (label other : string) (x : jsstring) :
  prefixClash (lit other) (lit label) = true -> unlabelled label (lit other ++ x).
Proof. intros H rest. now apply prefixClash_differ. Qed.

Lemma unlabelled_not_labelled (label : string) (pieces : list jsstring) :
  Forall (unlabelled label) pieces -> ~ labelled label pieces.
Proof.
  intros H (piece & rest & Hin & E).
  rewrite Forall_forall in H. exact (H piece Hin rest E).
Qed.

Lemma line_falsy (label : string) (v : value) :
  truthy v = false -> GithubTs.line label v = [].
Proof. intros H. unfold GithubTs.line. now rewrite H. Qed.

Lemma line_truthy (label : string) (v : value) :
  truthy v = true -> GithubTs.line label v = [lit label ++ toStr v ++ nl].
Proof. intros H. unfold GithubTs.line. now rewrite H. Qed.

Lemma line_other (label other : string) (v : value) :
  prefixClash (lit other) (lit label) = true ->
  Forall (unlabelled label) (GithubTs.line other v).
Proof.
  intros H. unfold GithubTs.line. destruct (truthy v); constructor; [|constructor].
  now apply clash_unlabelled.
Qed.

Lemma dateLine_falsy (host : Host) (label : string) (v : value) :
  truthy v = false -> GithubTs.dateLine host label v = [].
Proof. intros H. unfold GithubTs.dateLine. now rewrite H. Qed.

Lemma dateLine_truthy (host : Host) (label : string) (v : value) :
  truthy v = true ->
  GithubTs.dateLine host label v = [lit label ++ GithubTs.dateText host v ++ nl].
Proof. intros H. unfold GithubTs.dateLine. now rewrite H. Qed.

Lemma dateLine_other (host : Host) (label other : string) (v : value) :
  prefixClash (lit other) (lit label) = true ->
  Forall (unlabelled label) (GithubTs.dateLine host other v).
Proof.
  intros H. unfold GithubTs.dateLine. destruct (truthy v); constructor; [|constructor].
  now apply clash_unlabelled.
Qed.

Lemma mergedLine_other (label other : string) (v : value) :
  prefixClash (lit other) (lit label) = true ->
  Forall (unlabelled label) (GithubTs.mergedLine other v).
Proof.
  intros H. unfold GithubTs.mergedLine. destruct (isUndefined v); constructor; [|constructor].
  now apply clash_unlabelled.
Qed.

Lemma one_other (label other : string) (x : jsstring) :
  prefixClash (lit other) (lit label) = true ->
  Forall (unlabelled label) [lit other ++ x].
Proof. intros H. constructor; [now apply clash_unlabelled | constructor]. Qed.

(** [`${index + 1}`] opens with a digit. *)
Lemma ordinal_head (index : nat) :
  exists d rest, GithubTs.ordinal index = d :: rest /\ (48 <= d <= 57)%N.
Proof.
  unfold GithubTs.ordinal, numToStr.
  destruct (Z.of_nat index + 1)%Z as [|p|p] eqn:E; try lia.
  cbn [Z.to_int NilZero.string_of_int Pos.to_int].
  pose proof (DecimalPos.Unsigned.to_uint_nonnil p) as NN.
  destruct (Pos.to_uint p) as [|u|u|u|u|u|u|u|u|u|u]; [contradiction| ..];
    cbn [NilZero.string_of_uint]; unfold lit; cbn [bytes_of];
    eexists; eexists; (split; [reflexivity | vm_compute; split; discriminate]).
Qed.

Lemma ordinal_unlabelled (label : string) (index : nat) (x : jsstring) :
  match lit label with c :: _ => (c =? 32)%N | [] => false end = true ->
  unlabelled label (GithubTs.ordinal index ++ x).
Proof.
  intros L r E. destruct (ordinal_head index) as (d & tl & Ho & Hd).
  rewrite Ho in E. destruct (lit label) as [|c rest]; [discriminate|].
  apply N.eqb_eq in L. subst c. injection E as E _. lia.
Qed.

Lemma topicsLine_typed (host : Host) (x label : string) (topics : value) :
  topicsTyped topics = true ->
  exists tags,
    GithubTs.topicsLine host x label topics = Normal tags /\
    (truthy topics = false -> tags = []) /\
    (tags = [] \/ exists items, tags = [lit label ++ arrayJoin (lit ", ") items ++ nl]).
Proof.
  intros T. unfold GithubTs.topicsLine.
  destruct topics as [| |b|n|s|items|fields]; cbn [topicsTyped truthy negb] in *;
    try (rewrite negb_true_iff in T; rewrite T);
    try (exists []; repeat split; auto; fail);
    try discriminate.
  cbn [get bind]. rewrite str_eqb_refl. cbn [above].
  destruct (0 <? Z.of_nat (List.length items))%Z.
  - eexists. split; [reflexivity|]. split; [discriminate|]. right. eauto.
  - exists []. split; [reflexivity|]. split; auto.
Qed.

Lemma tags_other (label other : string) (tags : list jsstring) :
  prefixClash (lit other) (lit label) = true ->
  (tags = [] \/ exists items, tags = [lit other ++ arrayJoin (lit ", ") items ++ nl]) ->
  Forall (unlabelled label) tags.
Proof.
  intros H [->|(items & ->)]; [constructor|]. now apply one_other.
Qed.

Ltac clash := vm_compute; reflexivity.

Ltac unlabel_one :=
  lazymatch goal with
  | |- Forall _ [GithubTs.ordinal _ ++ _] =>
    constructor; [apply ordinal_unlabelled; clash | constructor]
  | |- Forall _ [lit _ ++ _] => apply one_other; clash
  | |- Forall _ (GithubTs.line _ _) =>
    first [apply line_other; clash | rewrite line_falsy by assumption; constructor]
  | |- Forall _ (GithubTs.dateLine _ _ _) =>
    first [apply dateLine_other; clash | rewrite dateLine_falsy by assumption; constructor]
  | |- Forall _ (GithubTs.mergedLine _ _) => apply mergedLine_other; clash
  | |- Forall _ [] => constructor
  | |- Forall _ ?tags =>
    first [subst tags; constructor | eapply tags_other; [|eassumption]; clash]
  end.

Ltac unlabel :=
  lazymatch goal with
  | |- Forall _ (_ ++ _) => apply Forall_app; split; [unlabel_one | unlabel]
  | _ => unlabel_one
  end.

Lemma formatting_repository (host : Host) (data : value) :
  GithubTs.formatting host data (lit "repository")
  = GithubTs.listing "未找到任何仓库。" " 个仓库:"
      (GithubTs.repositoryEntry host) (GithubTs.repositoryDetails host) data.
Proof. reflexivity. Qed.

Lemma repositoryDetails_pieces (host : Host) (fs : object) :
  topicsTyped (lookup (lit "topics") fs) = true ->
  exists tags,
    (truthy (lookup (lit "topics") fs) = false -> tags = []) /\
    (tags = [] \/ exists items, tags = [lit "主题标签: " ++ arrayJoin (lit ", ") items ++ nl]) /\
    GithubTs.repositoryDetails host (VObj fs)
    = Normal ([lit "仓库: " ++ toStr (orElse (lookup (lit "full_name") fs)
                                            (lookup (lit "name") fs)) ++ nl]
              ++ GithubTs.line "描述: " (lookup (lit "description") fs)
              ++ [lit "链接: " ++ toStr (lookup (lit "html_url") fs) ++ nl]
              ++ GithubTs.line "主要语言: " (lookup (lit "language") fs)
              ++ GithubTs.line "星标数: " (lookup (lit "stars") fs)
              ++ tags
              ++ [lit "更新于: " ++ GithubTs.dateText host (lookup (lit "updated_at") fs) ++ nl]).
Proof.
  intros T.
  destruct (topicsLine_typed host "data" "主题标签: " _ T) as (tags & E & Hf & Hs).
  exists tags. split; [exact Hf|]. split; [exact Hs|].
  unfold GithubTs.repositoryDetails. cbn [get bind]. rewrite E. reflexivity.
Qed.

Lemma repositoryEntry_pieces (host : Host) (index : nat) (fs : object) :
  topicsTyped (lookup (lit "topics") fs) = true ->
  exists tags,
    (truthy (lookup (lit "topics") fs) = false -> tags = []) /\
    (tags = [] \/ exists items, tags = [lit "   主题标签: " ++ arrayJoin (lit ", ") items ++ nl]) /\
    GithubTs.repositoryEntry host index (VObj fs)
    = Normal ([GithubTs.ordinal index ++ lit ". "
                 ++ toStr (orElse (lookup (lit "full_name") fs) (lookup (lit "name") fs)) ++ nl]
              ++ GithubTs.line "   描述: " (lookup (lit "description") fs)
              ++ [lit "   链接: " ++ toStr (lookup (lit "html_url") fs) ++ nl]
              ++ GithubTs.line "   主要语言: " (lookup (lit "language") fs)
              ++ GithubTs.line "   星标数: " (lookup (lit "stars") fs)
              ++ GithubTs.line "   仓库所有者: " (lookup (lit "belongsTo") fs)
              ++ tags
              ++ [lit "   更新于: " ++ GithubTs.dateText host (lookup (lit "updated_at") fs)
                    ++ nl ++ nl]).
Proof.
  intros T.
  destruct (topicsLine_typed host "repo" "   主题标签: " _ T) as (tags & E & Hf & Hs).
  exists tags. split; [exact Hf|]. split; [exact Hs|].
  unfold GithubTs.repositoryEntry. cbn [get bind]. rewrite E. reflexivity.
Qed.

Lemma formatting_ignores_clone_url (host : Host) (fs : object) (v : value) :
  GithubTs.formatting host (VObj (assign (lit "clone_url") v fs)) (lit "repository")
  = GithubTs.formatting host (VObj fs) (lit "repository").
Proof.
  rewrite !formatting_repository.
  cbn [GithubTs.listing]. unfold GithubTs.repositoryDetails. cbn [get bind].
  rewrite !lookup_assign_other by (apply str_eqb_neq; reflexivity).
  reflexivity.
Qed.

(** ** Dates *)

Tactic Notation "piece_at" integer(n) :=
  do n (apply in_or_app; right); apply in_or_app; left;
  rewrite dateLine_truthy by assumption; now left.

Lemma formatting_pull_request (host : Host) (fs : object) :
  GithubTs.formatting host (VObj fs) (lit "pull_request")
  = GithubTs.pullRequestDetails host (VObj fs).
Proof. reflexivity. Qed.

Lemma formatting_issue (host : Host) (fs : object) :
  GithubTs.formatting host (VObj fs) (lit "issue") = GithubTs.issueDetails host (VObj fs).
Proof. reflexivity. Qed.

(** ** The handlers *)

Lemma catching_resolves (body : completion GithubTs.toolResult) :
  exists result, GithubTs.catching body = Normal result.
Proof. destruct body; simpl; eauto. Qed.
(** * Further properties of the cleaner, the formatter and the handlers *)

(** ** Reads and conditional assignments *)

Lemma isUndefined_true (v : value) : isUndefined v = true -> v = VUndefined.
Proof. destruct v; simpl; congruence. Qed.

Lemma get_total (v : value) (k : jsstring) :
  nullish v = false -> exists x, get v k = Normal x.
Proof. destruct v; simpl; intros H; try discriminate; eexists; reflexivity. Qed.

Lemma get_nullish (v : value) (k : jsstring) :
  nullish v = true -> exists m, get v k = Throw m.
Proof. destruct v; simpl; intros H; try discriminate; eexists; reflexivity. Qed.

Lemma propOf_get (v : value) (k : string) :
  nullish v = false -> get v (lit k) = Normal (propOf v k).
Proof.
  intros H. unfold propOf. destruct (get_total v (lit k) H) as [x E]. now rewrite E.
Qed.

Lemma truthy_not_nullish (v : value) : truthy v = true -> nullish v = false.
Proof. destruct v; simpl; congruence. Qed.

Lemma lookup_cond_assign (c : bool) (k key : jsstring) (v : value) (fs : object) :
  lookup key (if c then assign k v fs else fs)
  = if c && str_eqb key k then v else lookup key fs.
Proof.
  destruct c; cbn [andb]; [|reflexivity].
  destruct (str_eqb key k) eqn:E.
  - apply str_eqb_eq in E. subst. apply lookup_assign_same.
  - apply lookup_assign_other, str_eqb_neq, E.
Qed.

Lemma has_key_cond_assign (c : bool) (k key : jsstring) (v : value) (fs : object) :
  has_key key (if c then assign k v fs else fs) = (c && str_eqb key k) || has_key key fs.
Proof. destruct c; cbn [andb orb]; [apply has_key_assign | reflexivity]. Qed.

Lemma lookup_putTruthy fs from to cleaned key :
  lookup key (putTruthy fs from to cleaned)
  = if truthy (lookup (lit from) fs) && str_eqb key (lit to)
    then lookup (lit from) fs else lookup key cleaned.
Proof. apply lookup_cond_assign. Qed.

Lemma has_key_putTruthy fs from to cleaned key :
  has_key key (putTruthy fs from to cleaned)
  = (truthy (lookup (lit from) fs) && str_eqb key (lit to)) || has_key key cleaned.
Proof. apply has_key_cond_assign. Qed.

Lemma lookup_putDefined fs from to cleaned key :
  lookup key (putDefined fs from to cleaned)
  = if negb (isUndefined (lookup (lit from) fs)) && str_eqb key (lit to)
    then lookup (lit from) fs else lookup key cleaned.
Proof.
  unfold putDefined. destruct (isUndefined (lookup (lit from) fs)); cbn [negb andb].
  - reflexivity.
  - apply (lookup_cond_assign true).
Qed.

Lemma has_key_putDefined fs from to cleaned key :
  has_key key (putDefined fs from to cleaned)
  = (negb (isUndefined (lookup (lit from) fs)) && str_eqb key (lit to)) || has_key key cleaned.
Proof.
  unfold putDefined. destruct (isUndefined (lookup (lit from) fs)); cbn [negb andb orb].
  - reflexivity.
  - apply has_key_assign.
Qed.

Lemma lookup_putInner fs outer inner to cleaned key :
  lookup key (putInner fs outer inner to cleaned)
  = if truthy (innerOf fs outer inner) && str_eqb key (lit to)
    then innerOf fs outer inner else lookup key cleaned.
Proof. apply lookup_cond_assign. Qed.

Lemma has_key_putInner fs outer inner to cleaned key :
  has_key key (putInner fs outer inner to cleaned)
  = (truthy (innerOf fs outer inner) && str_eqb key (lit to)) || has_key key cleaned.
Proof. apply has_key_cond_assign. Qed.

Lemma copyIfTruthy_object fs from to cleaned :
  GithubTs.copyIfTruthy (VObj fs) from to cleaned = Normal (putTruthy fs from to cleaned).
Proof. reflexivity. Qed.

Lemma copyIfDefined_object fs from to cleaned :
  GithubTs.copyIfDefined (VObj fs) from to cleaned = Normal (putDefined fs from to cleaned).
Proof. reflexivity. Qed.

Lemma copyInner_putInner fs outer inner to cleaned :
  GithubTs.copyInner (VObj fs) outer inner to cleaned = Normal (putInner fs outer inner to cleaned).
Proof.
  unfold GithubTs.copyInner, putInner, innerOf. cbn [get bind].
  destruct (truthy (lookup (lit outer) fs)) eqn:T.
  - rewrite (propOf_get _ inner (truthy_not_nullish _ T)). reflexivity.
  - rewrite T. reflexivity.
Qed.

(** The value of two literal names compared. *)
Ltac eval_keys :=
  repeat match goal with
         | |- context [str_eqb (lit ?a) (lit ?b)] =>
           let r := eval vm_compute in (str_eqb (lit a) (lit b)) in
           change (str_eqb (lit a) (lit b)) with r
         end;
  cbn [andb orb negb].

Lemma generic_absent (fs : object) (k : jsstring) :
  existsb (str_eqb k) GithubTs.keysToKeep = false ->
  str_eqb k (lit "owner") = false -> str_eqb k (lit "user") = false ->
  has_key k (genericOf fs) = false.
Proof. intros K O U. rewrite has_key_genericOf, K, O, U. reflexivity. Qed.

Lemma kept_name_differs (k : jsstring) (key : jsstring) :
  existsb (str_eqb k) GithubTs.keysToKeep = false ->
  In key GithubTs.keysToKeep -> str_eqb key k = false.
Proof.
  intros K H. destruct (str_eqb key k) eqn:E; [|reflexivity].
  apply str_eqb_eq in E. subst. apply In_existsb in H. congruence.
Qed.

Ltac absent := apply generic_absent; vm_compute; reflexivity.
Ltac not_kept H := apply (fun k K => kept_name_differs k _ K H); vm_compute; reflexivity.

Lemma cleanRepository_eq (fs : object) :
  GithubTs.cleanRepository (VObj fs)
  = Normal (VObj (putTruthy fs "visibility" "visibility"
                   (putDefined fs "stargazers_count" "stars"
                     (putTruthy fs "clone_url" "clone_url"
                       (putDefined fs "open_issues_count" "open_issues_count"
                         (putTruthy fs "topics" "topics" (genericOf fs))))))).
Proof.
  unfold GithubTs.cleanRepository. rewrite removeExcessiveFields_object. reflexivity.
Qed.

Lemma cleanPullRequest_eq (fs : object) :
  GithubTs.cleanPullRequest (VObj fs)
  = Normal (VObj (putDefined fs "merged" "merged"
                   (putInner fs "base" "ref" "base_branch"
                     (putInner fs "head" "ref" "head_branch"
                       (putTruthy fs "merged_at" "merged_at" (genericOf fs)))))).
Proof.
  unfold GithubTs.cleanPullRequest. rewrite removeExcessiveFields_object.
  cbn [bind]. rewrite copyIfTruthy_object. cbn [bind].
  rewrite copyInner_putInner. cbn [bind]. rewrite copyInner_putInner. reflexivity.
Qed.

Lemma cleaning_repository (data : value) :
  GithubTs.cleaning data (lit "repository") = GithubTs.eachOrOne GithubTs.cleanRepository data.
Proof. reflexivity. Qed.

Lemma cleaning_pull_request (data : value) :
  GithubTs.cleaning data (lit "pull_request")
  = GithubTs.eachOrOne GithubTs.cleanPullRequest data.
Proof. reflexivity. Qed.

Lemma cleaning_issue (data : value) :
  GithubTs.cleaning data (lit "issue") = GithubTs.eachOrOne GithubTs.cleanIssue data.
Proof. reflexivity. Qed.

(** ** The cases of [cleanGitHubResponse] *)

(** X3.  The kind [repository] on an object never throws.  The cleaned record
    holds [stars] exactly when the input has a [stargazers_count] other than
    [undefined], a count of [0] included, and [stargazers_count] itself is
    never a name of it; [open_issues_count] is copied the same way;
    [topics], [clone_url] and [visibility] are copied when truthy and are
    absent otherwise; the generic names keep what the generic step gave
    them. *)
Theorem repository_case_augments (fs : object) :
  exists out,
    GithubTs.cleanGitHubResponse (VObj fs) (lit "repository") = VObj out /\
    lookup (lit "stars") out = lookup (lit "stargazers_count") fs /\
    has_key (lit "stars") out = negb (isUndefined (lookup (lit "stargazers_count") fs)) /\
    has_key (lit "stargazers_count") out = false /\
    lookup (lit "open_issues_count") out = lookup (lit "open_issues_count") fs /\
    (forall k, In k ["topics"; "clone_url"; "visibility"]%string ->
       has_key (lit k) out = truthy (lookup (lit k) fs) /\
       lookup (lit k) out
       = if truthy (lookup (lit k) fs) then lookup (lit k) fs else VUndefined) /\
    (forall key, In key GithubTs.keysToKeep -> lookup key out = kept key (lookup key fs)).
Proof.
  eexists. split.
  { unfold GithubTs.cleanGitHubResponse.
    rewrite cleaning_repository. cbn [GithubTs.eachOrOne].
    rewrite cleanRepository_eq. reflexivity. }
  assert (G : forall k, existsb (str_eqb k) GithubTs.keysToKeep = false ->
                        str_eqb k (lit "owner") = false -> str_eqb k (lit "user") = false ->
                        lookup k (genericOf fs) = VUndefined).
  { intros k K O U. apply lookup_absent, generic_absent; assumption. }
  repeat split.
  - rewrite lookup_putTruthy, lookup_putDefined, lookup_putTruthy, lookup_putDefined,
      lookup_putTruthy. eval_keys. rewrite !andb_false_r, andb_true_r.
    destruct (isUndefined (lookup (lit "stargazers_count") fs)) eqn:U; cbn [negb].
    + rewrite (isUndefined_true _ U). apply G; vm_compute; reflexivity.
    + reflexivity.
  - rewrite has_key_putTruthy, has_key_putDefined, has_key_putTruthy, has_key_putDefined,
      has_key_putTruthy. eval_keys. rewrite !andb_false_r, andb_true_r. cbn [orb].
    rewrite generic_absent by (vm_compute; reflexivity). apply orb_false_r.
  - rewrite has_key_putTruthy, has_key_putDefined, has_key_putTruthy, has_key_putDefined,
      has_key_putTruthy. eval_keys. rewrite !andb_false_r. cbn [orb]. absent.
  - rewrite lookup_putTruthy, lookup_putDefined, lookup_putTruthy, lookup_putDefined,
      lookup_putTruthy. eval_keys. rewrite !andb_false_r, andb_true_r.
    destruct (isUndefined (lookup (lit "open_issues_count") fs)) eqn:U; cbn [negb].
    + rewrite (isUndefined_true _ U). apply G; vm_compute; reflexivity.
    + reflexivity.
  - destruct H as [<-|[<-|[<-|[]]]];
      rewrite has_key_putTruthy, has_key_putDefined, has_key_putTruthy, has_key_putDefined,
        has_key_putTruthy; eval_keys; rewrite ?andb_false_r, ?andb_true_r; cbn [orb];
      rewrite generic_absent by (vm_compute; reflexivity); rewrite ?orb_false_r; reflexivity.
  - destruct H as [<-|[<-|[<-|[]]]];
      rewrite lookup_putTruthy, lookup_putDefined, lookup_putTruthy, lookup_putDefined,
        lookup_putTruthy; eval_keys; rewrite ?andb_false_r, ?andb_true_r;
      match goal with |- context [truthy ?v] => destruct (truthy v) end;
      try reflexivity; apply G; vm_compute; reflexivity.
  - intros key H.
    rewrite lookup_putTruthy, lookup_putDefined, lookup_putTruthy, lookup_putDefined,
      lookup_putTruthy.
    rewrite (kept_name_differs (lit "visibility") key), (kept_name_differs (lit "stars") key),
      (kept_name_differs (lit "clone_url") key),
      (kept_name_differs (lit "open_issues_count") key),
      (kept_name_differs (lit "topics") key) by (assumption || (vm_compute; reflexivity)).
    rewrite !andb_false_r. apply lookup_genericOf, H.
Qed.

(** X4.  The kind [pull_request] on an object never throws.  [head_branch]
    and [base_branch] hold [head.ref] and [base.ref] when the branch and its
    [ref] are both truthy and are absent otherwise; [head] and [base]
    themselves are never names of the cleaned record; [merged] is copied
    whenever it is not [undefined], [false] included, and [merged_at] only
    when truthy. *)
Theorem pull_request_case_augments (fs : object) :
  exists out,
    GithubTs.cleanGitHubResponse (VObj fs) (lit "pull_request") = VObj out /\
    (forall side, In side ["head"; "base"]%string ->
       has_key (lit side) out = false /\
       has_key (lit (side ++ "_branch")) out = truthy (innerOf fs side "ref") /\
       lookup (lit (side ++ "_branch")) out
       = if truthy (innerOf fs side "ref") then innerOf fs side "ref" else VUndefined) /\
    lookup (lit "merged") out = lookup (lit "merged") fs /\
    has_key (lit "merged") out = negb (isUndefined (lookup (lit "merged") fs)) /\
    has_key (lit "merged_at") out = truthy (lookup (lit "merged_at") fs) /\
    (forall key, In key GithubTs.keysToKeep -> lookup key out = kept key (lookup key fs)).
Proof.
  eexists. split.
  { unfold GithubTs.cleanGitHubResponse.
    rewrite cleaning_pull_request. cbn [GithubTs.eachOrOne].
    rewrite cleanPullRequest_eq. reflexivity. }
  assert (G : forall k, existsb (str_eqb k) GithubTs.keysToKeep = false ->
                        str_eqb k (lit "owner") = false -> str_eqb k (lit "user") = false ->
                        lookup k (genericOf fs) = VUndefined).
  { intros k K O U. apply lookup_absent, generic_absent; assumption. }
  repeat split.
  - destruct H as [<-|[<-|[]]];
      rewrite has_key_putDefined, !has_key_putInner, has_key_putTruthy; eval_keys;
      rewrite !andb_false_r; cbn [orb]; absent.
  - destruct H as [<-|[<-|[]]]; cbn [String.append];
      rewrite has_key_putDefined, !has_key_putInner, has_key_putTruthy; eval_keys;
      rewrite ?andb_false_r, ?andb_true_r; cbn [orb];
      rewrite generic_absent by (vm_compute; reflexivity); rewrite ?orb_false_r; reflexivity.
  - destruct H as [<-|[<-|[]]]; cbn [String.append];
      rewrite lookup_putDefined, !lookup_putInner, lookup_putTruthy; eval_keys;
      rewrite ?andb_false_r, ?andb_true_r;
      match goal with |- context [truthy ?v] => destruct (truthy v) end;
      try reflexivity; apply G; vm_compute; reflexivity.
  - rewrite lookup_putDefined, !lookup_putInner, lookup_putTruthy. eval_keys.
    rewrite !andb_false_r, andb_true_r.
    destruct (isUndefined (lookup (lit "merged") fs)) eqn:U; cbn [negb].
    + rewrite (isUndefined_true _ U). apply G; vm_compute; reflexivity.
    + reflexivity.
  - rewrite has_key_putDefined, !has_key_putInner, has_key_putTruthy. eval_keys.
    rewrite !andb_false_r, andb_true_r. cbn [orb].
    rewrite generic_absent by (vm_compute; reflexivity). apply orb_false_r.
  - rewrite has_key_putDefined, !has_key_putInner, has_key_putTruthy. eval_keys.
    rewrite !andb_false_r, andb_true_r. cbn [orb].
    rewrite generic_absent by (vm_compute; reflexivity). apply orb_false_r.
  - intros key H.
    rewrite lookup_putDefined, !lookup_putInner, lookup_putTruthy.
    rewrite (kept_name_differs (lit "merged") key), (kept_name_differs (lit "base_branch") key),
      (kept_name_differs (lit "head_branch") key),
      (kept_name_differs (lit "merged_at") key) by (assumption || (vm_compute; reflexivity)).
    rewrite !andb_false_r. apply lookup_genericOf, H.
Qed.

(** The callback of the two [map]s of the kind [issue] throws on [null] and
    [undefined] and on nothing else. *)
Lemma mapM_names (field : string) (items : list value) :
  (existsb nullish items = false ->
   mapM (fun x => if typeofString x then Normal x else get x (lit field)) items
   = Normal (map (nameOf field) items)) /\
  (existsb nullish items = true ->
   exists m, mapM (fun x => if typeofString x then Normal x else get x (lit field)) items
             = Throw m).
Proof.
  induction items as [|x rest [IHn IHt]]; cbn [existsb mapM map].
  - split; [reflexivity | discriminate].
  - destruct (nullish x) eqn:N; cbn [orb]; split; intros H; try discriminate.
    + destruct x; try discriminate; cbn; eexists; reflexivity.
    + rewrite (IHn H). unfold nameOf. destruct (typeofString x) eqn:S; cbn [bind].
      * reflexivity.
      * rewrite (propOf_get _ _ N). reflexivity.
    + destruct (IHt H) as [m E]. rewrite E.
      destruct (typeofString x) eqn:S; cbn [bind].
      * eexists; reflexivity.
      * rewrite (propOf_get _ _ N). cbn [bind]. eexists; reflexivity.
Qed.

Lemma copyNames_object (fs : object) (from field : string) (cleaned : object) :
  (holdsNullish (lookup (lit from) fs) = false ->
   GithubTs.copyNames (VObj fs) from field cleaned
   = Normal (if truthy (lookup (lit from) fs)
             then assign (lit from) (flattenedNames field (lookup (lit from) fs)) cleaned
             else cleaned)) /\
  (holdsNullish (lookup (lit from) fs) = true ->
   exists m, GithubTs.copyNames (VObj fs) from field cleaned = Throw m).
Proof.
  unfold GithubTs.copyNames, flattenedNames. cbn [get bind].
  destruct (lookup (lit from) fs) as [| |b|n|s|items|o] eqn:E; cbn [holdsNullish truthy];
    try (split; [reflexivity | discriminate]).
  - destruct b; split; (reflexivity || discriminate).
  - destruct (negb (n =? 0)%Z); split; (reflexivity || discriminate).
  - destruct s; split; (reflexivity || discriminate).
  - destruct (mapM_names field items) as [Hn Ht]. split; intros H.
    + rewrite (Hn H). reflexivity.
    + destruct (Ht H) as [m Em]. rewrite Em. eexists; reflexivity.
Qed.

(** X5.  The kind [issue] on an object throws exactly when [labels] or
    [assignees] is an array that holds [null] or [undefined]; the cleaner then
    answers the issue as it came.  Otherwise [labels] and [assignees] of the
    cleaned record are the arrays of the names and of the logins (a string
    element stands for itself), a truthy value that is no array is copied as
    it is, and a falsy one leaves the name out. *)
Theorem issue_case_names (fs : object) :
  (holdsNullish (lookup (lit "labels") fs) || holdsNullish (lookup (lit "assignees") fs) = true ->
   (exists m, GithubTs.cleaning (VObj fs) (lit "issue") = Throw m) /\
   GithubTs.cleanGitHubResponse (VObj fs) (lit "issue") = VObj fs) /\
  (holdsNullish (lookup (lit "labels") fs) || holdsNullish (lookup (lit "assignees") fs) = false ->
   exists out,
     GithubTs.cleaning (VObj fs) (lit "issue") = Normal (VObj out) /\
     GithubTs.cleanGitHubResponse (VObj fs) (lit "issue") = VObj out /\
     lookup (lit "labels") out = flattenedNames "name" (lookup (lit "labels") fs) /\
     lookup (lit "assignees") out = flattenedNames "login" (lookup (lit "assignees") fs) /\
     has_key (lit "labels") out = truthy (lookup (lit "labels") fs) /\
     has_key (lit "assignees") out = truthy (lookup (lit "assignees") fs)).
Proof.
  assert (G : forall k, existsb (str_eqb k) GithubTs.keysToKeep = false ->
                        str_eqb k (lit "owner") = false -> str_eqb k (lit "user") = false ->
                        lookup k (genericOf fs) = VUndefined).
  { intros k K O U. apply lookup_absent, generic_absent; assumption. }
  unfold GithubTs.cleanGitHubResponse. rewrite cleaning_issue. cbn [GithubTs.eachOrOne].
  unfold GithubTs.cleanIssue. rewrite removeExcessiveFields_object. cbn [bind].
  rewrite copyIfTruthy_object. cbn [bind].
  set (c0 := putTruthy fs "closed_at" "closed_at" (genericOf fs)).
  destruct (copyNames_object fs "labels" "name" c0) as [Ln Lt].
  split; intros H.
  - apply orb_true_iff in H.
    destruct (holdsNullish (lookup (lit "labels") fs)) eqn:EL.
    + destruct (Lt eq_refl) as [m Em]. rewrite Em. cbn [bind]. split; [eexists|]; reflexivity.
    + destruct H as [H|H]; [discriminate|].
      rewrite (Ln eq_refl). cbn [bind].
      match goal with |- context [GithubTs.copyNames _ "assignees" "login" ?c] =>
        destruct (copyNames_object fs "assignees" "login" c) as [_ At] end.
      destruct (At H) as [m Em]. rewrite Em. cbn [bind]. split; [eexists|]; reflexivity.
  - apply orb_false_iff in H. destruct H as [HL HA].
    rewrite (Ln HL). cbn [bind].
    match goal with |- context [GithubTs.copyNames _ "assignees" "login" ?c] =>
      destruct (copyNames_object fs "assignees" "login" c) as [An _] end.
    rewrite (An HA). cbn [bind]. eexists. split; [reflexivity|]. split; [reflexivity|].
    unfold c0. repeat split.
    + rewrite !lookup_cond_assign, lookup_putTruthy. eval_keys.
      rewrite !andb_false_r, andb_true_r. unfold flattenedNames.
      destruct (truthy (lookup (lit "labels") fs)); [reflexivity|].
      apply G; vm_compute; reflexivity.
    + rewrite !lookup_cond_assign. eval_keys. rewrite andb_true_r. unfold flattenedNames.
      destruct (truthy (lookup (lit "assignees") fs)); [reflexivity|].
      rewrite lookup_putTruthy. eval_keys. rewrite !andb_false_r.
      apply G; vm_compute; reflexivity.
    + rewrite !has_key_cond_assign, has_key_putTruthy. eval_keys.
      rewrite !andb_false_r, andb_true_r. cbn [orb].
      rewrite generic_absent by (vm_compute; reflexivity). apply orb_false_r.
    + rewrite !has_key_cond_assign, has_key_putTruthy. eval_keys.
      rewrite !andb_false_r, andb_true_r. cbn [orb].
      rewrite generic_absent by (vm_compute; reflexivity). apply orb_false_r.
Qed.

Lemma issue_case_names_witness :
  (exists out,
     GithubTs.cleanGitHubResponse (VObj labelledIssue) (lit "issue") = VObj out /\
     lookup (lit "labels") out = VArr [ VStr (lit "bug"); VStr (lit "help") ] /\
     lookup (lit "assignees") out = VArr [ VStr (lit "octocat") ]) /\
  GithubTs.cleanGitHubResponse (VObj brokenIssue) (lit "issue") = VObj brokenIssue.
Proof.
  split.
  - destruct (issue_case_names labelledIssue) as [_ H].
    destruct (H eq_refl) as (out & _ & E & L & A & _).
    exists out. split; [exact E|]. split; [rewrite L | rewrite A]; vm_compute; reflexivity.
  - destruct (issue_case_names brokenIssue) as [H _].
    destruct (H eq_refl) as [_ E]. exact E.
Defined.

Lemma repository_case_augments_witness :
  exists out,
    GithubTs.cleanGitHubResponse (VObj starless) (lit "repository") = VObj out /\
    lookup (lit "stars") out = VNum 0 /\
    has_key (lit "clone_url") out = false /\
    has_key (lit "forks_count") out = false.
Proof.
  destruct (repository_case_augments starless) as (out & E & S & _ & _ & _ & T & _).
  exists out. split; [exact E|]. split; [rewrite S; reflexivity|]. split.
  - destruct (T "clone_url"%string) as [K _]; [right; left; reflexivity|].
    rewrite K. reflexivity.
  - vm_compute in E. injection E as <-. reflexivity.
Defined.

Lemma pull_request_case_augments_witness :
  exists out,
    GithubTs.cleanGitHubResponse (VObj openPull) (lit "pull_request") = VObj out /\
    lookup (lit "head_branch") out = VStr (lit "feature") /\
    has_key (lit "base_branch") out = false /\
    lookup (lit "merged") out = VBool false.
Proof.
  destruct (pull_request_case_augments openPull) as (out & E & B & M & _).
  exists out. split; [exact E|]. split; [|split].
  - destruct (B "head"%string) as (_ & _ & L); [left; reflexivity|]. exact L.
  - destruct (B "base"%string) as (_ & K & _); [right; left; reflexivity|]. exact K.
  - rewrite M. reflexivity.
Defined.

(** X6.  The generic step replaces an [owner] (or [user]) object by its
    login, and does not recognise its own output: run on the record it has
    produced, it finds a string where it looks for an object and drops the
    name, while every name of the fixed list keeps its value. *)
Theorem owner_is_lost_on_a_second_pass (fs o : object) (name login : jsstring) :
  name = lit "owner" \/ name = lit "user" ->
  lookup name fs = VObj o -> lookup (lit "login") o = VStr login -> login <> [] ->
  exists once twice,
    GithubTs.removeExcessiveFields (VObj fs) = Normal once /\
    lookup name once = VStr login /\
    GithubTs.removeExcessiveFields (VObj once) = Normal twice /\
    has_key name twice = false /\
    (forall key, In key GithubTs.keysToKeep -> lookup key twice = lookup key once).
Proof.
  intros N O L T.
  exists (genericOf fs), (genericOf (genericOf fs)).
  rewrite !removeExcessiveFields_object.
  assert (Tl : truthy (loginOf (lookup name fs)) = true).
  { rewrite O. cbn [loginOf]. rewrite L. destruct login; [congruence | reflexivity]. }
  assert (Once : lookup name (genericOf fs) = VStr login).
  { unfold genericOf. destruct N as [-> | ->].
    - rewrite lookup_flattenOf_other by (apply str_eqb_neq; vm_compute; reflexivity).
      unfold flattenOf. rewrite Tl, lookup_assign_same, O. exact L.
    - unfold flattenOf at 1. rewrite Tl, lookup_assign_same, O. exact L. }
  repeat split.
  - exact Once.
  - rewrite has_key_genericOf.
    destruct N as [-> | ->]; rewrite Once; vm_compute; reflexivity.
  - intros key K. rewrite !lookup_genericOf by exact K. apply kept_idempotent.
Qed.

Lemma owner_is_lost_on_a_second_pass_witness :
  exists once twice,
    GithubTs.removeExcessiveFields (VObj ownedRepository) = Normal once /\
    lookup (lit "owner") once = VStr (lit "octocat") /\
    GithubTs.removeExcessiveFields (VObj once) = Normal twice /\
    has_key (lit "owner") twice = false.
Proof.
  destruct (owner_is_lost_on_a_second_pass ownedRepository
              [ (lit "login", VStr (lit "octocat")) ] (lit "owner") (lit "octocat"))
    as (once & twice & E1 & L & E2 & K & _).
  - left; reflexivity.
  - reflexivity.
  - reflexivity.
  - vm_compute; discriminate.
  - exists once, twice. repeat split; assumption.
Defined.

Lemma github_ts_clean_idempotent_witness :
  GithubTs.cleanGitHubResponse
    (GithubTs.cleanGitHubResponse (VArr [VObj octocat]) (lit "user")) (lit "user")
  = GithubTs.cleanGitHubResponse (VArr [VObj octocat]) (lit "user").
Proof.
  apply github_ts_clean_idempotent.
  right. exists [VObj octocat]. split; [reflexivity|].
  constructor; [|constructor].
  exists octocat. split; [reflexivity|].
  intros key H. apply In_existsb.
  unfold has_key, octocat in H. cbn [existsb fst orb] in H.
  rewrite orb_false_r in H. apply str_eqb_eq in H. subst key. vm_compute. reflexivity.
Defined.

(** ** [formatForHumans] on what it cannot print *)

Lemma forEachFrom_total {A} (entry : nat -> value -> completion (list A))
    (P : value -> bool) (items : list value) :
  (forall i x, P x = true -> exists p, entry i x = Normal p) ->
  forallb P items = true ->
  forall index, exists pieces, GithubTs.forEachFrom entry index items = Normal pieces.
Proof.
  intros He. induction items as [|x rest IH]; cbn [forallb GithubTs.forEachFrom]; intros H index.
  - eexists; reflexivity.
  - apply andb_true_iff in H. destruct H as [Hx Hr].
    destruct (He index x Hx) as [p Ep]. destruct (IH Hr (S index)) as [ps Eps].
    rewrite Ep, Eps. eexists; reflexivity.
Qed.

Lemma forEachFrom_throws {A} (entry : nat -> value -> completion (list A)) (items : list value) :
  (forall i x, nullish x = true -> exists m, entry i x = Throw m) ->
  existsb nullish items = true ->
  forall index, exists m, GithubTs.forEachFrom entry index items = Throw m.
Proof.
  intros He. induction items as [|x rest IH]; cbn [existsb GithubTs.forEachFrom]; intros H index.
  - discriminate.
  - destruct (nullish x) eqn:Hx.
    + destruct (He index x Hx) as [m Em]. rewrite Em. eexists; reflexivity.
    + destruct (entry index x) as [p|m]; cbn [bind]; [|eexists; reflexivity].
      destruct (IH H (S index)) as [m Em]. rewrite Em. eexists; reflexivity.
Qed.

Lemma entries_throw (host : Host) (i : nat) (x : value) :
  nullish x = true ->
  (exists m, GithubTs.repositoryEntry host i x = Throw m) /\
  (exists m, GithubTs.pullRequestEntry host i x = Throw m) /\
  (exists m, GithubTs.issueEntry host i x = Throw m) /\
  (exists m, GithubTs.userEntry i x = Throw m) /\
  (exists m, GithubTs.dumpEntry i x = Throw m).
Proof.
  destruct x; try discriminate; intros _; repeat split; eexists; reflexivity.
Qed.

Lemma entries_total (host : Host) (i : nat) (x : value) :
  nullish x = false ->
  (exists p, GithubTs.pullRequestEntry host i x = Normal p) /\
  (exists p, GithubTs.issueEntry host i x = Normal p) /\
  (exists p, GithubTs.userEntry i x = Normal p) /\
  (exists p, GithubTs.dumpEntry i x = Normal p).
Proof.
  destruct x; try discriminate; intros _; repeat split; eexists; reflexivity.
Qed.

Lemma repositoryEntry_total (host : Host) (i : nat) (x : value) :
  printable (lit "repository") x = true ->
  exists p, GithubTs.repositoryEntry host i x = Normal p.
Proof.
  unfold printable. intros H. apply andb_true_iff in H. destruct H as [N T].
  apply negb_true_iff in N. change (topicsTyped (propOf x "topics") = true) in T.
  unfold GithubTs.repositoryEntry.
  repeat (rewrite (propOf_get _ _ N); cbn [bind]).
  destruct (topicsLine_typed host "repo" "   主题标签: " _ T) as (tags & E & _).
  rewrite E. eexists; reflexivity.
Qed.

Lemma printable_not_nullish (type : jsstring) (x : value) :
  printable type x = true -> nullish x = false.
Proof. unfold printable. intros H. apply andb_true_iff in H. now apply negb_true_iff. Qed.

Lemma listing_counted (none unit : string) entry details (type : jsstring) (items : list value) :
  items <> [] -> lit unit = counted type ->
  (forall i x, printable type x = true -> exists p, entry i x = Normal p) ->
  forallb (printable type) items = true ->
  exists pieces,
    GithubTs.listing none unit entry details (VArr items)
    = Normal (countLine type items :: pieces).
Proof.
  intros Hne Hu He Hp.
  destruct (forEachFrom_total entry (printable type) items He Hp 0) as [pieces E].
  exists pieces. unfold GithubTs.listing. destruct items as [|x rest]; [congruence|].
  rewrite E. cbn [bind]. unfold countLine. rewrite Hu. reflexivity.
Qed.

Lemma listing_throws (none unit : string) entry details (items : list value) :
  (forall i x, nullish x = true -> exists m, entry i x = Throw m) ->
  existsb nullish items = true ->
  exists m, GithubTs.listing none unit entry details (VArr items) = Throw m.
Proof.
  intros He Hn. destruct (forEachFrom_throws entry items He Hn 0) as [m E].
  unfold GithubTs.listing. destruct items as [|x rest]; [discriminate|].
  rewrite E. eexists; reflexivity.
Qed.

Lemma formatting_throws_on_null_element (host : Host) (items : list value) (type : jsstring) :
  existsb nullish items = true ->
  exists m, GithubTs.formatting host (VArr items) type = Throw m.
Proof.
  intros H. unfold GithubTs.formatting.
  destruct (str_eqb type (lit "repository"));
    [apply listing_throws; [intros i x N; apply (entries_throw host i x N) | exact H]|].
  destruct (str_eqb type (lit "pull_request"));
    [apply listing_throws; [intros i x N; apply (entries_throw host i x N) | exact H]|].
  destruct (str_eqb type (lit "issue"));
    [apply listing_throws; [intros i x N; apply (entries_throw host i x N) | exact H]|].
  destruct (str_eqb type (lit "user"));
    [apply listing_throws; [intros i x N; apply (entries_throw host i x N) | exact H]|].
  unfold GithubTs.dumpAny.
  destruct (forEachFrom_throws GithubTs.dumpEntry items) with (index := 0) as [m E];
    [intros i x N; apply (entries_throw host i x N) | exact H |].
  rewrite E. eexists; reflexivity.
Qed.

Lemma formatting_throws_on_null (host : Host) (data : value) (type : jsstring) :
  nullish data = true -> exists m, GithubTs.formatting host data type = Throw m.
Proof.
  intros H. unfold GithubTs.formatting.
  destruct data; try discriminate;
    destruct (str_eqb type (lit "repository")); try (eexists; reflexivity);
    destruct (str_eqb type (lit "pull_request")); try (eexists; reflexivity);
    destruct (str_eqb type (lit "issue")); try (eexists; reflexivity);
    destruct (str_eqb type (lit "user")); eexists; reflexivity.
Qed.

(** X7.  Whatever the kind, [formatForHumans] cannot print [null],
    [undefined], or an array that holds one of them: a callback reads a
    property of it, the [catch] takes over, and the text is the JSON of the
    whole input under the line [数据:], neither an error message nor the
    entries that came before the bad one. *)
Theorem unprintable_falls_back_to_json (host : Host) (data : value) (type : jsstring) :
  nullish data = true \/ holdsNullish data = true ->
  GithubTs.formatForHumans host data type = lit "数据:" ++ nl ++ jsonStringify host data.
Proof.
  intros H. unfold GithubTs.formatForHumans.
  assert (T : exists m, GithubTs.formatting host data type = Throw m).
  { destruct H as [H|H].
    - apply formatting_throws_on_null, H.
    - destruct data; try discriminate. apply formatting_throws_on_null_element, H. }
  destruct T as [m E]. rewrite E. reflexivity.
Qed.

Lemma unprintable_falls_back_to_json_witness :
  GithubTs.formatForHumans sampleHost (VArr [sampleRepository; VNull]) (lit "repository")
  = lit "数据:" ++ nl ++ lit "[object Object],".
Proof.
  rewrite (unprintable_falls_back_to_json sampleHost (VArr [sampleRepository; VNull])
             (lit "repository")).
  - vm_compute. reflexivity.
  - right. reflexivity.
Defined.

(** ** [listBranches] *)

Lemma cleanGeneric_branch (b : jsstring * value * bool) :
  GithubTs.cleanGeneric (branchOf b) = Normal (branchName b).
Proof.
  destruct b as [[n c] p]. unfold GithubTs.cleanGeneric, branchOf, branchName.
  rewrite removeExcessiveFields_object. cbn [bind fst snd].
  apply (f_equal (fun o => Normal (VObj o))). vm_compute. reflexivity.
Qed.

Lemma clean_branches (bs : list (jsstring * value * bool)) :
  GithubTs.cleanGitHubResponse (VArr (map branchOf bs)) [] = VArr (map branchName bs).
Proof.
  unfold GithubTs.cleanGitHubResponse.
  change (GithubTs.cleaning (VArr (map branchOf bs)) [])
    with (cleaned <- mapM GithubTs.cleanGeneric (map branchOf bs) ;; Normal (VArr cleaned)).
  assert (E : mapM GithubTs.cleanGeneric (map branchOf bs) = Normal (map branchName bs)).
  { induction bs as [|b rest IH]; [reflexivity|].
    cbn [map mapM]. rewrite cleanGeneric_branch, IH. reflexivity. }
  rewrite E. reflexivity.
Qed.

Lemma repositoryEntry_branch (host : Host) (index : nat) (b : jsstring * value * bool) :
  GithubTs.repositoryEntry host index (branchName b) = Normal (branchLines index b).
Proof.
  destruct b as [[n c] p]. unfold GithubTs.repositoryEntry, branchName, branchLines.
  cbn [get bind lookup fst snd]. eval_keys. reflexivity.
Qed.

Lemma forEach_branches (host : Host) (bs : list (jsstring * value * bool)) (index : nat) :
  GithubTs.forEachFrom (GithubTs.repositoryEntry host) index (map branchName bs)
  = Normal (branchListing index bs).
Proof.
  revert index. induction bs as [|b rest IH]; intros index; [reflexivity|].
  cbn [map GithubTs.forEachFrom branchListing].
  rewrite repositoryEntry_branch, IH. reflexivity.
Qed.

(** X9.  [listBranches] cleans the branches with a kind that has no [case]
    and prints them as repositories: of a branch only its name reaches the
    text; whether it is protected and the commit it points to are dropped by
    the cleaner, and each entry carries the two lines [链接: undefined] and
    [更新于: Invalid Date].  The count line calls the branches repositories. *)
Theorem listBranches_prints_names_only (host : Host)
    (repos_listBranches : object -> completion GithubTs.response)
    (owner repo : jsstring) (isProtected : option bool) (perPage : option Z)
    (branches : list (jsstring * value * bool)) :
  branches <> [] ->
  repos_listBranches
    [ (lit "owner", VStr owner); (lit "repo", VStr repo);
      (lit "protected", GithubTs.optional VBool isProtected);
      (lit "per_page", VNum (match perPage with Some n => n | None => 100%Z end)) ]
  = Normal {| GithubTs.data := VArr (map branchOf branches) |} ->
  GithubTsTools.listBranches host repos_listBranches owner repo isProtected perPage
  = Normal (GithubTs.textResult
              (lit "找到 " ++ numToStr (Z.of_nat (List.length branches)) ++ lit " 个仓库:"
               ++ nl ++ nl ++ List.concat (branchListing 0 branches))).
Proof.
  intros Hne Hr. unfold GithubTsTools.listBranches. rewrite Hr.
  cbn [bind GithubTs.data GithubTs.catching]. rewrite clean_branches.
  unfold GithubTs.formatForHumans. rewrite formatting_repository.
  unfold GithubTs.listing. destruct branches as [|b rest]; [congruence|].
  cbn [map]. change (branchName b :: map branchName rest) with (map branchName (b :: rest)).
  rewrite forEach_branches. cbn [bind List.concat]. rewrite length_map.
  rewrite <- !app_assoc. reflexivity.
Qed.

Lemma listBranches_prints_names_only_witness :
  GithubTsTools.listBranches sampleHost
    (fun _ => Normal {| GithubTs.data := VArr (map branchOf twoBranches) |})
    (lit "a") (lit "b") None None
  = Normal (GithubTs.textResult
              (lit "找到 2 个仓库:" ++ nl ++ nl
               ++ lit "1. main" ++ nl ++ lit "   链接: undefined" ++ nl
               ++ lit "   更新于: Invalid Date" ++ nl ++ nl
               ++ lit "2. dev" ++ nl ++ lit "   链接: undefined" ++ nl
               ++ lit "   更新于: Invalid Date" ++ nl ++ nl)).
Proof.
  rewrite (listBranches_prints_names_only sampleHost _ (lit "a") (lit "b") None None twoBranches).
  - vm_compute. reflexivity.
  - discriminate.
  - reflexivity.
Defined.

(** ** [listFollowing], over either cleaner *)

Lemma keepKey_total (x : value) (result : object) (key : jsstring) :
  nullish x = false -> exists r, GithubTs.keepKey x result key = Normal r.
Proof.
  intros N. unfold GithubTs.keepKey. destruct (get_total x key N) as [v E]. rewrite E.
  cbn [bind]. destruct (isUndefined v); [eexists; reflexivity|].
  destruct v; try (eexists; reflexivity).
  match goal with |- context [if ?c then _ else _] => destruct c end; eexists; reflexivity.
Qed.

Lemma foldM_keepKey_total (x : value) (keys : list jsstring) (acc : object) :
  nullish x = false -> exists r, foldM (GithubTs.keepKey x) keys acc = Normal r.
Proof.
  intros N. revert acc. induction keys as [|k rest IH]; intros acc; cbn [foldM].
  - eexists; reflexivity.
  - destruct (keepKey_total x acc k N) as [r E]. rewrite E. cbn [bind]. apply IH.
Qed.

Lemma flattenLogin_total (x : value) (name : jsstring) (result : object) :
  nullish x = false -> exists r, GithubTs.flattenLogin x name result = Normal r.
Proof.
  intros N. unfold GithubTs.flattenLogin. destruct (get_total x name N) as [ref E]. rewrite E.
  cbn [bind]. destruct (truthy ref) eqn:T; cbn [andb]; [|eexists; reflexivity].
  destruct (typeofObject ref); [|eexists; reflexivity].
  rewrite (propOf_get _ _ (truthy_not_nullish _ T)). eexists; reflexivity.
Qed.

Lemma cleanGeneric_total (x : value) :
  nullish x = false -> exists o, GithubTs.cleanGeneric x = Normal (VObj o).
Proof.
  intros N. unfold GithubTs.cleanGeneric, GithubTs.removeExcessiveFields.
  destruct (foldM_keepKey_total x GithubTs.keysToKeep [] N) as [r0 E0]. rewrite E0. cbn [bind].
  destruct (flattenLogin_total x (lit "owner") r0 N) as [r1 E1]. rewrite E1. cbn [bind].
  destruct (flattenLogin_total x (lit "user") r1 N) as [r2 E2]. rewrite E2. cbn [bind].
  eexists; reflexivity.
Qed.

Lemma cleanGeneric_throws (x : value) :
  nullish x = true -> exists m, GithubTs.cleanGeneric x = Throw m.
Proof. destruct x; try discriminate; intros _; eexists; reflexivity. Qed.

Lemma mapM_cleanGeneric (users : list value) :
  (existsb nullish users = false ->
   exists cleaned, mapM GithubTs.cleanGeneric users = Normal cleaned /\
                   forallb isObject cleaned = true /\
                   List.length cleaned = List.length users) /\
  (existsb nullish users = true -> exists m, mapM GithubTs.cleanGeneric users = Throw m).
Proof.
  induction users as [|x rest [IHn IHt]]; cbn [existsb mapM].
  - split; [|discriminate]. intros _. exists []. repeat split.
  - destruct (nullish x) eqn:N; cbn [orb]; split; intros H; try discriminate.
    + destruct (cleanGeneric_throws x N) as [m E]. rewrite E. eexists; reflexivity.
    + destruct (cleanGeneric_total x N) as [o E]. rewrite E. cbn [bind].
      destruct (IHn H) as (cleaned & Ec & Ho & Hl). rewrite Ec. cbn [bind].
      exists (VObj o :: cleaned). cbn [forallb isObject andb List.length].
      repeat split; [exact Ho | now rewrite Hl].
    + destruct (cleanGeneric_total x N) as [o E]. rewrite E. cbn [bind].
      destruct (IHt H) as [m Em]. rewrite Em. eexists; reflexivity.
Qed.

Lemma objects_printable (type : jsstring) (items : list value) :
  str_eqb type (lit "repository") = false ->
  forallb isObject items = true -> forallb (printable type) items = true.
Proof.
  intros T H. induction items as [|x rest IH]; [reflexivity|].
  cbn [forallb] in *. apply andb_true_iff in H. destruct H as [Hx Hr].
  rewrite (IH Hr), andb_true_r. unfold printable. rewrite T.
  destruct x; try discriminate. reflexivity.
Qed.

Lemma not_nullish_printable (type : jsstring) (items : list value) :
  str_eqb type (lit "repository") = false ->
  existsb nullish items = false -> forallb (printable type) items = true.
Proof.
  intros T H. induction items as [|x rest IH]; [reflexivity|].
  cbn [forallb existsb] in *. apply orb_false_iff in H. destruct H as [Hx Hr].
  rewrite (IH Hr), andb_true_r. unfold printable. rewrite T, Hx. reflexivity.
Qed.

Lemma length_property (items : list value) :
  get (VArr items) (lit "length") = Normal (VNum (Z.of_nat (List.length items))).
Proof. cbn [get]. eval_keys. reflexivity. Qed.

Lemma text_length_property (s : jsstring) :
  get (VStr s) (lit "length") = Normal (VNum (Z.of_nat (List.length s))).
Proof. cbn [get]. eval_keys. reflexivity. Qed.

(** The handler once the upstream has listed at least one user. *)
Lemma listFollowingWith_listed endpoint (clean : value -> jsstring -> value)
    (username : jsstring) (perPage : option Z) (users : list value) :
  users <> [] ->
  endpoint [ (lit "username", VStr username);
             (lit "per_page", VNum (match perPage with Some n => n | None => 100%Z end)) ]
  = Normal {| GithubTs.data := VArr users |} ->
  GithubTsTools.listFollowingWith endpoint clean username perPage
  = GithubTs.catching (
      count <- get (clean (VArr users) (lit "user")) (lit "length") ;;
      entries <- GithubTsTools.forEachOf "cleanedList" (clean (VArr users) (lit "user"))
                   GithubTs.userEntry ;;
      Normal (GithubTs.textResult (List.concat (
        (lit "用户 " ++ username ++ lit " 关注了以下 " ++ toStr count ++ lit " 个用户:" ++ nl ++ nl)
          :: entries)))).
Proof.
  intros Hne Hr. unfold GithubTsTools.listFollowingWith. rewrite Hr.
  cbn [bind GithubTs.data truthy]. rewrite length_property. cbn [bind].
  destruct users as [|x rest]; [congruence|]. reflexivity.
Qed.

Lemma cleaning_user (data : value) :
  GithubTs.cleaning data (lit "user") = GithubTs.eachOrOne GithubTs.cleanGeneric data.
Proof. reflexivity. Qed.

(** X10.  [listFollowing] of [src/tools/github.ts].  An empty list gives the
    sentence that the user follows nobody.  A list without [null] gives the
    header with the number of users listed and then the entries of the
    cleaned users, never an error.  A list that holds [null] or [undefined]
    is answered with an error text: the cleaner gives the list back as it
    came and the callback then reads [login] of the bad element. *)
Theorem listFollowing_lists_the_cleaned_users
    (users_listFollowingForUser : object -> completion GithubTs.response)
    (username : jsstring) (perPage : option Z) (users : list value) :
  users_listFollowingForUser
    [ (lit "username", VStr username);
      (lit "per_page", VNum (match perPage with Some n => n | None => 100%Z end)) ]
  = Normal {| GithubTs.data := VArr users |} ->
  (users = [] ->
   GithubTsTools.listFollowing users_listFollowingForUser username perPage
   = Normal (GithubTs.textResult (lit "用户 " ++ username ++ lit " 没有关注任何人。"))) /\
  (users <> [] -> existsb nullish users = false ->
   exists cleaned entries,
     GithubTs.cleanGitHubResponse (VArr users) (lit "user") = VArr cleaned /\
     GithubTs.forEachFrom GithubTs.userEntry 0 cleaned = Normal entries /\
     GithubTsTools.listFollowing users_listFollowingForUser username perPage
     = Normal (GithubTs.textResult
                 (lit "用户 " ++ username ++ lit " 关注了以下 "
                  ++ numToStr (Z.of_nat (List.length users)) ++ lit " 个用户:" ++ nl ++ nl
                  ++ List.concat entries))) /\
  (existsb nullish users = true ->
   exists m,
     GithubTsTools.listFollowing users_listFollowingForUser username perPage
     = Normal (GithubTs.textResult (lit "Error: " ++ m))).
Proof.
  intros Hr. split; [|split].
  - intros ->. unfold GithubTsTools.listFollowing, GithubTsTools.listFollowingWith.
    rewrite Hr. cbn [bind GithubTs.data truthy]. rewrite length_property. reflexivity.
  - intros Hne Hn.
    destruct (mapM_cleanGeneric users) as [Hc _].
    destruct (Hc Hn) as (cleaned & Ec & Ho & Hl).
    assert (C : GithubTs.cleanGitHubResponse (VArr users) (lit "user") = VArr cleaned).
    { unfold GithubTs.cleanGitHubResponse. rewrite cleaning_user.
      cbn [GithubTs.eachOrOne]. rewrite Ec. reflexivity. }
    destruct (forEachFrom_total GithubTs.userEntry (printable (lit "user")) cleaned)
      with (index := 0) as [entries Ee].
    { intros i x P. apply (entries_total sampleHost i x (printable_not_nullish _ _ P)). }
    { apply objects_printable; [reflexivity | exact Ho]. }
    exists cleaned, entries. split; [exact C|]. split; [exact Ee|].
    unfold GithubTsTools.listFollowing.
    rewrite (listFollowingWith_listed _ _ _ _ users Hne Hr), C, length_property.
    cbn [bind GithubTsTools.forEachOf]. rewrite Ee. cbn [bind GithubTs.catching List.concat toStr].
    rewrite Hl, <- !app_assoc. reflexivity.
  - intros Hn.
    assert (Hne : users <> []) by (intros ->; discriminate).
    destruct (mapM_cleanGeneric users) as [_ Ht]. destruct (Ht Hn) as [m0 Em].
    assert (C : GithubTs.cleanGitHubResponse (VArr users) (lit "user") = VArr users).
    { unfold GithubTs.cleanGitHubResponse. rewrite cleaning_user.
      cbn [GithubTs.eachOrOne]. rewrite Em. reflexivity. }
    destruct (forEachFrom_throws GithubTs.userEntry users) with (index := 0) as [m E];
      [intros i x N; apply (entries_throw sampleHost i x N) | exact Hn |].
    exists m. unfold GithubTsTools.listFollowing.
    rewrite (listFollowingWith_listed _ _ _ _ users Hne Hr), C, length_property.
    cbn [bind GithubTsTools.forEachOf]. rewrite E. reflexivity.
Qed.

Lemma listFollowing_lists_the_cleaned_users_witness :
  GithubTsTools.listFollowing followsTwo (lit "me") None
  = Normal (GithubTs.textResult
              (lit "用户 me 关注了以下 2 个用户:" ++ nl ++ nl
               ++ lit "1. octocat" ++ nl ++ nl ++ lit "2. octocat" ++ nl ++ nl)).
Proof.
  destruct (listFollowing_lists_the_cleaned_users followsTwo (lit "me") None
              [VObj octocat; VObj octocat] eq_refl) as (_ & H & _).
  destruct H as (cleaned & entries & C & E & R); [discriminate | reflexivity |].
  rewrite R. vm_compute in C. injection C as <-. vm_compute in E. injection E as <-.
  vm_compute. reflexivity.
Defined.

(** ** [unnamed/part_000]: [listFollowing] and [getPullRequestComments] *)

Lemma part_000_cleaning_user (host : Host) (data : value) :
  Part000.cleaning host data (lit "user")
  = Part000.asText (GithubTs.listing "未找到任何用户。" " 个用户:"
                      GithubTs.userEntry GithubTs.userDetails data).
Proof. reflexivity. Qed.

(** X11.  [listFollowing] of [unnamed/part_000] never lists anybody.  Its
    cleaner answers the kind [user] with a text, the handler then calls
    [forEach] on that text, and every non-empty list of users ends in an
    error text; when no element is [null] the message is
    [cleanedList.forEach is not a function]. *)
Theorem part_000_listFollowing_always_fails (host : Host)
    (users_listFollowingForUser : object -> completion GithubTs.response)
    (username : jsstring) (perPage : option Z) (users : list value) :
  users <> [] ->
  users_listFollowingForUser
    [ (lit "username", VStr username);
      (lit "per_page", VNum (match perPage with Some n => n | None => 100%Z end)) ]
  = Normal {| GithubTs.data := VArr users |} ->
  exists m,
    Part000Tools.listFollowing host users_listFollowingForUser username perPage
    = Normal (GithubTs.textResult (lit "Error: " ++ m)) /\
    (existsb nullish users = false -> m = lit "cleanedList.forEach is not a function").
Proof.
  intros Hne Hr. unfold Part000Tools.listFollowing.
  rewrite (listFollowingWith_listed _ _ _ _ users Hne Hr).
  unfold Part000.cleanGitHubResponse. rewrite part_000_cleaning_user.
  destruct (existsb nullish users) eqn:Hn.
  - destruct (listing_throws "未找到任何用户。" " 个用户:" GithubTs.userEntry
                GithubTs.userDetails users) as [m0 E0];
      [intros i x N; apply (entries_throw host i x N) | exact Hn |].
    rewrite E0. cbn [Part000.asText bind]. rewrite length_property. cbn [bind].
    destruct (forEachFrom_throws GithubTs.userEntry users) with (index := 0) as [m E];
      [intros i x N; apply (entries_throw host i x N) | exact Hn |].
    exists m. cbn [GithubTsTools.forEachOf]. rewrite E. split; [reflexivity | discriminate].
  - destruct (listing_counted "未找到任何用户。" " 个用户:" GithubTs.userEntry
                GithubTs.userDetails (lit "user") users Hne eq_refl) as [pieces E].
    { intros i x P. apply (entries_total host i x (printable_not_nullish _ _ P)). }
    { apply not_nullish_printable; [reflexivity | exact Hn]. }
    rewrite E. cbn [Part000.asText bind]. rewrite text_length_property.
    cbn [bind GithubTsTools.forEachOf GithubTs.catching].
    exists (lit "cleanedList" ++ lit ".forEach is not a function").
    split; [reflexivity | intros _; vm_compute; reflexivity].
Qed.

Lemma part_000_listFollowing_always_fails_witness :
  Part000Tools.listFollowing sampleHost followsTwo (lit "me") None
  = Normal (GithubTs.textResult (lit "Error: cleanedList.forEach is not a function")).
Proof.
  destruct (part_000_listFollowing_always_fails sampleHost followsTwo (lit "me") None
              [VObj octocat; VObj octocat]) as (m & R & M).
  - discriminate.
  - reflexivity.
  - rewrite R, (M eq_refl). vm_compute. reflexivity.
Defined.

Lemma part_000_cleaning_comment (host : Host) (data : value) :
  Part000.cleaning host data (lit "comment")
  = GithubTs.eachOrOne (Part000.cleanComment host) data.
Proof. reflexivity. Qed.

Lemma cleanComment_shape (host : Host) (x y : value) :
  Part000.cleanComment host x = Normal y -> isObject y = true.
Proof.
  unfold Part000.cleanComment. intros H. open_binds H. injection H as <-. reflexivity.
Qed.

Lemma mapM_shape {A} (f : A -> completion value) (P : value -> bool) (l : list A)
    (out : list value) :
  (forall x y, f x = Normal y -> P y = true) ->
  mapM f l = Normal out -> forallb P out = true /\ List.length out = List.length l.
Proof.
  intros Hf. revert out. induction l as [|x rest IH]; cbn [mapM]; intros out H.
  - injection H as <-. split; reflexivity.
  - apply bind_Normal in H as (y & Ey & H). apply bind_Normal in H as (ys & Eys & H).
    injection H as <-. destruct (IH ys Eys) as [Hp Hl].
    cbn [forallb List.length]. rewrite (Hf x y Ey), Hp, Hl. split; reflexivity.
Qed.

Lemma clean_comments_shape (host : Host) (items : list value) :
  forallb isObject items = true ->
  exists out,
    Part000.cleanGitHubResponse host (VArr items) (lit "comment") = VArr out /\
    forallb isObject out = true /\ List.length out = List.length items.
Proof.
  intros Ho. unfold Part000.cleanGitHubResponse. rewrite part_000_cleaning_comment.
  cbn [GithubTs.eachOrOne].
  destruct (mapM (Part000.cleanComment host) items) as [out|m] eqn:E; cbn [bind].
  - exists out. split; [reflexivity|].
    apply (mapM_shape _ _ _ _ (cleanComment_shape host) E).
  - exists items. repeat split. exact Ho.
Qed.

Lemma toStr_objects (items : list value) :
  forallb isObject items = true ->
  toStr (VArr items) = join (lit ",") (repeat (lit "[object Object]") (List.length items)).
Proof.
  intros H. cbn [toStr]. f_equal.
  induction items as [|x rest IH]; [reflexivity|].
  cbn [forallb] in H. apply andb_true_iff in H. destruct H as [Hx Hr].
  cbn [map List.length repeat]. rewrite (IH Hr). destruct x; try discriminate. reflexivity.
Qed.

Lemma formatting_comments (host : Host) (data : value) :
  GithubTs.formatting host data (lit "comments") = GithubTs.dumpAny data.
Proof. reflexivity. Qed.

(** X12.  [getPullRequestComments] of [unnamed/part_000] prints no comment.
    It wraps the cleaned comments and the pagination in one object and
    formats it with the kind [comments], for which the formatter has no
    [case]: the text is the two names of that object followed by what
    [ToString] makes of an array of objects and of an object, whatever the
    comments say and whether or not a next page exists. *)
Theorem part_000_comments_print_as_object_text (host : Host)
    (issues_listComments : object -> completion Part000Tools.linkedResponse)
    (owner repo : jsstring) (pullNumber : Z) (page : option Z)
    (items : list value) (link : option jsstring) :
  forallb isObject items = true ->
  issues_listComments
    [ (lit "owner", VStr owner); (lit "repo", VStr repo);
      (lit "issue_number", VNum pullNumber); (lit "per_page", VNum 100);
      (lit "page", VNum (match page with Some p => p | None => 1%Z end)) ]
  = Normal {| Part000Tools.data := VArr items; Part000Tools.headers_link := link |} ->
  Part000Tools.getPullRequestComments host issues_listComments owner repo pullNumber page
  = Normal (GithubTs.textResult
              (lit "数据详情:" ++ nl ++ nl
               ++ lit "comments: "
               ++ join (lit ",") (repeat (lit "[object Object]") (List.length items)) ++ nl
               ++ lit "pagination: [object Object]" ++ nl)).
Proof.
  intros Ho Hr. unfold Part000Tools.getPullRequestComments. rewrite Hr.
  cbn [bind Part000Tools.data Part000Tools.headers_link].
  destruct (clean_comments_shape host items Ho) as (out & C & Hout & Hl).
  rewrite C, length_property. cbn [bind GithubTs.catching].
  unfold Part000.formatForHumans, GithubTs.formatForHumans.
  rewrite formatting_comments.
  cbn [GithubTs.dumpAny GithubTs.dump entries bind map fst snd join List.concat].
  rewrite (toStr_objects out Hout), Hl. cbn [toStr].
  rewrite app_nil_r, <- !app_assoc. reflexivity.
Qed.

Lemma part_000_comments_print_as_object_text_witness :
  Part000Tools.getPullRequestComments sampleHost twoComments (lit "a") (lit "b") 7 None
  = Normal (GithubTs.textResult
              (lit "数据详情:" ++ nl ++ nl
               ++ lit "comments: [object Object],[object Object]" ++ nl
               ++ lit "pagination: [object Object]" ++ nl)).
Proof.
  rewrite (part_000_comments_print_as_object_text sampleHost twoComments (lit "a") (lit "b") 7
             None _ (Some Part000Tools.relNext) (eq_refl : forallb isObject
               [ VObj [ (lit "id", VNum 1); (lit "body", VStr (lit "first")) ];
                 VObj [ (lit "id", VNum 2); (lit "body", VStr (lit "second")) ] ] = true)
             eq_refl).
  vm_compute. reflexivity.
Defined.

(** ** [getFileContent]: lines and windows *)

Lemma split_nonempty (sep : codeunit) (s : jsstring) : GithubTsTools.split sep s <> [].
Proof.
  destruct s as [|c rest]; cbn [GithubTsTools.split]; [discriminate|].
  destruct (c =? sep)%N; [discriminate|].
  destruct (GithubTsTools.split sep rest); discriminate.
Qed.

Lemma join_cons (sep p : jsstring) (q : jsstring) (rest : list jsstring) :
  join sep (p :: q :: rest) = p ++ sep ++ join sep (q :: rest).
Proof. reflexivity. Qed.

(** Joining the lines gives the text back. *)
Lemma join_split (sep : codeunit) (s : jsstring) :
  join [sep] (GithubTsTools.split sep s) = s.
Proof.
  induction s as [|c rest IH]; [reflexivity|].
  cbn [GithubTsTools.split]. destruct (c =? sep)%N eqn:E.
  - apply N.eqb_eq in E. subst c.
    destruct (GithubTsTools.split sep rest) as [|p ps] eqn:S;
      [exfalso; exact (split_nonempty sep rest S)|].
    rewrite join_cons, IH. reflexivity.
  - destruct (GithubTsTools.split sep rest) as [|p ps] eqn:S;
      [exfalso; exact (split_nonempty sep rest S)|].
    destruct ps as [|q ps].
    + cbn [join] in *. now rewrite IH.
    + rewrite <- IH, !join_cons. reflexivity.
Qed.

Lemma split_app (sep : codeunit) (a b : jsstring) :
  GithubTsTools.split sep (a ++ sep :: b)
  = GithubTsTools.split sep a ++ GithubTsTools.split sep b.
Proof.
  induction a as [|c a IH]; cbn [app GithubTsTools.split].
  - rewrite N.eqb_refl. reflexivity.
  - destruct (c =? sep)%N; rewrite IH; [reflexivity|].
    destruct (GithubTsTools.split sep a) as [|p ps] eqn:S;
      [exfalso; exact (split_nonempty sep a S)|].
    reflexivity.
Qed.

Lemma split_free (sep : codeunit) (s : jsstring) :
  free sep s -> GithubTsTools.split sep s = [s].
Proof.
  unfold free. induction s as [|c rest IH]; intros H; [reflexivity|].
  cbn [GithubTsTools.split]. destruct (c =? sep)%N eqn:E.
  - apply N.eqb_eq in E. subst. exfalso. apply H. now left.
  - rewrite IH; [reflexivity|]. intros I. apply H. now right.
Qed.

Lemma split_join (sep : codeunit) (parts : list jsstring) :
  parts <> [] -> Forall (free sep) parts ->
  GithubTsTools.split sep (join [sep] parts) = parts.
Proof.
  induction parts as [|p rest IH]; intros Hne Hf; [congruence|].
  inversion Hf as [|? ? Hp Hr]; subst.
  destruct rest as [|q rest].
  - cbn [join]. apply split_free, Hp.
  - rewrite join_cons. cbn [app]. rewrite split_app, (split_free _ _ Hp), IH;
      [reflexivity | discriminate | exact Hr].
Qed.

Lemma firstn_more {A} (a b : nat) (l : list A) :
  firstn a l ++ firstn b (skipn a l) = firstn (a + b) l.
Proof.
  revert l. induction a as [|a IH]; intros l; [reflexivity|].
  destruct l as [|x l]; cbn [firstn skipn Nat.add app].
  - now rewrite firstn_nil.
  - now rewrite IH.
Qed.

(** [slice] between two places of the array. *)
Lemma slice_within {A} (l : list A) (start stop : Z) :
  (0 <= start)%Z -> (start <= Z.of_nat (List.length l))%Z ->
  (0 <= stop)%Z -> (stop <= Z.of_nat (List.length l))%Z ->
  GithubTsTools.slice l start stop
  = firstn (Z.to_nat stop - Z.to_nat start) (skipn (Z.to_nat start) l).
Proof.
  intros. unfold GithubTsTools.slice, GithubTsTools.relativeIndex.
  destruct (Z.ltb_spec start 0); [lia|]. destruct (Z.ltb_spec stop 0); [lia|].
  rewrite !Nat.min_l by lia. reflexivity.
Qed.

Lemma slice_from_end {A} (l : list A) (start stop : Z) :
  (0 <= start)%Z -> (start <= Z.of_nat (List.length l))%Z -> (stop < 0)%Z ->
  GithubTsTools.slice l start stop
  = firstn (Z.to_nat (Z.of_nat (List.length l) + stop) - Z.to_nat start)
           (skipn (Z.to_nat start) l).
Proof.
  intros. unfold GithubTsTools.slice, GithubTsTools.relativeIndex.
  destruct (Z.ltb_spec start 0); [lia|]. destruct (Z.ltb_spec stop 0); [|lia].
  rewrite Nat.min_l by lia. f_equal. lia.
Qed.

Lemma lines_counted {A} (l : list A) : l <> [] -> (1 <= Z.of_nat (List.length l))%Z.
Proof. destruct l; [congruence|]. cbn [List.length]. lia. Qed.

(** X13.  A window asked for with both ends, [1 <= startLine <= endLine] and
    [endLine] no more than the number of lines, holds exactly the lines
    [startLine] to [endLine] of the file, in order: line [k] of the file is
    the element [k - startLine] of the window. *)
Theorem window_holds_the_asked_lines (lines : list jsstring) (startLine endLine : Z) :
  (1 <= startLine)%Z -> (startLine <= endLine)%Z ->
  (endLine <= Z.of_nat (List.length lines))%Z ->
  GithubTsTools.validStartLine startLine (Z.of_nat (List.length lines)) = startLine /\
  GithubTsTools.validEndLine startLine (Some endLine) (Z.of_nat (List.length lines)) = endLine /\
  List.length (GithubTsTools.selectedLines lines startLine (Some endLine))
  = Z.to_nat (endLine - startLine + 1) /\
  (forall k, (startLine <= k <= endLine)%Z ->
     nth_error (GithubTsTools.selectedLines lines startLine (Some endLine))
               (Z.to_nat (k - startLine))
     = nth_error lines (Z.to_nat (k - 1))).
Proof.
  intros H1 H2 H3.
  assert (Vs : GithubTsTools.validStartLine startLine (Z.of_nat (List.length lines)) = startLine)
    by (unfold GithubTsTools.validStartLine; lia).
  assert (Ve : GithubTsTools.validEndLine startLine (Some endLine) (Z.of_nat (List.length lines))
               = endLine).
  { unfold GithubTsTools.validEndLine. destruct (Z.eqb_spec endLine 0); lia. }
  assert (S : GithubTsTools.selectedLines lines startLine (Some endLine)
              = firstn (Z.to_nat endLine - Z.to_nat (startLine - 1))
                       (skipn (Z.to_nat (startLine - 1)) lines)).
  { unfold GithubTsTools.selectedLines. rewrite Vs, Ve. apply slice_within; lia. }
  split; [exact Vs|]. split; [exact Ve|]. rewrite S. split.
  - rewrite length_firstn, length_skipn. lia.
  - intros k Hk. rewrite nth_error_firstn, nth_error_skipn.
    destruct (Nat.ltb_spec (Z.to_nat (k - startLine)) (Z.to_nat endLine - Z.to_nat (startLine - 1)));
      [|lia].
    f_equal. lia.
Qed.

Lemma window_holds_the_asked_lines_witness :
  GithubTsTools.selectedLines (GithubTsTools.split 10%N threeLines) 2 (Some 3%Z)
  = [ lit "b"; lit "c" ].
Proof.
  destruct (window_holds_the_asked_lines (GithubTsTools.split 10%N threeLines) 2 3)
    as (_ & _ & L & N); [lia | lia | vm_compute; discriminate |].
  pose proof (N 2%Z ltac:(lia)) as N2. pose proof (N 3%Z ltac:(lia)) as N3.
  change (Z.to_nat (2 - 2)) with 0 in N2. change (Z.to_nat (3 - 2)) with 1 in N3.
  change (Z.to_nat (3 - 2 + 1)) with 2 in L.
  destruct (GithubTsTools.selectedLines (GithubTsTools.split 10%N threeLines) 2 (Some 3%Z))
    as [|x [|y [|z rest]]]; try discriminate.
  cbn [nth_error] in N2, N3. vm_compute in N2, N3. injection N2 as ->. injection N3 as ->.
  vm_compute. reflexivity.
Defined.

(** The window asked for without [endLine]. *)
Lemma selectedLines_default (lines : list jsstring) (startLine : Z) (endLine : option Z) :
  lines <> [] -> endLine = None \/ endLine = Some 0%Z ->
  GithubTsTools.validEndLine startLine endLine (Z.of_nat (List.length lines))
  = Z.min (GithubTsTools.validStartLine startLine (Z.of_nat (List.length lines)) + 199)
          (Z.of_nat (List.length lines)) /\
  GithubTsTools.selectedLines lines startLine endLine
  = firstn 200
      (skipn (Z.to_nat (GithubTsTools.validStartLine startLine (Z.of_nat (List.length lines)) - 1))
             lines).
Proof.
  intros Hne He. pose proof (lines_counted lines Hne) as Ht.
  assert (Hl : GithubTsTools.validEndLine startLine endLine (Z.of_nat (List.length lines))
               = Z.min (GithubTsTools.validStartLine startLine (Z.of_nat (List.length lines)) + 199)
                       (Z.of_nat (List.length lines))).
  { destruct He as [-> | ->]; reflexivity. }
  split; [exact Hl|].
  unfold GithubTsTools.selectedLines. rewrite Hl.
  set (f := GithubTsTools.validStartLine startLine (Z.of_nat (List.length lines))).
  assert (1 <= f <= Z.of_nat (List.length lines))%Z
    by (unfold f, GithubTsTools.validStartLine; lia).
  rewrite slice_within by lia.
  destruct (Z.le_ge_cases (f + 199) (Z.of_nat (List.length lines))).
  - f_equal. lia.
  - rewrite !firstn_all2; [reflexivity | |]; rewrite length_skipn; lia.
Qed.

(** X14.  A window asked for without [endLine] (or with [endLine: 0]) starts
    at [startLine] clipped to the file and holds the next 200 lines, or all
    that are left: at least one line and never more than 200.  When lines are
    left after it, the window asked for at the [startLine] of the hint,
    [validEndLine + 1], follows it without a gap or a repeated line; when
    none are left, the window reaches the end of the file. *)
Theorem default_windows_tile_the_file (lines : list jsstring) (startLine : Z)
    (endLine : option Z) :
  lines <> [] -> endLine = None \/ endLine = Some 0%Z ->
  let totalLines := Z.of_nat (List.length lines) in
  let first := GithubTsTools.validStartLine startLine totalLines in
  let last := GithubTsTools.validEndLine startLine endLine totalLines in
  (1 <= first <= totalLines)%Z /\
  GithubTsTools.selectedLines lines startLine endLine
  = firstn 200 (skipn (Z.to_nat (first - 1)) lines) /\
  1 <= List.length (GithubTsTools.selectedLines lines startLine endLine) <= 200 /\
  ((last < totalLines)%Z ->
   GithubTsTools.selectedLines lines startLine endLine
   ++ GithubTsTools.selectedLines lines (last + 1) endLine
   = firstn 400 (skipn (Z.to_nat (first - 1)) lines)) /\
  ((last = totalLines)%Z ->
   GithubTsTools.selectedLines lines startLine endLine = skipn (Z.to_nat (first - 1)) lines).
Proof.
  intros Hne He totalLines first last.
  pose proof (lines_counted lines Hne) as Ht. fold totalLines in Ht.
  assert (Hf : (1 <= first <= totalLines)%Z)
    by (unfold first, GithubTsTools.validStartLine; lia).
  assert (Hl : forall s, GithubTsTools.validEndLine s endLine totalLines
                         = Z.min (GithubTsTools.validStartLine s totalLines + 199) totalLines).
  { intros s. apply (selectedLines_default lines s endLine Hne He). }
  assert (W : forall s,
             GithubTsTools.selectedLines lines s endLine
             = firstn 200 (skipn (Z.to_nat (GithubTsTools.validStartLine s totalLines - 1)) lines)).
  { intros s. apply (selectedLines_default lines s endLine Hne He). }
  assert (El : last = Z.min (first + 199) totalLines) by (unfold last; apply Hl).
  split; [exact Hf|]. split; [apply W|]. split; [|split].
  - rewrite W, length_firstn, length_skipn. fold first. unfold totalLines in *. lia.
  - intros Hlast. rewrite !W. fold first.
    assert (E : last = (first + 199)%Z) by lia.
    replace (GithubTsTools.validStartLine (last + 1) totalLines) with (first + 200)%Z
      by (unfold GithubTsTools.validStartLine; lia).
    replace (Z.to_nat (first + 200 - 1)) with (200 + Z.to_nat (first - 1)) by lia.
    rewrite <- skipn_skipn. apply (firstn_more 200 200).
  - intros Hlast. rewrite W. fold first. apply firstn_all2. rewrite length_skipn.
    unfold totalLines in *. lia.
Qed.

Lemma default_windows_tile_the_file_witness :
  GithubTsTools.selectedLines (repeat (lit "x") 450) 1 None
  ++ GithubTsTools.selectedLines (repeat (lit "x") 450) 201 None
  = repeat (lit "x") 400.
Proof.
  destruct (default_windows_tile_the_file (repeat (lit "x") 450) 1 None)
    as (_ & _ & _ & T & _); [discriminate | left; reflexivity |].
  cbv zeta in T. change (GithubTsTools.validEndLine 1 None (Z.of_nat (List.length (repeat (lit "x") 450))) + 1)%Z
    with 201%Z in T.
  rewrite T by (vm_compute; reflexivity). vm_compute. reflexivity.
Defined.

(** X15.  An [endLine] the handler does not expect.  A negative one is not
    clipped: [slice] counts it from the end, so the window runs from
    [startLine] to the line that many before the last, and the header prints
    the negative number as the last line shown.  A positive one below
    [startLine] gives an empty window under a header that names both. *)
Theorem unexpected_end_lines (lines : list jsstring) (startLine endLine : Z) :
  lines <> [] ->
  let totalLines := Z.of_nat (List.length lines) in
  let first := GithubTsTools.validStartLine startLine totalLines in
  ((endLine < 0)%Z ->
   GithubTsTools.validEndLine startLine (Some endLine) totalLines = endLine /\
   GithubTsTools.selectedLines lines startLine (Some endLine)
   = firstn (Z.to_nat (totalLines + endLine) - Z.to_nat (first - 1))
            (skipn (Z.to_nat (first - 1)) lines)) /\
  ((0 < endLine < first)%Z ->
   GithubTsTools.validEndLine startLine (Some endLine) totalLines = endLine /\
   GithubTsTools.selectedLines lines startLine (Some endLine) = []).
Proof.
  intros Hne totalLines first.
  pose proof (lines_counted lines Hne) as Ht. fold totalLines in Ht.
  assert (Hf : (1 <= first <= totalLines)%Z)
    by (unfold first, GithubTsTools.validStartLine; lia).
  split; intros He.
  - assert (Ve : GithubTsTools.validEndLine startLine (Some endLine) totalLines = endLine).
    { unfold GithubTsTools.validEndLine. destruct (Z.eqb_spec endLine 0); lia. }
    split; [exact Ve|]. unfold GithubTsTools.selectedLines. fold totalLines first.
    rewrite Ve. apply slice_from_end; fold totalLines; lia.
  - assert (Ve : GithubTsTools.validEndLine startLine (Some endLine) totalLines = endLine).
    { unfold GithubTsTools.validEndLine. destruct (Z.eqb_spec endLine 0); lia. }
    split; [exact Ve|]. unfold GithubTsTools.selectedLines. fold totalLines first.
    rewrite Ve, slice_within by (fold totalLines; lia).
    replace (Z.to_nat endLine - Z.to_nat (first - 1)) with 0 by lia. reflexivity.
Qed.

Lemma unexpected_end_lines_witness :
  GithubTsTools.selectedLines (GithubTsTools.split 10%N threeLines) 1 (Some (-1)%Z)
  = [ lit "a"; lit "b" ] /\
  GithubTsTools.selectedLines (GithubTsTools.split 10%N threeLines) 3 (Some 2%Z) = [].
Proof.
  destruct (unexpected_end_lines (GithubTsTools.split 10%N threeLines) 1 (-1))
    as [N _]; [vm_compute; discriminate|].
  destruct (unexpected_end_lines (GithubTsTools.split 10%N threeLines) 3 2)
    as [_ P]; [vm_compute; discriminate|].
  split.
  - destruct N as [_ ->]; [lia|]. vm_compute. reflexivity.
  - destruct P as [_ ->]; [vm_compute; split; reflexivity | reflexivity].
Defined.

(** ** [getFileContent]: the handler *)

(** The handler once the upstream has answered a file and its content is
    decoded. *)
Lemma getFileContent_file (host : Host) repos_getContent decodeBase64
    (owner repo path : jsstring) (ref : option jsstring) (startLine endLine : option Z)
    (fs : object) (s : jsstring) :
  repos_getContent
    [ (lit "owner", VStr owner); (lit "repo", VStr repo); (lit "path", VStr path);
      (lit "ref", GithubTs.optional VStr ref) ]
  = Normal {| GithubTs.data := VObj fs |} ->
  has_key (lit "content") fs = true ->
  decodeBase64 (lookup (lit "content") fs) = Normal s ->
  GithubTsTools.getFileContent host repos_getContent decodeBase64 owner repo path ref
    startLine endLine
  = Normal (GithubTs.textResult
              match startLine with
              | Some startLine => GithubTsTools.rangeText path s startLine endLine
              | None => GithubTsTools.plainText s
              end).
Proof.
  intros Hr Hk Hd. unfold GithubTsTools.getFileContent. rewrite Hr.
  cbn [bind GithubTs.data GithubTsTools.hasProperty]. rewrite Hk.
  cbn [negb get bind]. rewrite Hd. cbn [bind]. destruct startLine; reflexivity.
Qed.

(** X16.  A file of at most 200 lines asked for from its first line (any
    [startLine] up to 1, with no [endLine]) is shown whole and unchanged:
    the text is the header with the number of lines and then the decoded
    content, code unit for code unit, with neither hint. *)
Theorem getFileContent_shows_a_short_file_whole (host : Host) repos_getContent decodeBase64
    (owner repo path : jsstring) (ref : option jsstring) (startLine : Z) (endLine : option Z)
    (fs : object) (s : jsstring) :
  repos_getContent
    [ (lit "owner", VStr owner); (lit "repo", VStr repo); (lit "path", VStr path);
      (lit "ref", GithubTs.optional VStr ref) ]
  = Normal {| GithubTs.data := VObj fs |} ->
  has_key (lit "content") fs = true ->
  decodeBase64 (lookup (lit "content") fs) = Normal s ->
  (startLine <= 1)%Z -> endLine = None \/ endLine = Some 0%Z ->
  List.length (GithubTsTools.split 10%N s) <= 200 ->
  GithubTsTools.getFileContent host repos_getContent decodeBase64 owner repo path ref
    (Some startLine) endLine
  = Normal (GithubTs.textResult
              (lit "文件: " ++ path ++ nl
               ++ lit "显示第 1 至 "
               ++ numToStr (Z.of_nat (List.length (GithubTsTools.split 10%N s)))
               ++ lit " 行 (共 "
               ++ numToStr (Z.of_nat (List.length (GithubTsTools.split 10%N s)))
               ++ lit " 行)" ++ nl ++ nl ++ s)).
Proof.
  intros Hr Hk Hd Hs He Hn.
  rewrite (getFileContent_file host _ _ owner repo path ref (Some startLine) endLine fs s Hr Hk Hd).
  pose proof (split_nonempty 10%N s) as Hne.
  pose proof (lines_counted _ Hne) as Ht.
  destruct (selectedLines_default _ startLine endLine Hne He) as [Ve W].
  assert (Vs : GithubTsTools.validStartLine startLine
                 (Z.of_nat (List.length (GithubTsTools.split 10%N s))) = 1%Z)
    by (unfold GithubTsTools.validStartLine; lia).
  rewrite Vs in Ve, W.
  replace (Z.min (1 + 199) (Z.of_nat (List.length (GithubTsTools.split 10%N s))))
    with (Z.of_nat (List.length (GithubTsTools.split 10%N s))) in Ve by lia.
  unfold GithubTsTools.rangeText, GithubTsTools.rangeInfo. rewrite W, Ve, Vs.
  rewrite Z.ltb_irrefl. change (1 <? 1)%Z with false.
  change (Z.to_nat (1 - 1)) with 0. cbn [skipn]. rewrite firstn_all2 by exact Hn.
  change nl with [10%N] at 4. rewrite join_split.
  rewrite !app_nil_r, <- !app_assoc. reflexivity.
Qed.

Lemma getFileContent_shows_a_short_file_whole_witness :
  GithubTsTools.getFileContent sampleHost fileAnswer decodeSample
    (lit "a") (lit "b") (lit "notes.txt") None (Some 1%Z) None
  = Normal (GithubTs.textResult
              (lit "文件: notes.txt" ++ nl ++ lit "显示第 1 至 3 行 (共 3 行)" ++ nl ++ nl
               ++ threeLines)).
Proof.
  rewrite (getFileContent_shows_a_short_file_whole sampleHost fileAnswer decodeSample
             (lit "a") (lit "b") (lit "notes.txt") None 1 None
             [ (lit "type", VStr (lit "file")); (lit "content", VStr (lit "YQpiCmM=")) ]
             threeLines).
  - vm_compute. reflexivity.
  - reflexivity.
  - reflexivity.
  - reflexivity.
  - lia.
  - left; reflexivity.
  - vm_compute. lia.
Defined.

(** X17.  [getFileContent] without [startLine].  An object with no [content]
    among its names is answered with the sentence that the content cannot be
    read, whatever the lines asked for.  A decoded content of at most 2000
    code units is shown whole; a longer one is cut to its first 2000 code
    units, followed by the notice, and the header says so; [endLine] is not
    looked at.  A content that cannot be decoded gives the error text. *)
Theorem getFileContent_without_a_range (host : Host) repos_getContent decodeBase64
    (owner repo path : jsstring) (ref : option jsstring) (endLine : option Z) (fs : object) :
  repos_getContent
    [ (lit "owner", VStr owner); (lit "repo", VStr repo); (lit "path", VStr path);
      (lit "ref", GithubTs.optional VStr ref) ]
  = Normal {| GithubTs.data := VObj fs |} ->
  (has_key (lit "content") fs = false ->
   forall startLine,
     GithubTsTools.getFileContent host repos_getContent decodeBase64 owner repo path ref
       startLine endLine
     = Normal (GithubTs.textResult (lit "无法读取文件内容，可能不是一个普通文件。"))) /\
  (has_key (lit "content") fs = true ->
   (forall s, decodeBase64 (lookup (lit "content") fs) = Normal s ->
      (List.length s <= 2000 ->
       GithubTsTools.getFileContent host repos_getContent decodeBase64 owner repo path ref
         None endLine
       = Normal (GithubTs.textResult
                   (lit "文件内容 (base64解码后" ++ lit "):" ++ nl ++ nl ++ s))) /\
      (2000 < List.length s ->
       GithubTsTools.getFileContent host repos_getContent decodeBase64 owner repo path ref
         None endLine
       = Normal (GithubTs.textResult
                   (lit "文件内容 (base64解码后" ++ lit ", 已截断" ++ lit "):" ++ nl ++ nl
                    ++ firstn 2000 s ++ nl ++ lit "...（内容过长，已截断）" ++ nl ++ nl
                    ++ lit "提示: 使用 startLine 和 endLine 参数查看特定行范围")))) /\
   (forall m startLine, decodeBase64 (lookup (lit "content") fs) = Throw m ->
      GithubTsTools.getFileContent host repos_getContent decodeBase64 owner repo path ref
        startLine endLine
      = Normal (GithubTs.textResult (lit "Error: " ++ m)))).
Proof.
  intros Hr. split; [|split].
  - intros Hk startLine. unfold GithubTsTools.getFileContent. rewrite Hr.
    cbn [bind GithubTs.data GithubTsTools.hasProperty]. rewrite Hk. reflexivity.
  - intros s Hd.
    rewrite (getFileContent_file host _ _ owner repo path ref None endLine fs s Hr H Hd).
    unfold GithubTsTools.plainText. split; intros Hl.
    + destruct (Nat.ltb_spec 2000 (List.length s)); [lia|]. reflexivity.
    + destruct (Nat.ltb_spec 2000 (List.length s)); [|lia].
      unfold substring0. reflexivity.
  - intros m startLine Hd. unfold GithubTsTools.getFileContent. rewrite Hr.
    cbn [bind GithubTs.data GithubTsTools.hasProperty]. rewrite H.
    cbn [negb get bind]. rewrite Hd. reflexivity.
Qed.

Lemma getFileContent_without_a_range_witness :
  GithubTsTools.getFileContent sampleHost submoduleAnswer decodeSample
    (lit "a") (lit "b") (lit "vendor/lib") None (Some 1%Z) None
  = Normal (GithubTs.textResult (lit "无法读取文件内容，可能不是一个普通文件。")) /\
  GithubTsTools.getFileContent sampleHost fileAnswer decodeSample
    (lit "a") (lit "b") (lit "notes.txt") None None None
  = Normal (GithubTs.textResult
              (lit "文件内容 (base64解码后" ++ lit "):" ++ nl ++ nl ++ threeLines)).
Proof.
  split.
  - destruct (getFileContent_without_a_range sampleHost submoduleAnswer decodeSample
                (lit "a") (lit "b") (lit "vendor/lib") None None
                [ (lit "type", VStr (lit "submodule")); (lit "sha", VStr (lit "abc")) ] eq_refl)
      as [A _].
    apply A. reflexivity.
  - destruct (getFileContent_without_a_range sampleHost fileAnswer decodeSample
                (lit "a") (lit "b") (lit "notes.txt") None None
                [ (lit "type", VStr (lit "file")); (lit "content", VStr (lit "YQpiCmM=")) ]
                eq_refl)
      as [_ B].
    destruct (B eq_refl) as [C _]. destruct (C threeLines eq_refl) as [D _].
    apply D. vm_compute. lia.
Defined.

(** ** [listRepositoryContents]: the navigation texts *)

Lemma filter_segments (segs : list jsstring) :
  Forall segment segs ->
  filter (fun p : jsstring => match p with [] => false | _ => true end) segs = segs.
Proof.
  induction 1 as [|p rest [Hp _] _ IH]; [reflexivity|].
  cbn [filter]. destruct p; [congruence|]. now rewrite IH.
Qed.

Lemma segments_free (segs : list jsstring) :
  Forall segment segs -> Forall (free 47%N) segs.
Proof. intros H. eapply Forall_impl; [|exact H]. intros p [_ F]. exact F. Qed.

Lemma pathParts_join (segs : list jsstring) :
  Forall segment segs -> GithubTsTools.pathParts (join (lit "/") segs) = segs.
Proof.
  intros H. unfold GithubTsTools.pathParts. change (lit "/") with [47%N].
  destruct segs as [|p rest]; [reflexivity|].
  rewrite split_join; [apply filter_segments, H | discriminate | apply segments_free, H].
Qed.

Lemma pathParts_app (a b : jsstring) :
  GithubTsTools.pathParts (a ++ 47%N :: b)
  = GithubTsTools.pathParts a ++ GithubTsTools.pathParts b.
Proof. unfold GithubTsTools.pathParts. rewrite split_app. apply filter_app. Qed.

Lemma slice_all_but_last {A} (l : list A) : GithubTsTools.slice l 0 (-1) = removelast l.
Proof.
  unfold GithubTsTools.slice, GithubTsTools.relativeIndex.
  change (0 <? 0)%Z with false. change (-1 <? 0)%Z with true.
  change (Z.to_nat 0) with 0. rewrite Nat.min_0_l, Nat.sub_0_r. cbn [skipn].
  rewrite removelast_firstn_len. f_equal. lia.
Qed.

Lemma removelast_segments (segs : list jsstring) :
  Forall segment segs -> Forall segment (removelast segs).
Proof.
  induction 1 as [|p rest Hp Hr IH]; [constructor|].
  cbn [removelast]. destruct rest; [constructor|]. constructor; assumption.
Qed.

(** X18.  The navigation texts of [listRepositoryContents].  A path written
    as segments joined by slashes is read back as those segments, and slashes
    before, after or doubled between them change nothing.  The path of the
    tip is the path of the parent directory: the segments but the last,
    joined again, so that asking for it lists one level up, and for a path of
    one segment it is the empty path of the root. *)
Theorem parent_path_goes_one_level_up (segs : list jsstring) :
  segs <> [] -> Forall segment segs ->
  let path := join (lit "/") segs in
  GithubTsTools.pathParts path = segs /\
  (forall a b, GithubTsTools.pathParts (a ++ lit "/" ++ b)
               = GithubTsTools.pathParts a ++ GithubTsTools.pathParts b) /\
  GithubTsTools.pathParts (lit "/" ++ path ++ lit "/") = segs /\
  GithubTsTools.pathNav path = lit "📂 根目录/" ++ path /\
  GithubTsTools.parentPath path = join (lit "/") (removelast segs) /\
  GithubTsTools.pathParts (GithubTsTools.parentPath path) = removelast segs /\
  (List.length segs = 1 -> GithubTsTools.parentPath path = []).
Proof.
  intros Hne Hs path.
  assert (P : GithubTsTools.pathParts path = segs) by apply pathParts_join, Hs.
  assert (Pp : GithubTsTools.parentPath path = join (lit "/") (removelast segs)).
  { unfold GithubTsTools.parentPath. rewrite P. destruct segs as [|p rest]; [congruence|].
    now rewrite slice_all_but_last. }
  split; [exact P|]. split; [|split; [|split; [|split; [|split]]]].
  - intros a b. apply pathParts_app.
  - change (lit "/") with [47%N]. cbn [app].
    change (47%N :: path ++ [47%N]) with ([] ++ 47%N :: (path ++ 47%N :: [])).
    rewrite !pathParts_app, P. cbn [app]. apply app_nil_r.
  - unfold GithubTsTools.pathNav. rewrite P. destruct segs; [congruence | reflexivity].
  - exact Pp.
  - rewrite Pp. apply pathParts_join, removelast_segments, Hs.
  - intros L. rewrite Pp. destruct segs as [|p [|q rest]]; try discriminate. reflexivity.
Qed.

Lemma parent_path_goes_one_level_up_witness :
  GithubTsTools.parentPath (lit "src/tools/github.ts") = lit "src/tools" /\
  GithubTsTools.pathParts (lit "/src/tools/github.ts/")
  = [ lit "src"; lit "tools"; lit "github.ts" ].
Proof.
  destruct (parent_path_goes_one_level_up [ lit "src"; lit "tools"; lit "github.ts" ])
    as (_ & _ & S & _ & P & _).
  - discriminate.
  - repeat constructor; try discriminate; vm_compute; intuition discriminate.
  - split.
    + change (lit "src/tools/github.ts")
        with (join (lit "/") [ lit "src"; lit "tools"; lit "github.ts" ]).
      rewrite P. vm_compute. reflexivity.
    + change (lit "/src/tools/github.ts/")
        with (lit "/" ++ join (lit "/") [ lit "src"; lit "tools"; lit "github.ts" ] ++ lit "/").
      exact S.
Defined.

(** ** [updateRepository]: topics alone *)

(** X19.  [updateRepository] called with [topics] and nothing else does not
    call [repos.update]: once [repos.replaceAllTopics] has answered, the
    repository is read with [repos.get], and the text is that of the cleaned
    repository with its [topics] replaced by the names the replacement
    answered, when these are truthy. *)
Theorem updateRepository_with_topics_alone (host : Host) (octokit : GithubTs.Octokit)
    (owner repo : jsstring) (topics names : value) (answer fs : object) :
  topics <> VUndefined ->
  GithubTs.repos_replaceAllTopics octokit
    [ (lit "owner", VStr owner); (lit "repo", VStr repo); (lit "names", topics) ]
  = Normal {| GithubTs.data := VObj answer |} ->
  lookup (lit "names") answer = names -> truthy names = true ->
  GithubTs.repos_get octokit [ (lit "owner", VStr owner); (lit "repo", VStr repo) ]
  = Normal {| GithubTs.data := VObj fs |} ->
  exists out,
    GithubTs.cleanGitHubResponse (VObj fs) (lit "repository") = VObj out /\
    GithubTs.updateRepository host octokit owner repo [ (lit "topics", topics) ]
    = Normal (GithubTs.textResult
                (GithubTs.formatForHumans host (VObj (assign (lit "topics") names out))
                   (lit "repository"))).
Proof.
  intros Ht Hr Hn Hy Hg.
  assert (C : exists out, GithubTs.cleanGitHubResponse (VObj fs) (lit "repository") = VObj out).
  { unfold GithubTs.cleanGitHubResponse. rewrite cleaning_repository. cbn [GithubTs.eachOrOne].
    rewrite cleanRepository_eq. eexists; reflexivity. }
  destruct C as [out C]. exists out. split; [exact C|].
  unfold GithubTs.updateRepository. cbv zeta. unfold GithubTs.passDefined.
  cbn [lookup]. eval_keys. cbn [isUndefined].
  apply isUndefined_false in Ht. rewrite Ht, Hr. cbn [List.length Nat.leb andb].
  rewrite Hg. cbn [bind GithubTs.data GithubTs.addTopics get]. rewrite C, Hn, Hy.
  reflexivity.
Qed.

Lemma updateRepository_with_topics_alone_witness :
  exists text,
    GithubTs.updateRepository sampleHost topicsOnly (lit "a") (lit "b")
      [ (lit "topics", VArr [ VStr (lit "mcp") ]) ]
    = Normal (GithubTs.textResult text) /\
    text = lit "仓库: a/b" ++ nl ++ lit "链接: https://github.com/a/b" ++ nl
           ++ lit "主题标签: mcp" ++ nl ++ lit "更新于: 1704067200000" ++ nl.
Proof.
  destruct (updateRepository_with_topics_alone sampleHost topicsOnly (lit "a") (lit "b")
              (VArr [ VStr (lit "mcp") ]) (VArr [ VStr (lit "mcp") ])
              [ (lit "names", VArr [ VStr (lit "mcp") ]) ]
              [ (lit "full_name", VStr (lit "a/b"));
                (lit "html_url", VStr (lit "https://github.com/a/b"));
                (lit "updated_at", VStr (lit "2024-01-01T00:00:00Z")) ])
    as (out & C & R).
  - discriminate.
  - reflexivity.
  - reflexivity.
  - reflexivity.
  - reflexivity.
  - eexists. split; [exact R|]. vm_compute in C. injection C as <-. vm_compute. reflexivity.
Defined.

(** ** The handlers that answer with one call *)

Lemma kept_plain (key : jsstring) (v : value) :
  str_eqb key (lit "body") || str_eqb key (lit "description") = false -> kept key v = v.
Proof. intros H. unfold kept. destruct v; try reflexivity. now rewrite H. Qed.

Lemma lookup_generic_plain (fs : object) (k : string) :
  existsb (str_eqb (lit k)) GithubTs.keysToKeep = true ->
  str_eqb (lit k) (lit "body") || str_eqb (lit k) (lit "description") = false ->
  lookup (lit k) (genericOf fs) = lookup (lit k) fs.
Proof.
  intros K P. rewrite lookup_genericOf by (apply In_existsb, K). apply kept_plain, P.
Qed.

Lemma lookup_generic_absent (fs : object) (k : string) :
  existsb (str_eqb (lit k)) GithubTs.keysToKeep = false ->
  str_eqb (lit k) (lit "owner") = false -> str_eqb (lit k) (lit "user") = false ->
  lookup (lit k) (genericOf fs) = VUndefined.
Proof. intros K O U. apply lookup_absent, generic_absent; assumption. Qed.

Lemma lookup_generic_user (fs : object) :
  lookup (lit "user") (genericOf fs)
  = if truthy (loginOf (lookup (lit "user") fs)) then loginOf (lookup (lit "user") fs)
    else VUndefined.
Proof.
  unfold genericOf. unfold flattenOf at 1.
  destruct (truthy (loginOf (lookup (lit "user") fs))); [apply lookup_assign_same|].
  rewrite lookup_flattenOf_other by (apply str_eqb_neq; vm_compute; reflexivity).
  rewrite lookup_fold_keep.
  replace (existsb (str_eqb (lit "user")) GithubTs.keysToKeep) with false
    by (vm_compute; reflexivity).
  reflexivity.
Qed.

Ltac plain := apply lookup_generic_plain; vm_compute; reflexivity.
Ltac gone := apply lookup_generic_absent; vm_compute; reflexivity.

Lemma clean_generic_object (fs : object) :
  GithubTs.cleanGitHubResponse (VObj fs) [] = VObj (genericOf fs).
Proof.
  unfold GithubTs.cleanGitHubResponse.
  change (GithubTs.cleaning (VObj fs) []) with (GithubTs.cleanGeneric (VObj fs)).
  unfold GithubTs.cleanGeneric. rewrite removeExcessiveFields_object. reflexivity.
Qed.

Lemma clean_generic_objects (records : list object) :
  GithubTs.cleanGitHubResponse (VArr (map VObj records)) []
  = VArr (map (fun fs => VObj (genericOf fs)) records).
Proof.
  unfold GithubTs.cleanGitHubResponse.
  change (GithubTs.cleaning (VArr (map VObj records)) [])
    with (cleaned <- mapM GithubTs.cleanGeneric (map VObj records) ;; Normal (VArr cleaned)).
  assert (E : mapM GithubTs.cleanGeneric (map VObj records)
              = Normal (map (fun fs => VObj (genericOf fs)) records)).
  { induction records as [|fs rest IH]; [reflexivity|].
    cbn [map mapM]. unfold GithubTs.cleanGeneric at 1.
    rewrite removeExcessiveFields_object, IH. reflexivity. }
  rewrite E. reflexivity.
Qed.

Lemma repositoryDetails_generic (host : Host) (fs : object) :
  GithubTs.repositoryDetails host (VObj (genericOf fs)) = Normal (printedDetails host fs).
Proof.
  unfold GithubTs.repositoryDetails, printedDetails. cbn [get bind].
  replace (lookup (lit "topics") (genericOf fs)) with VUndefined by (symmetry; gone).
  replace (lookup (lit "stars") (genericOf fs)) with VUndefined by (symmetry; gone).
  replace (lookup (lit "full_name") (genericOf fs)) with (lookup (lit "full_name") fs)
    by (symmetry; plain).
  replace (lookup (lit "name") (genericOf fs)) with (lookup (lit "name") fs)
    by (symmetry; plain).
  replace (lookup (lit "html_url") (genericOf fs)) with (lookup (lit "html_url") fs)
    by (symmetry; plain).
  replace (lookup (lit "language") (genericOf fs)) with (lookup (lit "language") fs)
    by (symmetry; plain).
  replace (lookup (lit "updated_at") (genericOf fs)) with (lookup (lit "updated_at") fs)
    by (symmetry; plain).
  rewrite (lookup_genericOf fs (lit "description")) by member.
  reflexivity.
Qed.

Lemma repositoryEntry_generic (host : Host) (index : nat) (fs : object) :
  GithubTs.repositoryEntry host index (VObj (genericOf fs))
  = Normal (printedEntry host index fs).
Proof.
  unfold GithubTs.repositoryEntry, printedEntry. cbn [get bind].
  replace (lookup (lit "topics") (genericOf fs)) with VUndefined by (symmetry; gone).
  replace (lookup (lit "stars") (genericOf fs)) with VUndefined by (symmetry; gone).
  replace (lookup (lit "belongsTo") (genericOf fs)) with VUndefined by (symmetry; gone).
  replace (lookup (lit "full_name") (genericOf fs)) with (lookup (lit "full_name") fs)
    by (symmetry; plain).
  replace (lookup (lit "name") (genericOf fs)) with (lookup (lit "name") fs)
    by (symmetry; plain).
  replace (lookup (lit "html_url") (genericOf fs)) with (lookup (lit "html_url") fs)
    by (symmetry; plain).
  replace (lookup (lit "language") (genericOf fs)) with (lookup (lit "language") fs)
    by (symmetry; plain).
  replace (lookup (lit "updated_at") (genericOf fs)) with (lookup (lit "updated_at") fs)
    by (symmetry; plain).
  rewrite (lookup_genericOf fs (lit "description")) by member.
  reflexivity.
Qed.

Lemma forEach_generic (host : Host) (records : list object) (index : nat) :
  GithubTs.forEachFrom (GithubTs.repositoryEntry host) index
    (map (fun fs => VObj (genericOf fs)) records)
  = Normal (printedEntries host index records).
Proof.
  revert index. induction records as [|fs rest IH]; intros index; [reflexivity|].
  cbn [map GithubTs.forEachFrom printedEntries].
  rewrite repositoryEntry_generic, IH. reflexivity.
Qed.

(** What a handler of this shape answers once the call has answered an
    object, or a non-empty array of objects. *)
Lemma answering_object (host : Host) (call : completion GithubTs.response) (fs : object) :
  call = Normal {| GithubTs.data := VObj fs |} ->
  GithubTsAnswers.answering host call [] (lit "repository")
  = Normal (GithubTs.textResult (List.concat (printedDetails host fs))).
Proof.
  intros ->. unfold GithubTsAnswers.answering. cbn [bind GithubTs.data GithubTs.catching].
  rewrite clean_generic_object. unfold GithubTs.formatForHumans.
  rewrite formatting_repository. cbn [GithubTs.listing].
  rewrite repositoryDetails_generic. reflexivity.
Qed.

Lemma answering_objects (host : Host) (call : completion GithubTs.response)
    (records : list object) :
  records <> [] ->
  call = Normal {| GithubTs.data := VArr (map VObj records) |} ->
  GithubTsAnswers.answering host call [] (lit "repository")
  = Normal (GithubTs.textResult
              (lit "找到 " ++ numToStr (Z.of_nat (List.length records)) ++ lit " 个仓库:"
               ++ nl ++ nl ++ List.concat (printedEntries host 0 records))).
Proof.
  intros Hne ->. unfold GithubTsAnswers.answering. cbn [bind GithubTs.data GithubTs.catching].
  rewrite clean_generic_objects. unfold GithubTs.formatForHumans.
  rewrite formatting_repository. unfold GithubTs.listing.
  destruct records as [|fs rest]; [congruence|].
  cbn [map].
  change (VObj (genericOf fs) :: map (fun fs0 => VObj (genericOf fs0)) rest)
    with (map (fun fs0 => VObj (genericOf fs0)) (fs :: rest)).
  rewrite forEach_generic. cbn [bind List.concat]. rewrite length_map.
  rewrite <- !app_assoc. reflexivity.
Qed.

(** X20.  [getCommit], [getBranch], [createBranch] and [createCommit] clean
    the object the upstream answers with a kind that has no [case] and print
    it as a repository.  The text is made of six properties of the answer and
    of nothing else: [full_name] or [name], [description], [html_url],
    [language] and [updated_at].  Of a commit, which has none of them but
    [html_url], it is the name [undefined], the link and [Invalid Date]: the
    sha, the message and the author are not printed. *)
Theorem plain_answers_print_as_repositories (host : Host)
    (repos_getCommit repos_getBranch git_createRef git_createCommit
       : object -> completion GithubTs.response) (now : jsstring) (fs : object) :
  (forall owner repo ref,
     repos_getCommit
       [ (lit "owner", VStr owner); (lit "repo", VStr repo); (lit "ref", VStr ref) ]
     = Normal {| GithubTs.data := VObj fs |} ->
     GithubTsAnswers.getCommit host repos_getCommit owner repo ref
     = Normal (GithubTs.textResult (List.concat (printedDetails host fs)))) /\
  (forall owner repo branch,
     repos_getBranch
       [ (lit "owner", VStr owner); (lit "repo", VStr repo); (lit "branch", VStr branch) ]
     = Normal {| GithubTs.data := VObj fs |} ->
     GithubTsAnswers.getBranch host repos_getBranch owner repo branch
     = Normal (GithubTs.textResult (List.concat (printedDetails host fs)))) /\
  (forall owner repo branch sha,
     git_createRef
       [ (lit "owner", VStr owner); (lit "repo", VStr repo);
         (lit "ref", VStr (lit "refs/heads/" ++ branch)); (lit "sha", VStr sha) ]
     = Normal {| GithubTs.data := VObj fs |} ->
     GithubTsAnswers.createBranch host git_createRef owner repo branch sha
     = Normal (GithubTs.textResult (List.concat (printedDetails host fs)))) /\
  (forall owner repo message tree parents authorName authorEmail,
     git_createCommit
       [ (lit "owner", VStr owner); (lit "repo", VStr repo); (lit "message", VStr message);
         (lit "tree", VStr tree); (lit "parents", VArr (map VStr parents));
         (lit "author", GithubTsAnswers.commitAuthor now authorName authorEmail) ]
     = Normal {| GithubTs.data := VObj fs |} ->
     GithubTsAnswers.createCommit host git_createCommit now owner repo message tree parents
       authorName authorEmail
     = Normal (GithubTs.textResult (List.concat (printedDetails host fs)))) /\
  (lacks [ "full_name"; "name"; "description"; "language"; "updated_at" ]%string fs ->
   List.concat (printedDetails host fs)
   = lit "仓库: undefined" ++ nl
     ++ lit "链接: " ++ toStr (lookup (lit "html_url") fs) ++ nl
     ++ lit "更新于: Invalid Date" ++ nl).
Proof.
  repeat split.
  - intros owner repo ref H. apply answering_object, H.
  - intros owner repo branch H. apply answering_object, H.
  - intros owner repo branch sha H. apply answering_object, H.
  - intros owner repo message tree parents authorName authorEmail H.
    apply answering_object, H.
  - intros L. unfold printedDetails.
    rewrite (L "full_name"%string), (L "name"%string), (L "description"%string),
      (L "language"%string), (L "updated_at"%string) by (cbn; tauto).
    cbn [kept orElse truthy GithubTs.line app List.concat toStr].
    change (GithubTs.dateText host VUndefined) with (lit "Invalid Date").
    rewrite app_nil_r, <- !app_assoc. reflexivity.
Qed.

Lemma plain_answers_print_as_repositories_witness :
  GithubTsAnswers.getCommit sampleHost (fun _ => Normal {| GithubTs.data := VObj sampleCommit |})
    (lit "a") (lit "b") (lit "abc123")
  = Normal (GithubTs.textResult
              (lit "仓库: undefined" ++ nl
               ++ lit "链接: https://github.com/a/b/commit/abc123" ++ nl
               ++ lit "更新于: Invalid Date" ++ nl)).
Proof.
  destruct (plain_answers_print_as_repositories sampleHost
              (fun _ => Normal {| GithubTs.data := VObj sampleCommit |})
              (fun _ => Throw []) (fun _ => Throw []) (fun _ => Throw []) [] sampleCommit)
    as (G & _ & _ & _ & L).
  rewrite (G (lit "a") (lit "b") (lit "abc123") eq_refl), L.
  - reflexivity.
  - intros k [<-|[<-|[<-|[<-|[<-|[]]]]]]; reflexivity.
Defined.

(** X21.  [listCommits] and [listContributors] print the array the upstream
    answers as repositories too: the count line calls the commits and the
    contributors repositories, and each entry is made of the same six
    properties.  A contributor has [login] and no [name], so its entry opens
    with [undefined]. *)
Theorem plain_lists_print_as_repositories (host : Host)
    (repos_listCommits repos_listContributors : object -> completion GithubTs.response)
    (records : list object) :
  records <> [] ->
  (forall owner repo sha path author since until perPage,
     repos_listCommits
       [ (lit "owner", VStr owner); (lit "repo", VStr repo);
         (lit "sha", GithubTs.optional VStr sha); (lit "path", GithubTs.optional VStr path);
         (lit "author", GithubTs.optional VStr author);
         (lit "since", GithubTs.optional VStr since);
         (lit "until", GithubTs.optional VStr until);
         (lit "per_page", VNum (match perPage with Some n => n | None => 30%Z end)) ]
     = Normal {| GithubTs.data := VArr (map VObj records) |} ->
     GithubTsAnswers.listCommits host repos_listCommits owner repo sha path author since until
       perPage
     = Normal (GithubTs.textResult
                 (lit "找到 " ++ numToStr (Z.of_nat (List.length records)) ++ lit " 个仓库:"
                  ++ nl ++ nl ++ List.concat (printedEntries host 0 records)))) /\
  (forall owner repo anon perPage,
     repos_listContributors
       [ (lit "owner", VStr owner); (lit "repo", VStr repo);
         (lit "anon", match anon with Some true => VStr (lit "1") | _ => VUndefined end);
         (lit "per_page", VNum (match perPage with Some n => n | None => 100%Z end)) ]
     = Normal {| GithubTs.data := VArr (map VObj records) |} ->
     GithubTsAnswers.listContributors host repos_listContributors owner repo anon perPage
     = Normal (GithubTs.textResult
                 (lit "找到 " ++ numToStr (Z.of_nat (List.length records)) ++ lit " 个仓库:"
                  ++ nl ++ nl ++ List.concat (printedEntries host 0 records)))) /\
  (forall index fs,
     lacks [ "full_name"; "name"; "description"; "language"; "updated_at" ]%string fs ->
     printedEntry host index fs
     = [ GithubTs.ordinal index ++ lit ". " ++ lit "undefined" ++ nl;
         lit "   链接: " ++ toStr (lookup (lit "html_url") fs) ++ nl;
         lit "   更新于: " ++ lit "Invalid Date" ++ nl ++ nl ]).
Proof.
  intros Hne. repeat split.
  - intros owner repo sha path author since until perPage H.
    apply (answering_objects host _ records Hne H).
  - intros owner repo anon perPage H. apply (answering_objects host _ records Hne H).
  - intros index fs L. unfold printedEntry.
    rewrite (L "full_name"%string), (L "name"%string), (L "description"%string),
      (L "language"%string), (L "updated_at"%string) by (cbn; tauto).
    reflexivity.
Qed.

Lemma plain_lists_print_as_repositories_witness :
  GithubTsAnswers.listContributors sampleHost
    (fun _ => Normal {| GithubTs.data := VArr [VObj sampleContributor] |})
    (lit "a") (lit "b") None None
  = Normal (GithubTs.textResult
              (lit "找到 1 个仓库:" ++ nl ++ nl
               ++ lit "1. undefined" ++ nl
               ++ lit "   链接: https://github.com/octocat" ++ nl
               ++ lit "   更新于: Invalid Date" ++ nl ++ nl)).
Proof.
  destruct (plain_lists_print_as_repositories sampleHost (fun _ => Throw [])
              (fun _ => Normal {| GithubTs.data := VArr [VObj sampleContributor] |})
              [sampleContributor]) as (_ & C & E); [discriminate|].
  rewrite (C (lit "a") (lit "b") None None eq_refl).
  cbn [printedEntries]. rewrite E.
  - vm_compute. reflexivity.
  - intros k [<-|[<-|[<-|[<-|[<-|[]]]]]]; reflexivity.
Defined.

(** X22.  [mergePullRequest] and [updateFileContent] print the answer of the
    upstream as a repository without cleaning it.  An answer with none of the
    names the formatter of repositories reads, as that of a merge ([sha],
    [merged], [message]) or of a file update ([content], [commit]), gives one
    fixed text, the same whatever was merged or written. *)
Theorem raw_answers_print_nothing_of_the_answer (host : Host)
    (pulls_merge repos_createOrUpdateFileContents : object -> completion GithubTs.response)
    (encodeBase64 : jsstring -> jsstring) (fs : object) :
  lacks repositoryNames fs ->
  (forall owner repo pullNumber commitTitle commitMessage mergeMethod sha,
     pulls_merge
       [ (lit "owner", VStr owner); (lit "repo", VStr repo);
         (lit "pull_number", VNum pullNumber);
         (lit "commit_title", GithubTs.optional VStr commitTitle);
         (lit "commit_message", GithubTs.optional VStr commitMessage);
         (lit "merge_method",
          VStr (match mergeMethod with Some m => m | None => lit "merge" end));
         (lit "sha", GithubTs.optional VStr sha) ]
     = Normal {| GithubTs.data := VObj fs |} ->
     GithubTsAnswers.mergePullRequest host pulls_merge owner repo pullNumber commitTitle
       commitMessage mergeMethod sha
     = Normal (GithubTs.textResult
                 (lit "仓库: undefined" ++ nl ++ lit "链接: undefined" ++ nl
                  ++ lit "更新于: Invalid Date" ++ nl))) /\
  (forall owner repo path message content branch sha,
     repos_createOrUpdateFileContents
       [ (lit "owner", VStr owner); (lit "repo", VStr repo); (lit "path", VStr path);
         (lit "message", VStr message); (lit "content", VStr (encodeBase64 content));
         (lit "branch", GithubTs.optional VStr branch); (lit "sha", GithubTs.optional VStr sha) ]
     = Normal {| GithubTs.data := VObj fs |} ->
     GithubTsAnswers.updateFileContent host repos_createOrUpdateFileContents encodeBase64
       owner repo path message content branch sha
     = Normal (GithubTs.textResult
                 (lit "仓库: undefined" ++ nl ++ lit "链接: undefined" ++ nl
                  ++ lit "更新于: Invalid Date" ++ nl))).
Proof.
  intros L.
  assert (F : GithubTs.formatForHumans host (VObj fs) (lit "repository")
              = lit "仓库: undefined" ++ nl ++ lit "链接: undefined" ++ nl
                ++ lit "更新于: Invalid Date" ++ nl).
  { unfold GithubTs.formatForHumans. rewrite formatting_repository.
    cbn [GithubTs.listing]. unfold GithubTs.repositoryDetails. cbn [get bind].
    rewrite (L "full_name"%string), (L "name"%string), (L "description"%string),
      (L "html_url"%string), (L "language"%string), (L "stars"%string),
      (L "topics"%string), (L "updated_at"%string) by (cbn; tauto).
    reflexivity. }
  split.
  - intros owner repo pullNumber commitTitle commitMessage mergeMethod sha H.
    unfold GithubTsAnswers.mergePullRequest, GithubTsAnswers.answeringRaw.
    rewrite H. cbn [bind GithubTs.data GithubTs.catching]. now rewrite F.
  - intros owner repo path message content branch sha H.
    unfold GithubTsAnswers.updateFileContent, GithubTsAnswers.answeringRaw.
    rewrite H. cbn [bind GithubTs.data GithubTs.catching]. now rewrite F.
Qed.

Lemma raw_answers_print_nothing_of_the_answer_witness :
  GithubTsAnswers.mergePullRequest sampleHost
    (fun _ => Normal {| GithubTs.data := VObj mergeAnswer |})
    (lit "a") (lit "b") 7 None None None None
  = Normal (GithubTs.textResult
              (lit "仓库: undefined" ++ nl ++ lit "链接: undefined" ++ nl
               ++ lit "更新于: Invalid Date" ++ nl)).
Proof.
  destruct (raw_answers_print_nothing_of_the_answer sampleHost
              (fun _ => Normal {| GithubTs.data := VObj mergeAnswer |})
              (fun _ => Throw []) (fun s => s) mergeAnswer) as [M _].
  - intros k [<-|[<-|[<-|[<-|[<-|[<-|[<-|[<-|[]]]]]]]]]; reflexivity.
  - apply M. reflexivity.
Defined.

Lemma line_if_truthy (label : string) (v : value) :
  GithubTs.line label (if truthy v then v else VUndefined) = GithubTs.line label v.
Proof. unfold GithubTs.line. destruct (truthy v) eqn:T; [now rewrite T | reflexivity]. Qed.

Lemma dateLine_if_truthy (host : Host) (label : string) (v : value) :
  GithubTs.dateLine host label (if truthy v then v else VUndefined)
  = GithubTs.dateLine host label v.
Proof. unfold GithubTs.dateLine. destruct (truthy v) eqn:T; [now rewrite T | reflexivity]. Qed.

(** X23.  [getPullRequest] on any object the upstream answers stays on the
    normal path of the cleaner and of the formatter.  The text is made of
    [number], [title], [state], [created_at], [merged], [merged_at] and
    [html_url] as they came, and of the creator, who is printed as the login
    of [user] when [user] is an object with a truthy [login] and is left out
    otherwise; the branches the cleaner has copied, and the body, are not
    printed. *)
Theorem getPullRequest_prints_the_login (host : Host)
    (pulls_get : object -> completion GithubTs.response)
    (owner repo : jsstring) (pullNumber : Z) (fs : object) :
  pulls_get
    [ (lit "owner", VStr owner); (lit "repo", VStr repo); (lit "pull_number", VNum pullNumber) ]
  = Normal {| GithubTs.data := VObj fs |} ->
  GithubTsAnswers.getPullRequest host pulls_get owner repo pullNumber
  = Normal (GithubTs.textResult (List.concat (
      [lit "拉取请求 #" ++ toStr (lookup (lit "number") fs) ++ lit ": "
         ++ toStr (lookup (lit "title") fs) ++ nl]
      ++ [lit "状态: " ++ GithubTs.stateText (lookup (lit "state") fs) ++ nl]
      ++ GithubTs.line "创建者: " (loginOf (lookup (lit "user") fs))
      ++ GithubTs.dateLine host "创建于: " (lookup (lit "created_at") fs)
      ++ GithubTs.mergedLine "已合并: " (lookup (lit "merged") fs)
      ++ GithubTs.dateLine host "合并于: " (lookup (lit "merged_at") fs)
      ++ [lit "链接: " ++ toStr (lookup (lit "html_url") fs) ++ nl]))).
Proof.
  intros H. unfold GithubTsAnswers.getPullRequest, GithubTsAnswers.answering. rewrite H.
  cbn [bind GithubTs.data GithubTs.catching].
  unfold GithubTs.cleanGitHubResponse. rewrite cleaning_pull_request.
  cbn [GithubTs.eachOrOne]. rewrite cleanPullRequest_eq.
  unfold GithubTs.formatForHumans. rewrite formatting_pull_request.
  unfold GithubTs.pullRequestDetails. cbn [get bind].
  repeat rewrite ?lookup_putDefined, ?lookup_putInner, ?lookup_putTruthy.
  eval_keys. rewrite ?andb_false_r, ?andb_true_r.
  rewrite lookup_generic_user, line_if_truthy.
  replace (lookup (lit "number") (genericOf fs)) with (lookup (lit "number") fs)
    by (symmetry; plain).
  replace (lookup (lit "title") (genericOf fs)) with (lookup (lit "title") fs)
    by (symmetry; plain).
  replace (lookup (lit "state") (genericOf fs)) with (lookup (lit "state") fs)
    by (symmetry; plain).
  replace (lookup (lit "created_at") (genericOf fs)) with (lookup (lit "created_at") fs)
    by (symmetry; plain).
  replace (lookup (lit "html_url") (genericOf fs)) with (lookup (lit "html_url") fs)
    by (symmetry; plain).
  replace (lookup (lit "merged") (genericOf fs)) with VUndefined by (symmetry; gone).
  replace (lookup (lit "merged_at") (genericOf fs)) with VUndefined by (symmetry; gone).
  assert (M : (if negb (isUndefined (lookup (lit "merged") fs))
               then lookup (lit "merged") fs else VUndefined) = lookup (lit "merged") fs).
  { destruct (isUndefined (lookup (lit "merged") fs)) eqn:U; cbn [negb]; [|reflexivity].
    symmetry. apply isUndefined_true, U. }
  rewrite M, dateLine_if_truthy. reflexivity.
Qed.

Lemma getPullRequest_prints_the_login_witness :
  GithubTsAnswers.getPullRequest sampleHost
    (fun _ => Normal {| GithubTs.data := VObj samplePull |}) (lit "a") (lit "b") 7
  = Normal (GithubTs.textResult
              (lit "拉取请求 #7: Fix" ++ nl ++ lit "状态: 开放" ++ nl
               ++ lit "创建者: octocat" ++ nl ++ lit "已合并: 否" ++ nl
               ++ lit "链接: https://github.com/a/b/pull/7" ++ nl)).
Proof.
  rewrite (getPullRequest_prints_the_login sampleHost _ (lit "a") (lit "b") 7 samplePull eq_refl).
  vm_compute. reflexivity.
Defined.

Lemma cleanIssue_eq (fs : object) :
  holdsNullish (lookup (lit "labels") fs) || holdsNullish (lookup (lit "assignees") fs) = false ->
  GithubTs.cleanIssue (VObj fs)
  = Normal (VObj
      (if truthy (lookup (lit "assignees") fs)
       then assign (lit "assignees") (flattenedNames "login" (lookup (lit "assignees") fs))
              (if truthy (lookup (lit "labels") fs)
               then assign (lit "labels") (flattenedNames "name" (lookup (lit "labels") fs))
                      (putTruthy fs "closed_at" "closed_at" (genericOf fs))
               else putTruthy fs "closed_at" "closed_at" (genericOf fs))
       else if truthy (lookup (lit "labels") fs)
            then assign (lit "labels") (flattenedNames "name" (lookup (lit "labels") fs))
                   (putTruthy fs "closed_at" "closed_at" (genericOf fs))
            else putTruthy fs "closed_at" "closed_at" (genericOf fs))).
Proof.
  intros H. apply orb_false_iff in H. destruct H as [HL HA].
  unfold GithubTs.cleanIssue. rewrite removeExcessiveFields_object. cbn [bind].
  rewrite copyIfTruthy_object. cbn [bind].
  match goal with |- context [GithubTs.copyNames _ "labels" "name" ?c] =>
    destruct (copyNames_object fs "labels" "name" c) as [Ln _] end.
  rewrite (Ln HL). cbn [bind].
  match goal with |- context [GithubTs.copyNames _ "assignees" "login" ?c] =>
    destruct (copyNames_object fs "assignees" "login" c) as [An _] end.
  rewrite (An HA). cbn [bind]. reflexivity.
Qed.

Lemma cleanIssue_throws (fs : object) :
  holdsNullish (lookup (lit "labels") fs) || holdsNullish (lookup (lit "assignees") fs) = true ->
  exists m, GithubTs.cleanIssue (VObj fs) = Throw m.
Proof.
  intros H. apply orb_true_iff in H.
  unfold GithubTs.cleanIssue. rewrite removeExcessiveFields_object. cbn [bind].
  rewrite copyIfTruthy_object. cbn [bind].
  match goal with |- context [GithubTs.copyNames _ "labels" "name" ?c] =>
    destruct (copyNames_object fs "labels" "name" c) as [Ln Lt] end.
  destruct (holdsNullish (lookup (lit "labels") fs)) eqn:EL.
  - destruct (Lt eq_refl) as [m Em]. rewrite Em. eexists; reflexivity.
  - destruct H as [H|H]; [discriminate|]. rewrite (Ln eq_refl). cbn [bind].
    match goal with |- context [GithubTs.copyNames _ "assignees" "login" ?c] =>
      destruct (copyNames_object fs "assignees" "login" c) as [_ At] end.
    destruct (At H) as [m Em]. rewrite Em. eexists; reflexivity.
Qed.

(** X24.  [getIssue] on any object the upstream answers stays on the normal
    path of the formatter, and prints [number], [title], [state],
    [created_at], [closed_at] and [html_url] as they came.  The creator is
    the login of [user] as long as the cleaner succeeds.  When [labels] or
    [assignees] holds [null], the cleaner gives the issue back uncleaned and
    the line of the creator prints [user] itself, for an object the text
    [[object Object]]. *)
Theorem getIssue_prints_the_login_unless_cleaning_fails (host : Host)
    (issues_get : object -> completion GithubTs.response)
    (owner repo : jsstring) (issueNumber : Z) (fs : object) :
  issues_get
    [ (lit "owner", VStr owner); (lit "repo", VStr repo); (lit "issue_number", VNum issueNumber) ]
  = Normal {| GithubTs.data := VObj fs |} ->
  GithubTsAnswers.getIssue host issues_get owner repo issueNumber
  = Normal (GithubTs.textResult (List.concat (
      [lit "议题 #" ++ toStr (lookup (lit "number") fs) ++ lit ": "
         ++ toStr (lookup (lit "title") fs) ++ nl]
      ++ [lit "状态: " ++ GithubTs.stateText (lookup (lit "state") fs) ++ nl]
      ++ GithubTs.line "创建者: "
           (if holdsNullish (lookup (lit "labels") fs)
               || holdsNullish (lookup (lit "assignees") fs)
            then lookup (lit "user") fs
            else loginOf (lookup (lit "user") fs))
      ++ GithubTs.dateLine host "创建于: " (lookup (lit "created_at") fs)
      ++ GithubTs.dateLine host "关闭于: " (lookup (lit "closed_at") fs)
      ++ [lit "链接: " ++ toStr (lookup (lit "html_url") fs) ++ nl]))).
Proof.
  intros H. unfold GithubTsAnswers.getIssue, GithubTsAnswers.answering. rewrite H.
  cbn [bind GithubTs.data GithubTs.catching].
  unfold GithubTs.cleanGitHubResponse. rewrite cleaning_issue. cbn [GithubTs.eachOrOne].
  destruct (holdsNullish (lookup (lit "labels") fs)
            || holdsNullish (lookup (lit "assignees") fs)) eqn:N.
  - destruct (cleanIssue_throws fs N) as [m E]. rewrite E. reflexivity.
  - rewrite (cleanIssue_eq fs N).
    unfold GithubTs.formatForHumans. rewrite formatting_issue.
    unfold GithubTs.issueDetails. cbn [get bind].
    repeat rewrite ?lookup_cond_assign, ?lookup_putTruthy.
    repeat match goal with
           | |- context [lookup ?k (if ?c then ?a else ?b)] =>
             replace (lookup k (if c then a else b))
               with (if c then lookup k a else lookup k b) by (destruct c; reflexivity)
           end.
    repeat rewrite ?lookup_cond_assign, ?lookup_putTruthy, ?lookup_assign_other
      by (apply str_eqb_neq; vm_compute; reflexivity).
    eval_keys. rewrite ?andb_false_r, ?andb_true_r.
    repeat match goal with
           | |- context [if ?c then ?a else ?a] =>
             replace (if c then a else a) with a by (destruct c; reflexivity)
           end.
    rewrite lookup_generic_user, line_if_truthy.
    replace (lookup (lit "number") (genericOf fs)) with (lookup (lit "number") fs)
      by (symmetry; plain).
    replace (lookup (lit "title") (genericOf fs)) with (lookup (lit "title") fs)
      by (symmetry; plain).
    replace (lookup (lit "state") (genericOf fs)) with (lookup (lit "state") fs)
      by (symmetry; plain).
    replace (lookup (lit "created_at") (genericOf fs)) with (lookup (lit "created_at") fs)
      by (symmetry; plain).
    replace (lookup (lit "html_url") (genericOf fs)) with (lookup (lit "html_url") fs)
      by (symmetry; plain).
    replace (lookup (lit "closed_at") (genericOf fs)) with VUndefined by (symmetry; gone).
    rewrite dateLine_if_truthy. reflexivity.
Qed.

Lemma getIssue_prints_the_login_unless_cleaning_fails_witness :
  GithubTsAnswers.getIssue sampleHost
    (fun _ => Normal {| GithubTs.data := VObj oddIssue |}) (lit "a") (lit "b") 3
  = Normal (GithubTs.textResult
              (lit "议题 #3: Crash" ++ nl ++ lit "状态: 关闭" ++ nl
               ++ lit "创建者: [object Object]" ++ nl
               ++ lit "链接: https://github.com/a/b/issues/3" ++ nl)).
Proof.
  rewrite (getIssue_prints_the_login_unless_cleaning_fails sampleHost _ (lit "a") (lit "b") 3
             oddIssue eq_refl).
  vm_compute. reflexivity.
Defined.

(** ** [listFollowingUserRepos] *)

Lemma clean_repositories (records : list object) :
  GithubTs.cleanGitHubResponse (VArr (map VObj records)) (lit "repository")
  = VArr (map (fun fs => VObj (repositoryOf fs)) records).
Proof.
  unfold GithubTs.cleanGitHubResponse. rewrite cleaning_repository. cbn [GithubTs.eachOrOne].
  assert (E : mapM GithubTs.cleanRepository (map VObj records)
              = Normal (map (fun fs => VObj (repositoryOf fs)) records)).
  { induction records as [|fs rest IH]; [reflexivity|].
    cbn [map mapM]. rewrite cleanRepository_eq, IH. reflexivity. }
  rewrite E. reflexivity.
Qed.

Lemma collect_marked repos_listForUser (username : jsstring) (perPage : Z)
    (reposOf : value -> list object) (users : list object) (acc : list value) :
  (forall u, In u users ->
     repos_listForUser [ (lit "username", lookup (lit "login") u); (lit "per_page", VNum perPage) ]
     = Normal {| GithubTs.data := VArr (map VObj (reposOf (lookup (lit "login") u))) |}) ->
  GithubTsFollowed.collect repos_listForUser username perPage (map VObj users) acc
  = Normal (acc ++ markedRepositories username reposOf users).
Proof.
  revert acc. induction users as [|u rest IH]; intros acc H.
  - cbn. now rewrite app_nil_r.
  - cbn [map GithubTsFollowed.collect get bind]. rewrite (H u) by now left.
    cbn [bind GithubTs.data]. rewrite clean_repositories, map_map.
    rewrite IH by (intros v Hv; apply H; now right).
    unfold markedRepositories. cbn [flat_map]. now rewrite app_assoc.
Qed.

Lemma forEachFrom_In {A} (entry : nat -> value -> completion (list A)) (items : list value)
    (index : nat) (pieces : list A) (x : value) :
  GithubTs.forEachFrom entry index items = Normal pieces -> In x items ->
  exists j p, entry j x = Normal p /\ incl p pieces.
Proof.
  revert index pieces. induction items as [|y rest IH]; intros index pieces E Hx; [destruct Hx|].
  cbn [GithubTs.forEachFrom] in E.
  apply bind_Normal in E as (p & Ep & E). apply bind_Normal in E as (more & Em & E).
  injection E as <-. destruct Hx as [<- | Hx].
  - exists index, p. split; [exact Ep | apply incl_appl, incl_refl].
  - destruct (IH (S index) more Em Hx) as (j & q & Eq & Hq).
    exists j, q. split; [exact Eq | apply incl_appr, Hq].
Qed.

Lemma marked_topics (username : jsstring) (login : value) (fs : object) :
  topicsTyped (lookup (lit "topics") fs) = true ->
  topicsTyped
    (lookup (lit "topics")
       (assign (lit "belongsTo") login
          (assign (lit "followedByUser") (VStr username) (repositoryOf fs)))) = true.
Proof.
  intros T.
  rewrite !lookup_assign_other by (apply str_eqb_neq; vm_compute; reflexivity).
  unfold repositoryOf.
  rewrite lookup_putTruthy, lookup_putDefined, lookup_putTruthy, lookup_putDefined,
    lookup_putTruthy. eval_keys. rewrite !andb_false_r, andb_true_r.
  destruct (truthy (lookup (lit "topics") fs)); [exact T|].
  replace (lookup (lit "topics") (genericOf fs)) with VUndefined by (symmetry; gone).
  reflexivity.
Qed.

(** X25.  [listFollowingUserRepos] asks for the repositories of each followed
    user in the order of the list, cleans them as repositories and prints
    them in one listing; when none of the users has a repository the text
    says so.  Every repository printed carries the line of its owner, which
    is the login of the followed user it was asked for, and the count line
    gives the number of repositories over all the users. *)
Theorem listFollowingUserRepos_names_the_owner (host : Host)
    (users_listFollowingForUser repos_listForUser : object -> completion GithubTs.response)
    (username : jsstring) (perPage : option Z) (users : list object)
    (reposOf : value -> list object) :
  users <> [] ->
  users_listFollowingForUser
    [ (lit "username", VStr username);
      (lit "per_page", VNum (match perPage with Some n => n | None => 30%Z end)) ]
  = Normal {| GithubTs.data := VArr (map VObj users) |} ->
  (forall u, In u users ->
     repos_listForUser
       [ (lit "username", lookup (lit "login") u);
         (lit "per_page", VNum (match perPage with Some n => n | None => 30%Z end)) ]
     = Normal {| GithubTs.data := VArr (map VObj (reposOf (lookup (lit "login") u))) |}) ->
  let all := markedRepositories username reposOf users in
  GithubTsFollowed.listFollowingUserRepos host users_listFollowingForUser repos_listForUser
    username perPage
  = Normal (GithubTs.textResult
              match all with
              | [] => lit "未能查询到任何仓库。"
              | _ => GithubTs.formatForHumans host (VArr all) (lit "repository")
              end) /\
  List.length all
  = list_sum (map (fun u => List.length (reposOf (lookup (lit "login") u))) users) /\
  (all <> [] ->
   (forall u fs, In u users -> In fs (reposOf (lookup (lit "login") u)) ->
                 topicsTyped (lookup (lit "topics") fs) = true) ->
   exists pieces,
     GithubTs.formatForHumans host (VArr all) (lit "repository")
     = countLine (lit "repository") all ++ List.concat pieces /\
     (forall u, In u users -> reposOf (lookup (lit "login") u) <> [] ->
                truthy (lookup (lit "login") u) = true ->
                In (lit "   仓库所有者: " ++ toStr (lookup (lit "login") u) ++ nl) pieces)).
Proof.
  intros Hne Hf Hr all. split; [|split].
  - unfold GithubTsFollowed.listFollowingUserRepos. rewrite Hf.
    cbn [bind GithubTs.data truthy]. rewrite length_property. cbn [bind].
    assert (Z : GithubTsTools.isZero (VNum (Z.of_nat (List.length (map VObj users)))) = false).
    { destruct users; [congruence | reflexivity]. }
    rewrite Z. cbn [GithubTsFollowed.iterated bind].
    rewrite (collect_marked _ username _ reposOf users [] Hr). cbn [app bind].
    unfold all. destruct (markedRepositories username reposOf users); reflexivity.
  - unfold all, markedRepositories. clear. induction users as [|u rest IH]; [reflexivity|].
    cbn [flat_map map list_sum]. rewrite length_app, length_map, IH. reflexivity.
  - intros Hall Ht.
    assert (P : forallb (printable (lit "repository")) all = true).
    { apply forallb_forall. intros x Hx. unfold all, markedRepositories in Hx.
      apply in_flat_map in Hx as (u & Hu & Hx). apply in_map_iff in Hx as (fs & <- & Hfs).
      unfold printable, GithubTsFollowed.marked. cbn [nullish negb andb].
      change (topicsTyped (lookup (lit "topics")
                (assign (lit "belongsTo") (lookup (lit "login") u)
                   (assign (lit "followedByUser") (VStr username) (repositoryOf fs)))) = true).
      apply marked_topics, (Ht u fs Hu Hfs). }
    destruct (forEachFrom_total (GithubTs.repositoryEntry host) (printable (lit "repository")) all)
      with (index := 0) as [pieces E];
      [intros i x Px; apply repositoryEntry_total, Px | exact P |].
    exists pieces. split.
    + unfold GithubTs.formatForHumans. rewrite formatting_repository. unfold GithubTs.listing.
      destruct all as [|x rest]; [congruence|]. rewrite E. reflexivity.
    + intros u Hu Hrepos Hl.
      destruct (reposOf (lookup (lit "login") u)) as [|fs more] eqn:Er; [congruence|].
      assert (Hx : In (GithubTsFollowed.marked username (lookup (lit "login") u)
                         (VObj (repositoryOf fs))) all).
      { unfold all, markedRepositories. apply in_flat_map. exists u. split; [exact Hu|].
        rewrite Er. now left. }
      destruct (forEachFrom_In _ _ _ _ _ E Hx) as (j & p & Ep & Hp).
      apply Hp. unfold GithubTsFollowed.marked in Ep. cbn [GithubTsFollowed.spread] in Ep.
      destruct (repositoryEntry_pieces host j _
                  (marked_topics username (lookup (lit "login") u) fs
                     (Ht u fs Hu ltac:(rewrite Er; now left))))
        as (tags & _ & _ & Eq).
      rewrite Ep in Eq.
      apply (f_equal (fun c => match c with Normal a => a | Throw _ => [] end)) in Eq.
      cbv beta iota in Eq. subst p.
      rewrite lookup_assign_same, (line_truthy _ _ Hl).
      do 5 (apply in_or_app; right). apply in_or_app; left. now left.
Qed.

Lemma listFollowingUserRepos_names_the_owner_witness :
  GithubTsFollowed.listFollowingUserRepos sampleHost
    (fun _ => Normal {| GithubTs.data := VArr [VObj octocat] |})
    (fun params => Normal {| GithubTs.data :=
                               VArr (map VObj (octocatRepos (lookup (lit "username") params))) |})
    (lit "me") None
  = Normal (GithubTs.textResult
              (lit "找到 1 个仓库:" ++ nl ++ nl
               ++ lit "1. octocat/hello" ++ nl
               ++ lit "   链接: https://github.com/octocat/hello" ++ nl
               ++ lit "   星标数: 5" ++ nl
               ++ lit "   仓库所有者: octocat" ++ nl
               ++ lit "   更新于: Invalid Date" ++ nl ++ nl)).
Proof.
  destruct (listFollowingUserRepos_names_the_owner sampleHost
              (fun _ => Normal {| GithubTs.data := VArr [VObj octocat] |})
              (fun params => Normal {| GithubTs.data :=
                 VArr (map VObj (octocatRepos (lookup (lit "username") params))) |})
              (lit "me") None [octocat] octocatRepos) as (R & _ & _).
  - discriminate.
  - reflexivity.
  - intros u [<-|[]]. reflexivity.
  - rewrite R. vm_compute. reflexivity.
Defined.
(** ** The formatter on arrays *)

Lemma forEachFrom_entries {A} (entry : nat -> value -> completion (list A))
    (items : list value) (index : nat) (pieces : list A) :
  GithubTs.forEachFrom entry index items = Normal pieces ->
  exists entries,
    pieces = List.concat entries /\
    List.length entries = List.length items /\
    forall i x, nth_error items i = Some x ->
                exists e, nth_error entries i = Some e /\ entry (index + i) x = Normal e.
Proof.
  revert index pieces. induction items as [|y rest IH]; intros index pieces E.
  - injection E as <-. exists []. repeat split. intros [|i] x H; discriminate.
  - cbn [GithubTs.forEachFrom] in E.
    apply bind_Normal in E as (p & Ep & E). apply bind_Normal in E as (more & Em & E).
    injection E as <-. destruct (IH (S index) more Em) as (entries & -> & L & H).
    exists (p :: entries). split; [reflexivity|]. split; [cbn [List.length]; now rewrite L|].
    intros [|i] x Hx.
    + injection Hx as <-. exists p. split; [reflexivity|]. now rewrite Nat.add_0_r.
    + destruct (H i x Hx) as (e & He & Ee). exists e. split; [exact He|].
      now rewrite Nat.add_succ_r.
Qed.

Lemma forEachFrom_objects {A} (entry : nat -> value -> completion (list A))
    (Q : object -> Prop) (P : object -> list A -> Prop) (records : list object) :
  (forall i r, Q r -> exists e, entry i (VObj r) = Normal e /\ P r e) ->
  Forall Q records ->
  forall index,
  exists entries,
    GithubTs.forEachFrom entry index (map VObj records) = Normal (List.concat entries) /\
    Forall2 P records entries /\
    forall i r, nth_error records i = Some r ->
                exists e, nth_error entries i = Some e /\ entry (index + i) (VObj r) = Normal e.
Proof.
  intros He. induction 1 as [|r rest Hr _ IH]; intros index.
  - exists []. split; [reflexivity|]. split; [constructor|]. intros [|i] r H; discriminate.
  - destruct (He index r Hr) as (e & Ee & Pe).
    destruct (IH (S index)) as (entries & E & F & H).
    exists (e :: entries). cbn [map GithubTs.forEachFrom]. rewrite Ee, E.
    split; [reflexivity|]. split; [now constructor|].
    intros [|i] x Hx.
    + injection Hx as <-. exists e. split; [reflexivity|]. now rewrite Nat.add_0_r.
    + destruct (H i x Hx) as (e' & He' & Ee'). exists e'. split; [exact He'|].
      now rewrite Nat.add_succ_r.
Qed.

Lemma nth_error_mapped {A B} (f : A -> B) (l : list A) (i : nat) (x : B) :
  nth_error (map f l) i = Some x -> exists r, nth_error l i = Some r /\ x = f r.
Proof.
  revert i. induction l as [|a l IH]; intros [|i] H; try discriminate H.
  - injection H as <-. exists a. split; reflexivity.
  - apply (IH i H).
Qed.

Lemma entriesOf_objects {A} (entry : nat -> value -> completion (list A))
    (P : object -> list A -> Prop) (records : list object) (entries : list (list A)) :
  Forall2 P records entries ->
  (forall i r, nth_error records i = Some r ->
               exists e, nth_error entries i = Some e /\ entry i (VObj r) = Normal e) ->
  entriesOf entry (map VObj records) entries.
Proof.
  intros F H. split.
  - rewrite length_map. symmetry. exact (Forall2_length F).
  - intros i x Hx. destruct (nth_error_mapped VObj records i x Hx) as (r & Er & ->).
    exact (H i r Er).
Qed.

Lemma forEachFrom_breaks {A} (entry : nat -> value -> completion (list A))
    (Q : object -> Prop) (records : list object) :
  (forall i r, Q r -> exists m, entry i (VObj r) = Throw m) ->
  Exists Q records ->
  forall index, exists m, GithubTs.forEachFrom entry index (map VObj records) = Throw m.
Proof.
  intros He. induction 1 as [r rest Hr | r rest _ IH]; intros index;
    cbn [map GithubTs.forEachFrom].
  - destruct (He index r Hr) as (m & ->). eexists; reflexivity.
  - destruct (entry index (VObj r)) as [p|m]; cbn [bind]; [|eexists; reflexivity].
    destruct (IH (S index)) as (m & ->). eexists; reflexivity.
Qed.

(** ** The lines of a repository, whatever [topics] is *)

Lemma topicsLine_unbroken (host : Host) (x label : string) (topics : value) :
  topicsBreak host topics = false ->
  exists tags,
    GithubTs.topicsLine host x label topics = Normal tags /\
    (truthy topics = false -> tags = []) /\
    (tags = [] \/ exists items, tags = [lit label ++ arrayJoin (lit ", ") items ++ nl]).
Proof.
  unfold topicsBreak, GithubTs.topicsLine. intros B.
  destruct (truthy topics) eqn:T; [|exists []; repeat split; now left].
  rewrite (propOf_get _ _ (truthy_not_nullish _ T)). cbn [bind andb] in *.
  destruct (above host (propOf topics "length") 0); [|exists []; repeat split; now left].
  destruct topics; try discriminate.
  eexists. split; [reflexivity|]. split; [discriminate|]. right. eexists; reflexivity.
Qed.

Lemma topicsLine_broken (host : Host) (x label : string) (topics : value) :
  topicsBreak host topics = true ->
  exists m, GithubTs.topicsLine host x label topics = Throw m.
Proof.
  unfold topicsBreak, GithubTs.topicsLine. intros B.
  apply andb_true_iff in B as [B N]. apply andb_true_iff in B as [T A].
  rewrite T, (propOf_get _ _ (truthy_not_nullish _ T)). cbn [bind]. rewrite A.
  destruct topics; try discriminate; eexists; reflexivity.
Qed.

Lemma repositoryDetails_unbroken (host : Host) (fs : object) :
  topicsBreak host (lookup (lit "topics") fs) = false ->
  exists tags,
    (truthy (lookup (lit "topics") fs) = false -> tags = []) /\
    (tags = [] \/ exists items, tags = [lit "主题标签: " ++ arrayJoin (lit ", ") items ++ nl]) /\
    GithubTs.repositoryDetails host (VObj fs)
    = Normal ([lit "仓库: " ++ toStr (orElse (lookup (lit "full_name") fs)
                                            (lookup (lit "name") fs)) ++ nl]
              ++ GithubTs.line "描述: " (lookup (lit "description") fs)
              ++ [lit "链接: " ++ toStr (lookup (lit "html_url") fs) ++ nl]
              ++ GithubTs.line "主要语言: " (lookup (lit "language") fs)
              ++ GithubTs.line "星标数: " (lookup (lit "stars") fs)
              ++ tags
              ++ [lit "更新于: " ++ GithubTs.dateText host (lookup (lit "updated_at") fs) ++ nl]).
Proof.
  intros B. destruct (topicsLine_unbroken host "data" "主题标签: " _ B) as (tags & E & Hf & Hs).
  exists tags. split; [exact Hf|]. split; [exact Hs|].
  unfold GithubTs.repositoryDetails. cbn [get bind]. rewrite E. reflexivity.
Qed.

Lemma repositoryEntry_unbroken (host : Host) (index : nat) (fs : object) :
  topicsBreak host (lookup (lit "topics") fs) = false ->
  exists tags,
    (truthy (lookup (lit "topics") fs) = false -> tags = []) /\
    (tags = [] \/ exists items, tags = [lit "   主题标签: " ++ arrayJoin (lit ", ") items ++ nl]) /\
    GithubTs.repositoryEntry host index (VObj fs)
    = Normal ([GithubTs.ordinal index ++ lit ". "
                 ++ toStr (orElse (lookup (lit "full_name") fs) (lookup (lit "name") fs)) ++ nl]
              ++ GithubTs.line "   描述: " (lookup (lit "description") fs)
              ++ [lit "   链接: " ++ toStr (lookup (lit "html_url") fs) ++ nl]
              ++ GithubTs.line "   主要语言: " (lookup (lit "language") fs)
              ++ GithubTs.line "   星标数: " (lookup (lit "stars") fs)
              ++ GithubTs.line "   仓库所有者: " (lookup (lit "belongsTo") fs)
              ++ tags
              ++ [lit "   更新于: " ++ GithubTs.dateText host (lookup (lit "updated_at") fs)
                    ++ nl ++ nl]).
Proof.
  intros B. destruct (topicsLine_unbroken host "repo" "   主题标签: " _ B) as (tags & E & Hf & Hs).
  exists tags. split; [exact Hf|]. split; [exact Hs|].
  unfold GithubTs.repositoryEntry. cbn [get bind]. rewrite E. reflexivity.
Qed.

Lemma repository_broken (host : Host) (index : nat) (fs : object) :
  topicsBreak host (lookup (lit "topics") fs) = true ->
  (exists m, GithubTs.repositoryDetails host (VObj fs) = Throw m) /\
  (exists m, GithubTs.repositoryEntry host index (VObj fs) = Throw m).
Proof.
  intros B. split.
  - destruct (topicsLine_broken host "data" "主题标签: " _ B) as (m & E).
    unfold GithubTs.repositoryDetails. cbn [get bind]. rewrite E. eexists; reflexivity.
  - destruct (topicsLine_broken host "repo" "   主题标签: " _ B) as (m & E).
    unfold GithubTs.repositoryEntry. cbn [get bind]. rewrite E. eexists; reflexivity.
Qed.

(** The piece of a line among the pieces of an entry. *)
Ltac find_piece :=
  first
    [ apply in_or_app; left;
      try (rewrite line_truthy by assumption);
      try (rewrite dateLine_truthy by assumption);
      now left
    | apply in_or_app; right; find_piece
    | now left ].

(** A line printed exactly when its value is truthy. *)
Ltac line_rule :=
  split;
  [ split;
    [ let L := fresh "L" in
      intros L;
      match goal with
      | |- truthy ?v = true =>
        let F := fresh "F" in
        destruct (truthy v) eqn:F; [reflexivity|];
        exfalso; revert L; apply unlabelled_not_labelled; unlabel
      end
    | let F := fresh "F" in
      intros F; eexists; eexists; (split; [|reflexivity]); find_piece ]
  | let F := fresh "F" in intros F; find_piece ].

Lemma repositoryDetails_rule (host : Host) (fs : object) :
  topicsBreak host (lookup (lit "topics") fs) = false ->
  exists pieces,
    GithubTs.repositoryDetails host (VObj fs) = Normal pieces /\
    repositoryRule EmptyString fs pieces /\
    In (lit "更新于: " ++ GithubTs.dateText host (lookup (lit "updated_at") fs) ++ nl) pieces.
Proof.
  intros B. destruct (repositoryDetails_unbroken host fs B) as (tags & Hf & Hs & E).
  eexists. split; [exact E|]. split.
  - unfold repositoryRule, lineRule. cbn [String.append].
    split; [line_rule|]. split; [line_rule|]. split; [line_rule|].
    intros F. pose proof (Hf F) as Ht. apply unlabelled_not_labelled. unlabel.
  - do 6 (apply in_or_app; right). now left.
Qed.

Lemma repositoryEntry_rule (host : Host) (index : nat) (fs : object) :
  topicsBreak host (lookup (lit "topics") fs) = false ->
  exists pieces,
    GithubTs.repositoryEntry host index (VObj fs) = Normal pieces /\
    numbered index pieces /\
    repositoryRule "   " fs pieces /\
    In (lit "   更新于: " ++ GithubTs.dateText host (lookup (lit "updated_at") fs) ++ nl ++ nl)
       pieces.
Proof.
  intros B. destruct (repositoryEntry_unbroken host index fs B) as (tags & Hf & Hs & E).
  eexists. split; [exact E|]. split; [|split].
  - eexists. eexists. reflexivity.
  - unfold repositoryRule, lineRule. cbn [String.append].
    split; [line_rule|]. split; [line_rule|]. split; [line_rule|].
    intros F. pose proof (Hf F) as Ht. apply unlabelled_not_labelled. unlabel.
  - do 7 (apply in_or_app; right). now left.
Qed.

(** ** The dates of a pull request and of an issue *)

Lemma pullRequestDetails_dates (host : Host) (fs : object) :
  exists pieces,
    GithubTs.pullRequestDetails host (VObj fs) = Normal pieces /\
    pullRequestDates host EmptyString fs pieces.
Proof.
  eexists. unfold GithubTs.pullRequestDetails. cbn [get bind]. split; [reflexivity|].
  unfold pullRequestDates, dateRule. cbn [String.append]. split; line_rule.
Qed.

Lemma pullRequestEntry_dates (host : Host) (index : nat) (fs : object) :
  exists pieces,
    GithubTs.pullRequestEntry host index (VObj fs) = Normal pieces /\
    numbered index pieces /\
    pullRequestDates host "   " fs pieces.
Proof.
  eexists. unfold GithubTs.pullRequestEntry. cbn [get bind]. split; [reflexivity|].
  split; [eexists; eexists; reflexivity|].
  unfold pullRequestDates, dateRule. cbn [String.append]. split; line_rule.
Qed.

Lemma issueDetails_dates (host : Host) (fs : object) :
  exists pieces,
    GithubTs.issueDetails host (VObj fs) = Normal pieces /\
    issueDates host EmptyString fs pieces.
Proof.
  eexists. unfold GithubTs.issueDetails. cbn [get bind]. split; [reflexivity|].
  unfold issueDates, dateRule. cbn [String.append]. split; line_rule.
Qed.

Lemma issueEntry_dates (host : Host) (index : nat) (fs : object) :
  exists pieces,
    GithubTs.issueEntry host index (VObj fs) = Normal pieces /\
    numbered index pieces /\
    issueDates host "   " fs pieces.
Proof.
  eexists. unfold GithubTs.issueEntry. cbn [get bind]. split; [reflexivity|].
  split; [eexists; eexists; reflexivity|].
  unfold issueDates, dateRule. cbn [String.append]. split; line_rule.
Qed.

(** ** A non-empty array of objects of one of the kinds *)

Lemma listing_rule (none unit : string) entry details (type : jsstring)
    (Q : object -> Prop) (P : object -> list jsstring -> Prop) (records : list object) :
  records <> [] -> lit unit = counted type ->
  (forall i r, Q r -> exists e, entry i (VObj r) = Normal e /\ P r e) ->
  Forall Q records ->
  exists entries,
    GithubTs.listing none unit entry details (VArr (map VObj records))
    = Normal (countLine type (map VObj records) :: List.concat entries) /\
    entriesOf entry (map VObj records) entries /\
    Forall2 P records entries.
Proof.
  intros Hne Hu He Hq.
  destruct (forEachFrom_objects entry Q P records He Hq 0) as (entries & E & F & H).
  exists entries. split; [|split; [exact (entriesOf_objects entry P records entries F H) | exact F]].
  unfold GithubTs.listing. destruct records as [|r rest]; [congruence|].
  cbn [map] in *. rewrite E. cbn [bind]. unfold countLine. rewrite Hu. reflexivity.
Qed.

Lemma listing_objects_break (none unit : string) entry details (records : list object) :
  (exists m, GithubTs.forEachFrom entry 0 (map VObj records) = Throw m) ->
  records <> [] ->
  exists m, GithubTs.listing none unit entry details (VArr (map VObj records)) = Throw m.
Proof.
  intros (m & E) Hne. unfold GithubTs.listing. destruct records as [|r rest]; [congruence|].
  cbn [map] in *. rewrite E. eexists; reflexivity.
Qed.

Lemma listing_entries (none unit : string) entry details (type : jsstring)
    (items : list value) :
  items <> [] -> lit unit = counted type ->
  (forall i x, printable type x = true -> exists p, entry i x = Normal p) ->
  forallb (printable type) items = true ->
  exists entries,
    GithubTs.listing none unit entry details (VArr items)
    = Normal (countLine type items :: List.concat entries) /\
    entriesOf entry items entries.
Proof.
  intros Hne Hu He Hp.
  destruct (forEachFrom_total entry (printable type) items He Hp 0) as [pieces E].
  destruct (forEachFrom_entries entry items 0 pieces E) as (entries & -> & L & H).
  exists entries. split; [|split; [exact L | exact H]].
  unfold GithubTs.listing. destruct items as [|x rest]; [congruence|].
  rewrite E. cbn [bind]. unfold countLine. rewrite Hu. reflexivity.
Qed.

(** ** [clone_url] and the pieces of a repository *)

Lemma repositoryEntry_ignores_clone_url (host : Host) (index : nat) (fs : object) (v : value) :
  GithubTs.repositoryEntry host index (VObj (assign (lit "clone_url") v fs))
  = GithubTs.repositoryEntry host index (VObj fs).
Proof.
  unfold GithubTs.repositoryEntry. cbn [get bind].
  rewrite !lookup_assign_other by (apply str_eqb_neq; reflexivity).
  reflexivity.
Qed.

Lemma forEachFrom_ignores_clone_url (host : Host) (v : value) (records : list object) :
  forall index,
    GithubTs.forEachFrom (GithubTs.repositoryEntry host) index
      (map VObj (map (assign (lit "clone_url") v) records))
    = GithubTs.forEachFrom (GithubTs.repositoryEntry host) index (map VObj records).
Proof.
  induction records as [|r rest IH]; intros index; [reflexivity|].
  cbn [map GithubTs.forEachFrom]. now rewrite repositoryEntry_ignores_clone_url, IH.
Qed.

Lemma listing_ignores_clone_url (host : Host) (v : value) (records : list object) :
  GithubTs.formatting host (VArr (map VObj (map (assign (lit "clone_url") v) records)))
    (lit "repository")
  = GithubTs.formatting host (VArr (map VObj records)) (lit "repository").
Proof.
  rewrite !formatting_repository. destruct records as [|r rest]; [reflexivity|].
  pose proof (forEachFrom_ignores_clone_url host v (r :: rest) 0) as E.
  cbn [map] in *. cbn [GithubTs.listing]. rewrite E.
  cbn [List.length]. now rewrite !length_map.
Qed.

(** ** The handlers *)

Lemma clean_issue_object (fs : object) :
  exists out, GithubTs.cleanGitHubResponse (VObj fs) (lit "issue") = VObj out.
Proof.
  unfold GithubTs.cleanGitHubResponse. rewrite cleaning_issue. cbn [GithubTs.eachOrOne].
  destruct (holdsNullish (lookup (lit "labels") fs) || holdsNullish (lookup (lit "assignees") fs))
    eqn:H.
  - destruct (cleanIssue_throws fs H) as (m & ->). exists fs. reflexivity.
  - rewrite (cleanIssue_eq fs H). eexists. reflexivity.
Qed.

Lemma clean_pull_request_object (fs : object) :
  exists out, GithubTs.cleanGitHubResponse (VObj fs) (lit "pull_request") = VObj out.
Proof.
  unfold GithubTs.cleanGitHubResponse.
  change (GithubTs.cleaning (VObj fs) (lit "pull_request"))
    with (GithubTs.cleanPullRequest (VObj fs)).
  rewrite cleanPullRequest_eq. eexists. reflexivity.
Qed.

Lemma commenter_object (c : object) : exists u, GithubTs.commenter (VObj c) = Normal u.
Proof.
  unfold GithubTs.commenter. cbn [get bind].
  destruct (lookup (lit "user") c) eqn:U; cbn [get bind]; eexists; reflexivity.
Qed.

Lemma commentRecord_object (c : object) :
  exists r, GithubTs.commentRecord (VObj c) = Normal (VObj r).
Proof.
  unfold GithubTs.commentRecord. destruct (commenter_object c) as (u & ->).
  cbn [get bind]. eexists. reflexivity.
Qed.

Lemma issueCommentRecord_object (c : object) :
  exists r, GithubTsServer.issueCommentRecord (VObj c) = Normal (VObj r).
Proof.
  unfold GithubTsServer.issueCommentRecord. destruct (commenter_object c) as (u & ->).
  cbn [get bind]. eexists. reflexivity.
Qed.

Lemma reviewCommentRecord_object (c : object) :
  exists r, GithubTsServer.reviewCommentRecord (VObj c) = Normal (VObj r).
Proof.
  unfold GithubTsServer.reviewCommentRecord. destruct (commenter_object c) as (u & ->).
  cbn [get bind]. eexists. reflexivity.
Qed.

Lemma mapM_objects (f : value -> completion value) (comments : list object) :
  (forall c, exists r, f (VObj c) = Normal (VObj r)) ->
  exists records,
    mapM f (map VObj comments) = Normal (map VObj records) /\
    List.length records = List.length comments.
Proof.
  intros Hf. induction comments as [|c rest (records & E & L)].
  - exists []. split; reflexivity.
  - destruct (Hf c) as (r & Er). exists (r :: records).
    cbn [map mapM]. rewrite Er, E. cbn [bind List.length]. now rewrite L.
Qed.

Lemma commentBlock_total (host : Host) (i : nat) (x : value) :
  isObject x = true -> exists b, GithubTs.commentBlock host i x = Normal b.
Proof.
  destruct x; try discriminate. intros _. unfold GithubTs.commentBlock. cbn [get bind].
  eexists. reflexivity.
Qed.

Lemma pullCommentBlock_total (host : Host) (i : nat) (x : value) :
  isObject x = true -> exists b, GithubTsServer.pullCommentBlock host i x = Normal b.
Proof.
  destruct x as [| | | | | |fs]; try discriminate. intros _.
  unfold GithubTsServer.pullCommentBlock. cbn [get bind GithubTsTools.hasProperty].
  destruct (strictEqStr (lookup (lit "type") fs) (lit "review_comment")); cbn [bind];
    [|eexists; reflexivity].
  destruct (has_key (lit "path") fs); cbn [bind]; [|eexists; reflexivity].
  destruct (truthy (lookup (lit "path") fs)); cbn [bind]; [|eexists; reflexivity].
  destruct (has_key (lit "line") fs); cbn [bind]; eexists; reflexivity.
Qed.

Lemma objects_are_objects (records : list object) : forallb isObject (map VObj records) = true.
Proof. induction records as [|r rest IH]; [reflexivity | exact IH]. Qed.

Lemma forallb_permuted {A} (P : A -> bool) (l l' : list A) :
  Permutation l' l -> forallb P l = true -> forallb P l' = true.
Proof.
  intros Hp H. apply forallb_forall. intros x Hx.
  rewrite forallb_forall in H. apply H. eapply Permutation_in; eassumption.
Qed.

Lemma pullHead_object (host : Host) (page : Z) (out : object) :
  exists head, GithubTsServer.pullHead host page (VObj out) = Normal head.
Proof. unfold GithubTsServer.pullHead. cbn [get bind]. eexists. reflexivity. Qed.

(** A non-empty array is truthy and its length is not 0. *)
Lemma nonempty_not_zero (x : value) (more : list value) :
  (len <- get (VArr (x :: more)) (lit "length") ;; Normal (GithubTsTools.isZero len))
  = Normal false.
Proof.
  rewrite length_property. cbn [bind GithubTsTools.isZero List.length].
  destruct (Z.eqb_spec (Z.of_nat (S (List.length more))) 0) as [E|_]; [lia | reflexivity].
Qed.

(** *** Counting that leaves the counts as they are *)

Lemma quiet_lift {A} (c : completion A) : quiet (GithubTsServer.lift c).
Proof. intros t. reflexivity. Qed.

Lemma quiet_pure {A} (a : A) : quiet (GithubTsServer.pure a).
Proof. intros t. reflexivity. Qed.

Lemma quiet_andThen {A B} (c : GithubTsServer.counting A) (k : A -> GithubTsServer.counting B) :
  quiet c -> (forall a, quiet (k a)) -> quiet (GithubTsServer.andThen c k).
Proof.
  intros Hc Hk t. unfold GithubTsServer.andThen. specialize (Hc t).
  destruct (c t) as [t' [a|m]]; cbn [fst] in *; subst t'; [apply Hk | reflexivity].
Qed.

Lemma quiet_failed {A B} (m : jsstring) (k : A -> GithubTsServer.counting B) :
  quiet (GithubTsServer.andThen (GithubTsServer.lift (Throw m)) k).
Proof. intros t. reflexivity. Qed.

Lemma quiet_forOf {A} (items : list A) (body : A -> GithubTsServer.counting unit) :
  (forall x, quiet (body x)) -> quiet (GithubTsServer.forOf items body).
Proof.
  intros Hb. induction items as [|x rest IH]; cbn [GithubTsServer.forOf].
  - apply quiet_pure.
  - apply quiet_andThen; [apply Hb | intros _; exact IH].
Qed.

(** X8.  For each of the four kinds, a non-empty array whose elements are all
    printable is printed on the normal path: the text opens with the count
    line, whose number is the length of the array, and goes on with the
    pieces of the entries, in the order of the array: one entry for each
    element, the entry at [i] being what the callback of the kind returns
    for index [i] and the element at [i]. *)
Theorem arrays_are_counted (host : Host) (items : list value) (type : jsstring) :
  In type fourKinds -> items <> [] -> forallb (printable type) items = true ->
  exists entries,
    GithubTs.formatting host (VArr items) type
    = Normal (countLine type items :: List.concat entries) /\
    GithubTs.formatForHumans host (VArr items) type
    = countLine type items ++ List.concat (List.concat entries) /\
    entriesOf (entryOf host type) items entries.
Proof.
  intros K Hne Hp.
  assert (F : exists entries,
             GithubTs.formatting host (VArr items) type
             = Normal (countLine type items :: List.concat entries) /\
             entriesOf (entryOf host type) items entries).
  { destruct K as [<-|[<-|[<-|[<-|[]]]]].
    - apply (listing_entries _ _ _ _ (lit "repository")); try assumption; [reflexivity|].
      intros i x P. apply repositoryEntry_total, P.
    - apply (listing_entries _ _ _ _ (lit "pull_request")); try assumption; [reflexivity|].
      intros i x P. apply (entries_total host i x (printable_not_nullish _ _ P)).
    - apply (listing_entries _ _ _ _ (lit "issue")); try assumption; [reflexivity|].
      intros i x P. apply (entries_total host i x (printable_not_nullish _ _ P)).
    - apply (listing_entries _ _ _ _ (lit "user")); try assumption; [reflexivity|].
      intros i x P. apply (entries_total host i x (printable_not_nullish _ _ P)). }
  destruct F as (entries & E & H). exists entries. split; [exact E|]. split; [|exact H].
  unfold GithubTs.formatForHumans. rewrite E. reflexivity.
Qed.

Lemma arrays_are_counted_witness :
  exists entries,
    GithubTs.formatForHumans sampleHost (VArr [VObj octocat; VObj octocat]) (lit "user")
    = lit "找到 2 个用户:" ++ nl ++ nl ++ List.concat (List.concat entries) /\
    entriesOf GithubTs.userEntry [VObj octocat; VObj octocat] entries.
Proof.
  destruct (arrays_are_counted sampleHost [VObj octocat; VObj octocat] (lit "user"))
    as (entries & _ & E & H).
  - right; right; right; left; reflexivity.
  - discriminate.
  - reflexivity.
  - exists entries. split; [rewrite E; reflexivity | exact H].
Defined.
(** ** C1: the names a cleaned record carries *)

Lemma lookup_generic_flattened (fs : object) (name : jsstring) :
  name = lit "owner" \/ name = lit "user" ->
  lookup name (genericOf fs)
  = if truthy (loginOf (lookup name fs)) then loginOf (lookup name fs) else VUndefined.
Proof.
  intros [-> | ->]; [|apply lookup_generic_user].
  unfold genericOf.
  rewrite lookup_flattenOf_other by (apply str_eqb_neq; vm_compute; reflexivity).
  unfold flattenOf.
  destruct (truthy (loginOf (lookup (lit "owner") fs))); [apply lookup_assign_same|].
  rewrite lookup_fold_keep.
  replace (existsb (str_eqb (lit "owner")) GithubTs.keysToKeep) with false
    by (vm_compute; reflexivity).
  reflexivity.
Qed.

Lemma part_000_cleaning_shared (host : Host) (data : value) (type : jsstring) :
  ~ In type ownCases -> Part000.cleaning host data type = GithubTs.cleaning data type.
Proof.
  intros H. unfold Part000.cleaning, GithubTs.cleaning.
  destruct (str_eqb type (lit "repository")); [reflexivity|].
  destruct (str_eqb type (lit "pull_request")); [reflexivity|].
  destruct (str_eqb type (lit "issue")); [reflexivity|].
  destruct (str_eqb type (lit "user")) eqn:U.
  { apply str_eqb_eq in U. subst. exfalso. apply H. now left. }
  destruct (str_eqb type (lit "comment")) eqn:C.
  { apply str_eqb_eq in C. subst. exfalso. apply H. right. now left. }
  destruct (str_eqb type (lit "comments")) eqn:Cs.
  { apply str_eqb_eq in Cs. subst. exfalso. apply H. right. right. now left. }
  reflexivity.
Qed.

Lemma keysWithin_nil (names : list jsstring) : keysWithin names [].
Proof. intros key H. discriminate. Qed.

Lemma keysWithin_cons (names : list jsstring) (k : jsstring) (v : value) (fs : object) :
  In k names -> keysWithin names fs -> keysWithin names ((k, v) :: fs).
Proof.
  intros Hk Hfs key H. unfold has_key in H. cbn [existsb fst] in H.
  apply orb_true_iff in H. destruct H as [H|H].
  - apply str_eqb_eq in H. now subst.
  - apply Hfs, H.
Qed.

Lemma cleanComment_keys (host : Host) (fs out : object) :
  Part000.cleanComment host (VObj fs) = Normal (VObj out) -> keysWithin commentKeys out.
Proof.
  unfold Part000.cleanComment. cbn [get bind]. intros H.
  apply bind_Normal in H as (c1 & E1 & H). apply bind_Normal in H as (c2 & E2 & H).
  injection H as <-.
  assert (K0 : keysWithin commentKeys
                 [ (lit "id", lookup (lit "id") fs);
                   (lit "created_at", lookup (lit "created_at") fs);
                   (lit "updated_at", lookup (lit "updated_at") fs);
                   (lit "html_url", lookup (lit "html_url") fs) ]).
  { repeat (apply keysWithin_cons; [member|]). apply keysWithin_nil. }
  assert (K1 : keysWithin commentKeys c1).
  { destruct (truthy (lookup (lit "body") fs)).
    - apply bind_Normal in E1 as (short & _ & E1). injection E1 as <-.
      repeat (apply keysWithin_cons; [member|]). apply keysWithin_nil.
    - injection E1 as <-. exact K0. }
  keys_by copyInner_keys. exact K1.
Qed.

(** C1, as amended.  On an object the generic step completes, and its result
    carries exactly: the names of [keysToKeep] (the seventeen from [id] to
    [sha]) whose value on the source is not [undefined], each with the
    source's value ([body] and [description] cut as [kept] says), never a
    default for an absent name; [owner] and [user] when the source holds
    there an object with a truthy [login], and then with that login as their
    value.  In [src/tools/github.ts], for every kind, the cleaned object
    carries no name outside [keysToKeep], [owner], [user] and the names the
    kind adds; only the kind [issue] can raise an exception on an object, and
    then the input comes back as it is.  [unnamed/part_000] does the same for
    every kind but the three it alone has a [case] for: of an object, [user]
    gives a text, [comment] gives a record of at most [id], [created_at],
    [updated_at], [html_url], [body] and [user], or the input when it raises
    an exception, and [comments] gives a text, or the input when it raises
    one. *)
Theorem generic_step_allow_list (host : Host) (fs : object) :
  exists result,
    GithubTs.removeExcessiveFields (VObj fs) = Normal result /\
    (forall key,
        has_key key result = true <->
        (In key GithubTs.keysToKeep /\ lookup key fs <> VUndefined)
        \/ (key = lit "owner" /\ truthy (loginOf (lookup (lit "owner") fs)) = true)
        \/ (key = lit "user" /\ truthy (loginOf (lookup (lit "user") fs)) = true)) /\
    (forall key, In key GithubTs.keysToKeep -> lookup key result = kept key (lookup key fs)) /\
    (forall name, name = lit "owner" \/ name = lit "user" ->
        truthy (loginOf (lookup name fs)) = true ->
        lookup name result = loginOf (lookup name fs)) /\
    (forall type,
        (exists out, GithubTs.cleanGitHubResponse (VObj fs) type = VObj out
                     /\ keysWithin (allowedKeys type) out)
        \/ (type = lit "issue"
            /\ (exists m, GithubTs.cleaning (VObj fs) type = Throw m)
            /\ GithubTs.cleanGitHubResponse (VObj fs) type = VObj fs)) /\
    (forall type, ~ In type ownCases ->
        Part000.cleaning host (VObj fs) type = GithubTs.cleaning (VObj fs) type /\
        Part000.cleanGitHubResponse host (VObj fs) type
        = GithubTs.cleanGitHubResponse (VObj fs) type) /\
    Part000.cleanGitHubResponse host (VObj fs) (lit "user")
    = VStr (List.concat
              ([lit "用户: " ++ toStr (orElse (lookup (lit "login") fs) (lookup (lit "name") fs))
                  ++ nl]
               ++ GithubTs.line "主页: " (lookup (lit "html_url") fs)
               ++ GithubTs.line "描述: " (lookup (lit "description") fs))) /\
    ((exists out, Part000.cleaning host (VObj fs) (lit "comment") = Normal (VObj out)
                  /\ Part000.cleanGitHubResponse host (VObj fs) (lit "comment") = VObj out
                  /\ keysWithin commentKeys out)
     \/ ((exists m, Part000.cleaning host (VObj fs) (lit "comment") = Throw m)
         /\ Part000.cleanGitHubResponse host (VObj fs) (lit "comment") = VObj fs)) /\
    ((exists text, Part000.cleaning host (VObj fs) (lit "comments") = Normal (VStr text)
                   /\ Part000.cleanGitHubResponse host (VObj fs) (lit "comments") = VStr text)
     \/ ((exists m, Part000.cleaning host (VObj fs) (lit "comments") = Throw m)
         /\ Part000.cleanGitHubResponse host (VObj fs) (lit "comments") = VObj fs)).
Proof.
  exists (genericOf fs). split; [apply removeExcessiveFields_object|].
  split; [|split; [|split; [|split; [|split; [|split; [|split]]]]]].
  - intros key. rewrite has_key_genericOf, !orb_true_iff, !andb_true_iff.
    rewrite <- In_existsb, negb_true_iff, isUndefined_false, !str_eqb_eq. tauto.
  - apply lookup_genericOf.
  - intros name Hn T. rewrite (lookup_generic_flattened fs name Hn), T. reflexivity.
  - intros type. unfold GithubTs.cleanGitHubResponse.
    destruct (GithubTs.cleaning (VObj fs) type) as [v|m] eqn:C.
    + left. assert (exists out, v = VObj out) as (out & ->).
      { revert C. unfold GithubTs.cleaning. cbn [GithubTs.eachOrOne].
        destruct (str_eqb type (lit "repository")).
        { destruct (cleanRepository_object fs) as (o & ->). intros H; inversion H; eauto. }
        destruct (str_eqb type (lit "pull_request")).
        { destruct (cleanPullRequest_object fs) as (o & ->). intros H; inversion H; eauto. }
        destruct (str_eqb type (lit "issue")).
        { apply cleanIssue_shape. }
        unfold GithubTs.cleanGeneric. rewrite removeExcessiveFields_object. cbn [bind].
        intros H; inversion H; eauto. }
      exists out. split; [reflexivity|]. exact (cleaning_object_keys fs out type C).
    + right. revert C. unfold GithubTs.cleaning. cbn [GithubTs.eachOrOne].
      destruct (str_eqb type (lit "repository")).
      { destruct (cleanRepository_object fs) as (o & ->). discriminate. }
      destruct (str_eqb type (lit "pull_request")).
      { destruct (cleanPullRequest_object fs) as (o & ->). discriminate. }
      destruct (str_eqb type (lit "issue")) eqn:E.
      { apply str_eqb_eq in E. subst. intros H. split; [reflexivity|]. split; eauto. }
      unfold GithubTs.cleanGeneric. rewrite removeExcessiveFields_object. cbn [bind]. discriminate.
  - intros type H. pose proof (part_000_cleaning_shared host (VObj fs) type H) as E.
    split; [exact E|]. unfold Part000.cleanGitHubResponse, GithubTs.cleanGitHubResponse.
    now rewrite E.
  - unfold Part000.cleanGitHubResponse. rewrite part_000_cleaning_user. reflexivity.
  - unfold Part000.cleanGitHubResponse. rewrite part_000_cleaning_comment.
    cbn [GithubTs.eachOrOne].
    destruct (Part000.cleanComment host (VObj fs)) as [v|m] eqn:C.
    + left. pose proof (cleanComment_shape host _ _ C) as S.
      destruct v; try discriminate. eexists. split; [reflexivity|]. split; [reflexivity|].
      apply (cleanComment_keys host fs _ C).
    + right. split; [eexists|]; reflexivity.
  - unfold Part000.cleanGitHubResponse.
    change (Part000.cleaning host (VObj fs) (lit "comments"))
      with (Part000.asText (Part000.commentsText host (VObj fs))).
    destruct (Part000.commentsText host (VObj fs)) as [ps|m]; cbn [Part000.asText bind].
    + left. eexists. split; reflexivity.
    + right. split; [eexists|]; reflexivity.
Qed.

Lemma generic_step_allow_list_witness :
  exists result,
    GithubTs.removeExcessiveFields (VObj ownedBranch) = Normal result /\
    has_key (lit "owner") result = true /\
    lookup (lit "owner") result = VStr (lit "octocat") /\
    has_key (lit "protected") result = false.
Proof.
  destruct (generic_step_allow_list sampleHost ownedBranch) as (result & H & Hkeys & _ & Ho & _).
  exists result. split; [exact H|]. split; [|split].
  - apply Hkeys. right. left. split; reflexivity.
  - apply (Ho (lit "owner")); [now left | reflexivity].
  - destruct (has_key (lit "protected") result) eqn:E; [|reflexivity].
    apply Hkeys in E. destruct E as [[E _]|[[E _]|[E _]]].
    + apply In_existsb in E. vm_compute in E. discriminate.
    + vm_compute in E. discriminate.
    + vm_compute in E. discriminate.
Defined.

(** C1 as stated fails on [src/tools/github.ts]: [protected] is in the fixed
    set of the specification and present on the source, yet the cleaned
    record of the untyped kind lacks it; [owner] is outside the set, the
    kind adds nothing, yet the cleaned record carries it. *)
Lemma allow_list_counterexample :
  In (lit "protected") specFixedSet /\
  lookup (lit "protected") protectedBranch = VBool true /\
  ~ In (lit "owner") specFixedSet /\
  augmentedKeys [] = [] /\
  GithubTs.cleanGitHubResponse (VObj protectedBranch) []
  = VObj [ (lit "owner", VStr (lit "octocat")) ].
Proof.
  split; [member|]. split; [reflexivity|]. split; [|split; reflexivity].
  intros H. apply In_existsb in H. vm_compute in H. discriminate.
Qed.
(** ** C3: long text *)

Lemma commentCut_intro (s : jsstring) (out : object) :
  has_key (lit "description") out = false ->
  (s <> [] -> lookup (lit "body") out = VStr (GithubTs.truncated 1000 s)) ->
  (s = [] -> has_key (lit "body") out = false) ->
  commentCut s out.
Proof.
  intros Hd Hb He. split; [exact Hd|]. split; [|split; [|exact He]].
  - intros H. rewrite Hb, truncated_long by (try assumption; intros ->; simpl in H; lia).
    reflexivity.
  - intros H Hne. rewrite (Hb Hne). now rewrite truncated_short.
Qed.

Lemma mapM_cleanComment (host : Host) (bodies : list (object * jsstring)) :
  Forall (fun c => lookup (lit "body") (fst c) = VStr (snd c)) bodies ->
  exists outs,
    mapM (Part000.cleanComment host) (map (fun c => VObj (fst c)) bodies)
    = Normal (map VObj outs) /\
    Forall2 (fun c out => commentCut (snd c) out) bodies outs.
Proof.
  induction 1 as [|[fs s] rest Hb _ (outs & E & F)].
  - exists []. split; [reflexivity | constructor].
  - cbn [fst snd] in Hb.
    destruct (cleanComment_body host fs s Hb) as (out & Ec & Hd & Hcut & He).
    exists (out :: outs). cbn [map mapM fst]. rewrite Ec, E. cbn [bind].
    split; [reflexivity|]. constructor; [|exact F].
    apply commentCut_intro; assumption.
Qed.

Lemma mapM_cleanGeneric_objects (records : list object) :
  mapM GithubTs.cleanGeneric (map VObj records)
  = Normal (map (fun fs => VObj (genericOf fs)) records).
Proof.
  induction records as [|fs rest IH]; [reflexivity|].
  cbn [map mapM]. unfold GithubTs.cleanGeneric at 1.
  rewrite removeExcessiveFields_object, IH. reflexivity.
Qed.

Lemma genericCut_kept (key : jsstring) (s : jsstring) :
  key = lit "body" \/ key = lit "description" -> genericCut s (kept key (VStr s)).
Proof.
  intros Hkey. unfold kept.
  assert (str_eqb key (lit "body") || str_eqb key (lit "description") = true) as ->.
  { destruct Hkey; subst; reflexivity. }
  split; intros H; [now rewrite truncated_long | now rewrite truncated_short].
Qed.

(** C3, as amended.  The generic step cuts a string [body] or [description]
    longer than 300 code units to its first 300 followed by ["..."] and
    passes a shorter one through unchanged, in a record alone and in each
    record of an array.  The kind [comment], which only [unnamed/part_000]
    has, keeps no [description]; it cuts a [body] longer than 1000 code units
    to its first 1000 followed by ["..."], passes a shorter non-empty one
    through, and leaves an empty one out; it does so for a comment alone and
    for each comment of an array, whose cleaned comments come back in the
    order of the input. *)
Theorem long_text_truncation (host : Host) (fs : object) (s : jsstring) :
  (forall key, key = lit "body" \/ key = lit "description" ->
     lookup key fs = VStr s ->
     exists result,
       GithubTs.removeExcessiveFields (VObj fs) = Normal result /\
       (300 < List.length s -> lookup key result = VStr (firstn 300 s ++ lit "...")) /\
       (List.length s <= 300 -> lookup key result = VStr s)) /\
  (forall key records,
     key = lit "body" \/ key = lit "description" ->
     exists outs,
       GithubTs.cleanGitHubResponse (VArr (map VObj records)) [] = VArr (map VObj outs) /\
       Forall2 (fun record out =>
                  forall text, lookup key record = VStr text ->
                               genericCut text (lookup key out))
               records outs) /\
  (lookup (lit "body") fs = VStr s ->
     exists out,
       Part000.cleanGitHubResponse host (VObj fs) (lit "comment") = VObj out /\
       has_key (lit "description") out = false /\
       (1000 < List.length s -> lookup (lit "body") out = VStr (firstn 1000 s ++ lit "...")) /\
       (List.length s <= 1000 -> s <> [] -> lookup (lit "body") out = VStr s) /\
       (s = [] -> has_key (lit "body") out = false)) /\
  (forall comments : list (object * jsstring),
     Forall (fun c => lookup (lit "body") (fst c) = VStr (snd c)) comments ->
     exists outs,
       Part000.cleanGitHubResponse host (VArr (map (fun c => VObj (fst c)) comments))
         (lit "comment")
       = VArr (map VObj outs) /\
       Forall2 (fun c out => commentCut (snd c) out) comments outs).
Proof.
  split; [|split; [|split]].
  - intros key Hkey Hs. exists (genericOf fs).
    split; [apply removeExcessiveFields_object|].
    assert (In key GithubTs.keysToKeep) as Hin by (destruct Hkey; subst; member).
    rewrite (lookup_genericOf fs key Hin), Hs. unfold kept.
    assert (str_eqb key (lit "body") || str_eqb key (lit "description") = true) as ->.
    { destruct Hkey; subst; reflexivity. }
    split; intros H; [now rewrite truncated_long | now rewrite truncated_short].
  - intros key records Hkey. exists (map genericOf records). split.
    + unfold GithubTs.cleanGitHubResponse.
      change (GithubTs.cleaning (VArr (map VObj records)) [])
        with (cleaned <- mapM GithubTs.cleanGeneric (map VObj records) ;;
              Normal (VArr cleaned)).
      rewrite mapM_cleanGeneric_objects, map_map. reflexivity.
    + assert (In key GithubTs.keysToKeep) as Hin by (destruct Hkey; subst; member).
      induction records as [|record rest IH]; constructor; [|exact IH].
      intros text Ht. rewrite (lookup_genericOf record key Hin), Ht.
      apply genericCut_kept, Hkey.
  - intros Hs. destruct (cleanComment_body host fs s Hs) as (out & E & Hd & Hb & He).
    exists out. split.
    { unfold Part000.cleanGitHubResponse. rewrite part_000_cleaning_comment.
      cbn [GithubTs.eachOrOne]. now rewrite E. }
    exact (commentCut_intro s out Hd Hb He).
  - intros comments Hc. destruct (mapM_cleanComment host comments Hc) as (outs & E & F).
    exists outs. split; [|exact F].
    unfold Part000.cleanGitHubResponse. rewrite part_000_cleaning_comment.
    cbn [GithubTs.eachOrOne]. rewrite E. reflexivity.
Qed.

Lemma long_text_truncation_witness :
  exists first second,
    Part000.cleanGitHubResponse sampleHost
      (VArr [ VObj (commentOf (lit "looks good to me")); VObj (commentOf (repeat 120%N 1001)) ])
      (lit "comment")
    = VArr [ VObj first; VObj second ] /\
    lookup (lit "body") first = VStr (lit "looks good to me") /\
    lookup (lit "body") second = VStr (repeat 120%N 1000 ++ lit "...") /\
    has_key (lit "description") second = false.
Proof.
  destruct (long_text_truncation sampleHost [] []) as (_ & _ & _ & H).
  destruct (H [ (commentOf (lit "looks good to me"), lit "looks good to me");
                (commentOf (repeat 120%N 1001), repeat 120%N 1001) ])
    as (outs & E & F).
  - repeat constructor.
  - inversion F as [|c1 first l1 l2 C1 F1]; subst.
    inversion F1 as [|c2 second l3 l4 C2 F2]; subst.
    inversion F2; subst.
    exists first, second. split; [exact E|].
    destruct C1 as (_ & _ & S1 & _). destruct C2 as (D2 & L2 & _).
    cbn [snd] in S1, L2. split; [|split].
    + apply S1; [vm_compute; lia | discriminate].
    + rewrite L2 by (vm_compute; lia). vm_compute. reflexivity.
    + exact D2.
Defined.

(** C3 as stated fails on the kind [comment] of [unnamed/part_000]: an empty
    [body] and a short [description] do not pass through, the cleaned comment
    has neither. *)
Lemma comment_text_counterexample :
  lookup (lit "body") blankComment = VStr [] /\
  lookup (lit "description") blankComment = VStr (lit "note") /\
  Part000.cleanGitHubResponse sampleHost (VObj blankComment) (lit "comment")
  = VObj [ (lit "id", VNum 1); (lit "created_at", VUndefined);
           (lit "updated_at", VUndefined); (lit "html_url", VUndefined) ].
Proof. repeat split; vm_compute; reflexivity. Qed.

(** ** The lines of a repository *)

(** C10, as amended.  [formatForHumans] of the kind [repository] prints a
    record on the normal path unless its [topics] is truthy, of a length
    above 0 and no array; it then returns the concatenation of its pieces,
    and for each of [stars], [description] and [language] a piece with the
    label of the property is among them if and only if the property is
    truthy, in which case the piece prints its value; no piece carries the
    label of the topics when [topics] is falsy.  On a non-empty array of such
    records the text is the count line followed by the entries, one for each
    record and made by the callback from its index and the record, and each
    entry obeys the same rule with the indented labels.  A record whose
    [topics] is truthy, of a length above 0 and no array, alone or anywhere
    in an array, and an element that is [null] or [undefined], turn the whole
    text into the JSON fallback, whatever [stars] is.  No piece is made from
    [clone_url]: the pieces of a record and of an array do not change with
    its value.  The formatter of the other copy is the same function. *)
Theorem repository_lines_follow_truthiness (host : Host) (fs : object)
    (records : list object) (items : list value) :
  (topicsBreak host (lookup (lit "topics") fs) = false ->
   exists pieces,
     GithubTs.formatting host (VObj fs) (lit "repository") = Normal pieces /\
     GithubTs.formatForHumans host (VObj fs) (lit "repository") = List.concat pieces /\
     repositoryRule EmptyString fs pieces) /\
  (topicsBreak host (lookup (lit "topics") fs) = true ->
   GithubTs.formatForHumans host (VObj fs) (lit "repository") = fallback host (VObj fs)) /\
  (records <> [] ->
   Forall (fun r => topicsBreak host (lookup (lit "topics") r) = false) records ->
   exists entries,
     GithubTs.formatting host (VArr (map VObj records)) (lit "repository")
     = Normal (countLine (lit "repository") (map VObj records) :: List.concat entries) /\
     GithubTs.formatForHumans host (VArr (map VObj records)) (lit "repository")
     = countLine (lit "repository") (map VObj records) ++ List.concat (List.concat entries) /\
     entriesOf (GithubTs.repositoryEntry host) (map VObj records) entries /\
     Forall2 (repositoryRule "   ") records entries) /\
  (Exists (fun r => topicsBreak host (lookup (lit "topics") r) = true) records ->
   GithubTs.formatForHumans host (VArr (map VObj records)) (lit "repository")
   = fallback host (VArr (map VObj records))) /\
  (existsb nullish items = true ->
   GithubTs.formatForHumans host (VArr items) (lit "repository")
   = fallback host (VArr items)) /\
  (forall v,
     GithubTs.formatting host (VObj (assign (lit "clone_url") v fs)) (lit "repository")
     = GithubTs.formatting host (VObj fs) (lit "repository") /\
     GithubTs.formatting host (VArr (map VObj (map (assign (lit "clone_url") v) records)))
       (lit "repository")
     = GithubTs.formatting host (VArr (map VObj records)) (lit "repository")) /\
  Part000.formatForHumans host = GithubTs.formatForHumans host.
Proof.
  split; [|split; [|split; [|split; [|split; [|split]]]]].
  - intros B. destruct (repositoryDetails_rule host fs B) as (pieces & E & R & _).
    exists pieces. unfold GithubTs.formatForHumans. rewrite formatting_repository.
    cbn [GithubTs.listing]. rewrite E. repeat split; try reflexivity; apply R.
  - intros B. destruct (repository_broken host 0 fs B) as ((m & E) & _).
    unfold GithubTs.formatForHumans. rewrite formatting_repository.
    cbn [GithubTs.listing]. rewrite E. reflexivity.
  - intros Hne Hq.
    destruct (listing_rule "未找到任何仓库。" " 个仓库:" (GithubTs.repositoryEntry host)
                (GithubTs.repositoryDetails host) (lit "repository")
                (fun r => topicsBreak host (lookup (lit "topics") r) = false)
                (repositoryRule "   ") records Hne eq_refl) as (entries & E & H & F).
    + intros i r B. destruct (repositoryEntry_rule host i r B) as (e & Ee & _ & R & _).
      exists e. split; assumption.
    + exact Hq.
    + exists entries. unfold GithubTs.formatForHumans. rewrite formatting_repository, E.
      repeat split; try reflexivity; try assumption; apply H.
  - intros Hq.
    destruct (Exists_exists (fun r => topicsBreak host (lookup (lit "topics") r) = true) records)
      as [Hex _].
    destruct (Hex Hq) as (r0 & Hin & _).
    assert (Hne : records <> []) by (intros ->; destruct Hin).
    destruct (listing_objects_break "未找到任何仓库。" " 个仓库:" (GithubTs.repositoryEntry host)
                (GithubTs.repositoryDetails host) records) as (m & E); [|exact Hne|].
    + apply (forEachFrom_breaks _ (fun r => topicsBreak host (lookup (lit "topics") r) = true));
        [|exact Hq].
      intros i r B. apply (repository_broken host i r B).
    + unfold GithubTs.formatForHumans. rewrite formatting_repository, E. reflexivity.
  - intros N. destruct (formatting_throws_on_null_element host items (lit "repository") N)
      as (m & E).
    unfold GithubTs.formatForHumans. rewrite E. reflexivity.
  - intros v. split; [apply formatting_ignores_clone_url | apply listing_ignores_clone_url].
  - reflexivity.
Qed.

Lemma repository_lines_follow_truthiness_witness :
  (exists pieces,
     GithubTs.formatting sampleHost (VObj unstarred) (lit "repository") = Normal pieces /\
     ~ labelled "星标数: " pieces) /\
  (exists entries,
     GithubTs.formatForHumans sampleHost (VArr [VObj starred; VObj unstarred])
       (lit "repository")
     = lit "找到 2 个仓库:" ++ nl ++ nl ++ List.concat (List.concat entries) /\
     Forall2 (repositoryRule "   ") [starred; unstarred] entries) /\
  GithubTs.formatForHumans sampleHost (VObj oddTopics) (lit "repository")
  = fallback sampleHost (VObj oddTopics).
Proof.
  destruct (repository_lines_follow_truthiness sampleHost unstarred [starred; unstarred] [])
    as (Ho & _ & Ha & _).
  destruct (repository_lines_follow_truthiness sampleHost oddTopics [] [])
    as (_ & Hb & _).
  split; [|split].
  - destruct (Ho eq_refl) as (pieces & E & _ & R). exists pieces. split; [exact E|].
    destruct R as ((Hiff & _) & _). intros L. apply Hiff in L. vm_compute in L. discriminate.
  - destruct Ha as (entries & _ & E & _ & F).
    + discriminate.
    + repeat constructor.
    + exists entries. cbn [map] in E. split; [rewrite E; reflexivity | exact F].
  - apply Hb. reflexivity.
Defined.

(** C10 as stated fails on a record the cleaner returns.  The cleaner copies
    [topics] whenever it is truthy, whatever it is: from a repository with
    five stars whose [topics] is the text [x] it returns a record whose
    [stars] is 5 and whose [topics] is that text.  Its [stars] is truthy, yet
    the text of the formatter is the JSON fallback and has no star line; the
    same happens to a printable repository that shares an array with
    [null]. *)
Lemma star_line_counterexample :
  GithubTs.cleanGitHubResponse (VObj oddTopicsSource) (lit "repository") = VObj oddTopics /\
  truthy (lookup (lit "stars") oddTopics) = true /\
  GithubTs.formatForHumans sampleHost (VObj oddTopics) (lit "repository")
  = lit "数据:" ++ nl ++ lit "[object Object]" /\
  truthy (lookup (lit "stars") starred) = true /\
  GithubTs.formatForHumans sampleHost (VArr [VObj starred; VNull]) (lit "repository")
  = lit "数据:" ++ nl ++ lit "[object Object]," /\
  GithubTs.formatForHumans sampleHost (VObj starred) (lit "repository")
  = lit "仓库: a/b" ++ nl ++ lit "链接: https://github.com/a/b" ++ nl
    ++ lit "星标数: 5" ++ nl ++ lit "主题标签: mcp" ++ nl
    ++ lit "更新于: 1704067200000" ++ nl.
Proof. repeat split; vm_compute; reflexivity. Qed.

(** ** Dates *)




(** ** Pagination *)

(** C8, as amended.  [getIssueComments] asks for the comments of the page
    with [per_page] 30, and its answer ends with the hint of the next page
    exactly as the pagination record built from the returned array says:
    [has_next_page] is [true] when the call returns 30 comments and [false]
    when it returns fewer.  [getPullRequestComments] asks for the comments
    and for the review comments with [per_page] 20 each, and its answer ends
    so as the record built from the two returned arrays says:
    [has_next_page] is [true] if and only if one of the two calls returns 20
    items or more, so it is [true] when either returns exactly 20, whatever
    the other returns, and [false] only when both return fewer.  In both
    handlers the text is the lines of the cleaned issue or pull request, the
    blocks of the comments in the order of the list, and the hint when the
    list is not empty and [has_next_page] holds. *)
Theorem has_next_page_heuristic (host : Host) (runtime : GithubTsServer.Runtime)
    (rest : GithubTsServer.Rest) (owner repo : jsstring) (number : Z) (page : option Z)
    (fs : object) (comments reviews : list object) :
  let shown := match page with Some p => p | None => 1%Z end in
  (forall l, Permutation (GithubTsServer.sortedByCreation runtime l) l) ->
  (rest GithubTsServer.issues_get
     [ (lit "owner", VStr owner); (lit "repo", VStr repo); (lit "issue_number", VNum number) ]
   = GithubTsServer.Answered {| GithubTs.data := VObj fs |} ->
   rest GithubTsServer.issues_listComments (GithubTs.issueCommentsRequest owner repo number shown)
   = GithubTsServer.Answered {| GithubTs.data := VArr (map VObj comments) |} ->
   lookup (lit "per_page") (GithubTs.issueCommentsRequest owner repo number shown) = VNum 30 /\
   (exists out records blocks,
      GithubTs.cleanGitHubResponse (VObj fs) (lit "issue") = VObj out /\
      mapM GithubTs.commentRecord (map VObj comments) = Normal records /\
      GithubTs.forEachFrom (GithubTs.commentBlock host) 0 records = Normal blocks /\
      GithubTs.getIssueComments host (GithubTsServer.octokit rest) owner repo number page
      = Normal (GithubTs.textResult
                  (List.concat
                     (issueHead host shown out
                      ++ GithubTsServer.commentsPart records blocks
                           (GithubTs.issueCommentsPagination shown (map VObj comments)))))) /\
   (List.length comments = 30 ->
    GithubTs.has_next_page (GithubTs.issueCommentsPagination shown (map VObj comments)) = true) /\
   (List.length comments < 30 ->
    GithubTs.has_next_page (GithubTs.issueCommentsPagination shown (map VObj comments))
    = false)) /\
  (rest GithubTsServer.pulls_get
     [ (lit "owner", VStr owner); (lit "repo", VStr repo); (lit "pull_number", VNum number) ]
   = GithubTsServer.Answered {| GithubTs.data := VObj fs |} ->
   rest GithubTsServer.issues_listComments (GithubTs.pullCommentsRequest owner repo number shown)
   = GithubTsServer.Answered {| GithubTs.data := VArr (map VObj comments) |} ->
   rest GithubTsServer.pulls_listReviewComments
     (GithubTs.reviewCommentsRequest owner repo number shown)
   = GithubTsServer.Answered {| GithubTs.data := VArr (map VObj reviews) |} ->
   lookup (lit "per_page") (GithubTs.pullCommentsRequest owner repo number shown) = VNum 20 /\
   lookup (lit "per_page") (GithubTs.reviewCommentsRequest owner repo number shown) = VNum 20 /\
   (exists out head issueComments reviewComments blocks,
      GithubTs.cleanGitHubResponse (VObj fs) (lit "pull_request") = VObj out /\
      GithubTsServer.pullHead host shown (VObj out) = Normal head /\
      mapM GithubTsServer.issueCommentRecord (map VObj comments) = Normal issueComments /\
      mapM GithubTsServer.reviewCommentRecord (map VObj reviews) = Normal reviewComments /\
      GithubTs.forEachFrom (GithubTsServer.pullCommentBlock host) 0
        (GithubTsServer.sortedByCreation runtime (issueComments ++ reviewComments))
      = Normal blocks /\
      GithubTsServer.getPullRequestComments host runtime rest owner repo number page
      = Normal (GithubTs.textResult
                  (List.concat
                     (head
                      ++ GithubTsServer.commentsPart
                           (GithubTsServer.sortedByCreation runtime
                              (issueComments ++ reviewComments))
                           blocks
                           (GithubTs.pullRequestCommentsPagination shown
                              (map VObj comments) (map VObj reviews)))))) /\
   (GithubTs.has_next_page
      (GithubTs.pullRequestCommentsPagination shown (map VObj comments) (map VObj reviews))
    = true <-> 20 <= List.length comments \/ 20 <= List.length reviews) /\
   (List.length comments = 20 \/ List.length reviews = 20 ->
    GithubTs.has_next_page
      (GithubTs.pullRequestCommentsPagination shown (map VObj comments) (map VObj reviews))
    = true) /\
   (List.length comments < 20 /\ List.length reviews < 20 ->
    GithubTs.has_next_page
      (GithubTs.pullRequestCommentsPagination shown (map VObj comments) (map VObj reviews))
    = false)).
Proof.
  intros shown Hsort. split.
  - intros Hi Hc. split; [reflexivity|]. split; [|split].
    + destruct (clean_issue_object fs) as (out & Eo).
      destruct (mapM_objects GithubTs.commentRecord comments commentRecord_object)
        as (records & Er & _).
      destruct (forEachFrom_total (GithubTs.commentBlock host) isObject (map VObj records)
                  (commentBlock_total host) (objects_are_objects records) 0) as (blocks & Eb).
      exists out, (map VObj records), blocks.
      split; [exact Eo|]. split; [exact Er|]. split; [exact Eb|].
      unfold GithubTs.getIssueComments.
      cbn [GithubTsServer.octokit GithubTs.issues_get GithubTs.issues_listComments].
      fold shown. rewrite Hi. cbn [GithubTsServer.awaited bind GithubTs.data].
      rewrite Hc. cbn [GithubTsServer.awaited bind GithubTs.data].
      rewrite Eo, Er. cbn [bind get]. rewrite Eb. cbn [bind GithubTs.catching].
      unfold issueHead, GithubTsServer.commentsPart, GithubTsServer.nextPageHint.
      rewrite <- !app_assoc. reflexivity.
    + intros L. cbn [GithubTs.issueCommentsPagination GithubTs.has_next_page].
      rewrite length_map. apply Nat.leb_le. unfold object in *; clear - L; lia.
    + intros L. cbn [GithubTs.issueCommentsPagination GithubTs.has_next_page].
      rewrite length_map. apply Nat.leb_gt. unfold object in *; clear - L; lia.
  - intros Hp Hc Hr. split; [reflexivity|]. split; [reflexivity|].
    split; [|split; [|split]].
    + destruct (clean_pull_request_object fs) as (out & Eo).
      destruct (pullHead_object host shown out) as (head & Eh).
      destruct (mapM_objects GithubTsServer.issueCommentRecord comments
                  issueCommentRecord_object) as (ics & Ei & _).
      destruct (mapM_objects GithubTsServer.reviewCommentRecord reviews
                  reviewCommentRecord_object) as (rcs & Ev & _).
      assert (Ho : forallb isObject
                     (GithubTsServer.sortedByCreation runtime (map VObj ics ++ map VObj rcs))
                   = true).
      { apply (forallb_permuted _ _ _ (Hsort _)).
        rewrite <- map_app. apply objects_are_objects. }
      destruct (forEachFrom_total (GithubTsServer.pullCommentBlock host) isObject _
                  (pullCommentBlock_total host) Ho 0) as (blocks & Eb).
      exists out, head, (map VObj ics), (map VObj rcs), blocks.
      split; [exact Eo|]. split; [exact Eh|]. split; [exact Ei|]. split; [exact Ev|].
      split; [exact Eb|].
      unfold GithubTsServer.getPullRequestComments. fold shown.
      rewrite Hp. cbn [GithubTsServer.awaited bind GithubTs.data].
      rewrite Hc. cbn [GithubTsServer.awaited bind GithubTs.data].
      rewrite Hr. cbn [GithubTsServer.awaited bind GithubTs.data GithubTsServer.mapped].
      rewrite Ei. cbn [bind]. rewrite Ev. cbn [bind GithubTsServer.itemsOf].
      rewrite Eo, Eh. cbn [bind]. rewrite Eb. reflexivity.
    + cbn [GithubTs.pullRequestCommentsPagination GithubTs.has_next_page].
      rewrite !length_map, orb_true_iff, !Nat.leb_le. reflexivity.
    + cbn [GithubTs.pullRequestCommentsPagination GithubTs.has_next_page].
      rewrite !length_map. intros [L|L]; apply orb_true_iff; [left | right];
        apply Nat.leb_le; unfold object in *; clear - L; lia.
    + cbn [GithubTs.pullRequestCommentsPagination GithubTs.has_next_page].
      rewrite !length_map. intros [L1 L2]. apply orb_false_iff.
      split; apply Nat.leb_gt; unfold object in *; clear - L1 L2; lia.
Qed.

Lemma has_next_page_heuristic_witness :
  GithubTs.has_next_page
    (GithubTs.issueCommentsPagination 1 (map VObj (commentsOf 30))) = true /\
  GithubTs.has_next_page
    (GithubTs.issueCommentsPagination 1 (map VObj (commentsOf 7))) = false /\
  GithubTs.has_next_page
    (GithubTs.pullRequestCommentsPagination 1 (map VObj (commentsOf 20))
       (map VObj (commentsOf 3))) = true /\
  GithubTs.has_next_page
    (GithubTs.pullRequestCommentsPagination 1 (map VObj (commentsOf 19))
       (map VObj (commentsOf 3))) = false /\
  (exists text,
     GithubTsServer.getPullRequestComments sampleHost sampleRuntime (commented 19 3)
       (lit "a") (lit "b") 7 None
     = Normal (GithubTs.textResult text)).
Proof.
  destruct (has_next_page_heuristic sampleHost sampleRuntime (commented 30 2)
              (lit "a") (lit "b") 3 None oddIssue (commentsOf 30) (commentsOf 2))
    as (Hfull & _); [intros l; apply Permutation_refl|].
  destruct (has_next_page_heuristic sampleHost sampleRuntime (commented 7 3)
              (lit "a") (lit "b") 3 None oddIssue (commentsOf 7) (commentsOf 3))
    as (Hshort & _); [intros l; apply Permutation_refl|].
  destruct (has_next_page_heuristic sampleHost sampleRuntime (commented 20 3)
              (lit "a") (lit "b") 7 None samplePull (commentsOf 20) (commentsOf 3))
    as (_ & Hone); [intros l; apply Permutation_refl|].
  destruct (has_next_page_heuristic sampleHost sampleRuntime (commented 19 3)
              (lit "a") (lit "b") 7 None samplePull (commentsOf 19) (commentsOf 3))
    as (_ & Hnone); [intros l; apply Permutation_refl|].
  destruct (Hfull eq_refl eq_refl) as (_ & _ & Ht & _).
  destruct (Hshort eq_refl eq_refl) as (_ & _ & _ & Hf).
  destruct (Hone eq_refl eq_refl eq_refl) as (_ & _ & _ & _ & Ht' & _).
  destruct (Hnone eq_refl eq_refl eq_refl)
    as (_ & _ & (out & head & ics & rcs & blocks & _ & _ & _ & _ & _ & Et) & _ & _ & Hf').
  split; [apply Ht; reflexivity|].
  split; [apply Hf; vm_compute; lia|].
  split; [apply Ht'; left; reflexivity|].
  split; [apply Hf'; vm_compute; lia|].
  eexists. exact Et.
Defined.

(** C8 as stated fails on [getPullRequestComments]: the call for the comments
    returns 3 items, fewer than the 20 it asked for, the call for the review
    comments returns 20, and [has_next_page] is [true]: the answer ends with
    the hint of the next page. *)
Lemma mixed_pages_counterexample :
  commented 3 20 GithubTsServer.issues_listComments
    (GithubTs.pullCommentsRequest (lit "a") (lit "b") 7 1)
  = GithubTsServer.Answered {| GithubTs.data := VArr (map VObj (commentsOf 3)) |} /\
  lookup (lit "per_page") (GithubTs.pullCommentsRequest (lit "a") (lit "b") 7 1) = VNum 20 /\
  List.length (commentsOf 3) = 3 /\
  GithubTs.has_next_page
    (GithubTs.pullRequestCommentsPagination 1 (map VObj (commentsOf 3))
       (map VObj (commentsOf 20))) = true /\
  exists text,
    GithubTsServer.getPullRequestComments sampleHost sampleRuntime (commented 3 20)
      (lit "a") (lit "b") 7 None
    = Normal (GithubTs.textResult text) /\
    Part000Tools.includes (lit "使用 page: 2 查看下一页") text = true.
Proof.
  split; [reflexivity|]. split; [reflexivity|]. split; [reflexivity|].
  split; [reflexivity|].
  eexists. split; [vm_compute; reflexivity | vm_compute; reflexivity].
Qed.

(** ** The promise of a handler *)

Ltac unfold_handlers :=
  unfold GithubTs.listRepositories, GithubTs.getIssueComments,
    GithubTsServer.createRepository, GithubTsServer.getRepository,
    GithubTsServer.deleteRepository, GithubTsServer.deleteBranch,
    GithubTsServer.createPullRequest, GithubTsServer.listPullRequests,
    GithubTsServer.updatePullRequest, GithubTsServer.getPullRequestComments,
    GithubTsServer.createPullRequestComment, GithubTsServer.createPullRequestReviewComment,
    GithubTsServer.createIssue, GithubTsServer.listIssues, GithubTsServer.updateIssue,
    GithubTsServer.closeIssue, GithubTsServer.createIssueComment,
    GithubTsServer.commentCreated, GithubTsServer.listFrequentCommunicators,
    GithubTsAnswers.listContributors, GithubTsAnswers.createBranch,
    GithubTsAnswers.getBranch, GithubTsAnswers.listCommits, GithubTsAnswers.getCommit,
    GithubTsAnswers.createCommit, GithubTsAnswers.getPullRequest,
    GithubTsAnswers.mergePullRequest, GithubTsAnswers.getIssue,
    GithubTsAnswers.updateFileContent, GithubTsTools.listBranches,
    GithubTsTools.listFollowing, GithubTsTools.listFollowingWith,
    GithubTsTools.getFileContent, GithubTsFollowed.listFollowingUserRepos,
    GithubTsAnswers.answering, GithubTsAnswers.answeringRaw, GithubTsServer.calling;
  cbn [GithubTsServer.octokit GithubTs.repos_listForAuthenticatedUser
       GithubTs.repos_replaceAllTopics GithubTs.repos_get GithubTs.repos_update
       GithubTs.issues_get GithubTs.issues_listComments GithubTs.pulls_listReviewComments].

Lemma handle_resolves (host : Host) (runtime : GithubTsServer.Runtime)
    (rest : GithubTsServer.Rest) (call : GithubTsServer.invocation) :
  exists result, GithubTsServer.handle host runtime rest call = Normal result.
Proof.
  destruct call; cbn [GithubTsServer.handle];
    try (unfold_handlers; apply catching_resolves).
  unfold GithubTsServer.listRepositoryContents.
  destruct (rest _ _) as [r|status message]; [|eexists; reflexivity].
  destruct (GithubTsServer.contentsText _ _ _ _ _ _); eexists; reflexivity.
Qed.

Lemma updateRepository_fails (host : Host) (rest : GithubTsServer.Rest)
    (owner repo : jsstring) (given : object) (status : value) (m : jsstring) :
  (forall params, rest GithubTsServer.repos_get params = GithubTsServer.Failed status m) ->
  (forall params, rest GithubTsServer.repos_update params = GithubTsServer.Failed status m) ->
  GithubTs.updateRepository host (GithubTsServer.octokit rest) owner repo given
  = Normal (GithubTs.textResult (lit "Error: " ++ m)).
Proof.
  intros Hg Hu. unfold GithubTs.updateRepository.
  cbn [GithubTsServer.octokit GithubTs.repos_replaceAllTopics GithubTs.repos_get
       GithubTs.repos_update].
  rewrite Hg, Hu.
  match goal with |- GithubTs.catching (if ?c then _ else _) = _ => destruct c end;
    reflexivity.
Qed.

Lemma handle_fails (host : Host) (runtime : GithubTsServer.Runtime)
    (rest : GithubTsServer.Rest) (status : value) (m : jsstring)
    (call : GithubTsServer.invocation) :
  (forall e params, rest e params = GithubTsServer.Failed status m) ->
  listsContents call = false ->
  GithubTsServer.handle host runtime rest call
  = Normal (GithubTs.textResult (lit "Error: " ++ m)).
Proof.
  intros H N. destruct call; cbn [GithubTsServer.handle]; try discriminate N;
    try (unfold_handlers; rewrite !H; reflexivity).
  apply (updateRepository_fails host rest owner repo given status m); intros; apply H.
Qed.

Lemma perRepository_swallows (runtime : GithubTsServer.Runtime) (rest : GithubTsServer.Rest)
    (username : jsstring) (issuePerPage commentPerPage : Z) (status : value) (m : jsstring)
    (r : object) (t : GithubTsServer.tallies) :
  (forall params, rest GithubTsServer.issues_listForRepo params
                  = GithubTsServer.Answered {| GithubTs.data := VArr [] |}) ->
  (forall params, rest GithubTsServer.pulls_list params = GithubTsServer.Failed status m) ->
  GithubTsServer.perRepository rest username issuePerPage commentPerPage (VObj r) t
  = (t, Normal tt).
Proof.
  intros Hi Hp. unfold GithubTsServer.perRepository, GithubTsServer.repoOwner.
  cbn [get bind].
  assert (E : exists login,
             (login <- match lookup (lit "owner") r with
                       | VUndefined | VNull => Normal VUndefined
                       | _ => get (lookup (lit "owner") r) (lit "login")
                       end ;;
              Normal (orElse login (VStr username))) = Normal login).
  { destruct (lookup (lit "owner") r); cbn [get bind]; eexists; reflexivity. }
  destruct E as (login & E). rewrite E.
  unfold GithubTsServer.andThen, GithubTsServer.lift at 1 2.
  cbn beta iota. rewrite Hi.
  cbn [GithubTsServer.awaited GithubTs.data GithubTsFollowed.iterated GithubTsServer.lift
       GithubTsServer.forOf GithubTsServer.pure GithubTsServer.attempt fst].
  rewrite Hp. reflexivity.
Qed.

Lemma repositories_swallow (runtime : GithubTsServer.Runtime) (rest : GithubTsServer.Rest)
    (username : jsstring) (issuePerPage commentPerPage : Z) (status : value) (m : jsstring)
    (repos : list object) (t : GithubTsServer.tallies) :
  (forall params, rest GithubTsServer.issues_listForRepo params
                  = GithubTsServer.Answered {| GithubTs.data := VArr [] |}) ->
  (forall params, rest GithubTsServer.pulls_list params = GithubTsServer.Failed status m) ->
  GithubTsServer.forOf (map VObj repos)
    (GithubTsServer.perRepository rest username issuePerPage commentPerPage) t
  = (t, Normal tt).
Proof.
  intros Hi Hp. induction repos as [|r more IH]; [reflexivity|].
  cbn [map GithubTsServer.forOf]. unfold GithubTsServer.andThen.
  rewrite (perRepository_swallows runtime rest username _ _ status m r t Hi Hp). exact IH.
Qed.

Lemma lookBack_swallows (runtime : GithubTsServer.Runtime) (rest : GithubTsServer.Rest)
    (username : jsstring) (status : value) (m : jsstring) (t : GithubTsServer.tallies) :
  (forall params, rest GithubTsServer.pulls_list params = GithubTsServer.Failed status m) ->
  GithubTsServer.lookBack runtime rest username t = (t, Normal tt).
Proof.
  intros Hp. unfold GithubTsServer.lookBack, GithubTsServer.attempt. f_equal.
  generalize (GithubTsServer.topUsers runtime t) as users. intros users.
  apply (quiet_forOf users). intros otherUser.
  apply quiet_andThen; [apply quiet_lift|]. intros reposResult.
  apply quiet_andThen; [apply quiet_lift|]. intros otherUserRepos.
  apply quiet_forOf. intros otherRepo.
  apply quiet_andThen; [apply quiet_lift|]. intros name.
  rewrite Hp. apply quiet_failed.
Qed.



